(** * Mirascope: call setup, cost table, stream materialisation and hook wrappers

    A shallow embedding of

    - [mirascope/core/openai/_utils.py]  ([setup_call], [setup_extract],
      [extract_tool_return], [openai_api_calculate_cost]),
    - [mirascope/core/openai/stream.py]  ([OpenAIStream.construct_call_response]),
    - [mirascope/base/ops_utils.py]      ([get_class_vars], [mirascope_span],
      [wrap_mirascope_class_functions]).

    Python dictionaries keyed by strings are finite maps ([gmap string _]),
    Python exceptions are an explicit error result, Python floats are
    binary64 values, and the hooks and context managers that
    [mirascope_span] calls are observed through a trace of call events. *)

From Stdlib Require Import ZArith Floats Ascii.
From stdpp Require Import gmap strings list fin_maps.

Set Default Proof Using "Type".
Local Set Warnings "-inexact-float,-register-all".

(** ** Exceptions and fallible results *)

(** The exception classes the modelled code raises itself or lets escape from
    the interpreter; [Exception] stands for anything raised by user code. *)
Inductive exn :=
| KeyError (key : string)
| ValueError (msg : string)
| TypeError (msg : string)
| AssertionError (msg : string)
| AttributeError (name : string)
| OverflowError (msg : string)
| ValidationError (msg : string)
| Exception (msg : string).

Inductive result (A : Type) :=
| Ok (a : A)
| Raise (e : exn).
Arguments Ok {A} a.
Arguments Raise {A} e.

Definition result_bind {A B} (f : A -> result B) (r : result A) : result B :=
  match r with
  | Ok a => f a
  | Raise e => Raise e
  end.

#[export] Instance result_ret : MRet result := fun _ a => Ok a.
#[export] Instance result_mbind : MBind result := fun _ _ f r => result_bind f r.
#[export] Instance result_fmap : FMap result :=
  fun _ _ f r => match r with Ok a => Ok (f a) | Raise e => Raise e end.

Definition returns {A} (r : result A) : Prop := exists a, r = Ok a.
Definition raises {A} (r : result A) : Prop := exists e, r = Raise e.

(** Truth value of an optional list: [None] and [[]] are false. *)
Definition list_truthy {A} (l : option (list A)) : bool :=
  match l with
  | Some (_ :: _) => true
  | _ => false
  end.

(** [openai.types.completion_usage.CompletionUsage].  Python integers are
    unbounded. *)
Record CompletionUsage := {
  prompt_tokens : Z;
  completion_tokens : Z;
  total_tokens : Z;
}.

(** ** Cost table: [openai_api_calculate_cost] *)

Module Cost.

(** Python floats are binary64 values ([spec_float] at precision 53). *)
Definition float_of_int_exact (n : Z) : spec_float :=
  binary_normalize prec emax n 0 false.

(** The value of the decimal literal [digits * 10 ^ exponent]: the binary64
    value nearest to it (ties to even).  For the literals of this module
    [digits] and [10 ^ |exponent|] are binary64 values themselves, so the
    correctly rounded quotient is that nearest value. *)
Definition literal (digits exponent : Z) : spec_float :=
  if (0 <=? exponent)%Z
  then float_of_int_exact (digits * 10 ^ exponent)
  else SF64div (float_of_int_exact digits) (float_of_int_exact (10 ^ (- exponent))).

(** The [pricing] dict literal, in source order: model name, then the
    ["prompt"] and ["completion"] unit prices; [literal 5 (-6)] is
    [0.000_005]. *)
Definition pricing : list (string * (spec_float * spec_float)) :=
  [ ("gpt-4o",                 (literal 5 (-6),   literal 15 (-6)));
    ("gpt-4o-2024-05-13",      (literal 5 (-6),   literal 15 (-6)));
    ("gpt-4-turbo",            (literal 1 (-5),   literal 3 (-5)));
    ("gpt-4-turbo-2024-04-09", (literal 1 (-5),   literal 3 (-5)));
    ("gpt-3.5-turbo-0125",     (literal 5 (-7),   literal 15 (-7)));
    ("gpt-3.5-turbo-1106",     (literal 1 (-6),   literal 2 (-6)));
    ("gpt-4-1106-preview",     (literal 1 (-5),   literal 3 (-5)));
    ("gpt-4",                  (literal 3 (-6),   literal 6 (-6)));
    ("gpt-3.5-turbo-4k",       (literal 15 (-6),  literal 2 (-5)));
    ("gpt-3.5-turbo-16k",      (literal 3 (-6),   literal 4 (-6)));
    ("gpt-4-8k",               (literal 3 (-6),   literal 6 (-6)));
    ("gpt-4-32k",              (literal 6 (-6),   literal 12 (-6)));
    ("text-embedding-3-small", (literal 2 (-8),   literal 2 (-8)));
    ("text-embedding-ada-002", (literal 1 (-7),   literal 1 (-7)));
    ("text-embedding-3-large", (literal 13 (-8),  literal 13 (-8))) ].

(** [pricing[model]]: the value stored under the key, [KeyError] otherwise. *)
Fixpoint dict_getitem {V} (d : list (string * V)) (key : string) : result V :=
  match d with
  | [] => Raise (KeyError key)
  | (k, v) :: d' => if decide (k = key) then Ok v else dict_getitem d' key
  end.

(** [int * float]: the integer is first converted to the nearest binary64
    value (ties to even); CPython raises [OverflowError] when that
    conversion leaves the finite range. *)
Definition float_of_int (n : Z) : result spec_float :=
  match float_of_int_exact n with
  | S754_infinity _ => Raise (OverflowError "int too large to convert to float")
  | f => Ok f
  end.

Definition int_mul_float (n : Z) (x : spec_float) : result spec_float :=
  f ← float_of_int n; Ok (SF64mul f x).

(** The default value of the [model] parameter. *)
Definition default_model : string := "gpt-3.5-turbo-16k".

Definition openai_api_calculate_cost
    (usage : option CompletionUsage) (model : string)
    : result (option spec_float) :=
  match usage with
  | None => Ok None
  | Some usage =>
      match dict_getitem pricing model with
      | Raise (KeyError _) => Ok None
      | Raise e => Raise e
      | Ok (prompt_price, completion_price) =>
          prompt_cost ← int_mul_float (prompt_tokens usage) prompt_price;
          completion_cost ← int_mul_float (completion_tokens usage) completion_price;
          let total_cost := SF64add prompt_cost completion_cost in
          Ok (Some total_cost)
      end
  end.

(** A model name is priced when it is a key of the table. *)
Definition priced (model : string) : Prop := model ∈ pricing.*1.

End Cost.

(** ** Class variables: [get_class_vars] *)

Module ClassVars.
Section class_vars.
Context {V : Type}.

(** What [get_class_vars] reads of a pydantic model: the names in
    [____class_vars__], in the order the loop visits them, and the attributes
    of the model's class. *)
Record BaseModel := {
  __class_vars__ : list string;
  class_attributes : gmap string V;
}.

(** [getattr(cls.__class__, name)] *)
Definition getattr (cls : BaseModel) (name : string) : result V :=
  match class_attributes cls !! name with
  | Some v => Ok v
  | None => Raise (AttributeError name)
  end.

(** The body of the [for] loop, from a given state of [class_vars]. *)
Fixpoint get_class_vars_loop
    (cls : BaseModel) (names : list string) (class_vars : gmap string V)
    : result (gmap string V) :=
  match names with
  | [] => Ok class_vars
  | classvars :: names' =>
      if negb (bool_decide (classvars = "api_key"))
      then v ← getattr cls classvars;
           get_class_vars_loop cls names' (<[classvars := v]> class_vars)
      else get_class_vars_loop cls names' class_vars
  end.

Definition get_class_vars (cls : BaseModel) : result (gmap string V) :=
  get_class_vars_loop cls (__class_vars__ cls) ∅.

(** Two models differ at most in the value of the [api_key] class variable:
    the same declared names and the same class attributes everywhere else. *)
Definition differ_only_in_api_key (c1 c2 : BaseModel) : Prop :=
  __class_vars__ c1 = __class_vars__ c2 /\
  delete "api_key" (class_attributes c1) = delete "api_key" (class_attributes c2).

End class_vars.
Arguments BaseModel V : clear implicits.

(** Two call classes with different keys and the same other class
    variables. *)
Definition book_call (key : string) : BaseModel string :=
  {| __class_vars__ := ["api_key"; "call_params"; "base_url"];
     class_attributes :=
       <["api_key" := key]>
         (<["call_params" := "gpt-4o"]> (<["base_url" := "https://api"]> ∅)) |}.

End ClassVars.

(** ** Streams: [OpenAIStream] *)

Module Stream.

(** [Choice.__annotations__["finish_reason"]] *)
Inductive FinishReason :=
| finish_stop | finish_length | finish_tool_calls | finish_content_filter
| finish_function_call.

(** The [Function] of a tool call: its arguments (a JSON text) and name. *)
Record Function := {
  arguments : string;
  name : string;
}.

(** A tool call, as a response object ([ChatCompletionMessageToolCall]) and
    as a request parameter ([ChatCompletionMessageToolCallParam]); both carry
    the type tag ["function"], an id and the function. *)
Record ChatCompletionMessageToolCall := {
  tool_call_id : string;
  tool_call_function : Function;
}.

Record ChatCompletionMessageToolCallParam := {
  param_id : string;
  param_function : Function;
}.

(** [ChatCompletionAssistantMessageParam], as this module builds and reads
    it: a role, a [content] key that may be missing and when present holds a
    string or [None], and a [tool_calls] key that may be missing. *)
Record ChatCompletionAssistantMessageParam := {
  param_role : string;
  param_content : option (option string);
  param_tool_calls : option (list ChatCompletionMessageToolCallParam);
}.

Record ChatCompletionMessage := {
  message_role : string;
  message_content : option string;
  message_tool_calls : list ChatCompletionMessageToolCall;
}.

Record Choice := {
  finish_reason : FinishReason;
  index : Z;
  message : ChatCompletionMessage;
}.

Record ChatCompletion := {
  completion_id : string;
  completion_model : string;
  choices : list Choice;
  created : Z;
  object : string;
  usage : option CompletionUsage;
}.

Section stream.
(** Values the stream only carries along: metadata, tool types, the dynamic
    configuration, messages, call parameters, timestamps, argument values. *)
Context {Metadata ToolTypes DynamicConfig Messages CallParams CallKwargs
         UserMessage Time V : Type}.

(** The attributes of an [OpenAIStream] that [construct_call_response]
    reads.  [message_param] is [None] while the attribute does not exist on
    the object ([hasattr] is false); the token counters are integers or
    [None]. *)
Record OpenAIStream := {
  message_param : option ChatCompletionAssistantMessageParam;
  input_tokens : option Z;
  output_tokens : option Z;
  id : option string;
  model : string;
  finish_reasons : option (list FinishReason);
  metadata : Metadata;
  tool_types : ToolTypes;
  prompt_template : option string;
  fn_args : option (gmap string V);
  dynamic_config : DynamicConfig;
  messages : Messages;
  call_params : CallParams;
  call_kwargs : CallKwargs;
  user_message_param : UserMessage;
  start_time : Time;
  end_time : Time;
}.

Record OpenAICallResponse := {
  response_metadata : Metadata;
  response : ChatCompletion;
  response_tool_types : ToolTypes;
  response_prompt_template : option string;
  response_fn_args : gmap string V;
  response_dynamic_config : DynamicConfig;
  response_messages : Messages;
  response_call_params : CallParams;
  response_call_kwargs : CallKwargs;
  response_user_message_param : UserMessage;
  response_start_time : Time;
  response_end_time : Time;
}.

(** Truth value of an optional integer: [None] and [0] are false. *)
Definition int_truthy (n : option Z) : bool :=
  match n with
  | Some n => negb (n =? 0)%Z
  | None => false
  end.

(** [int(n or 0)] *)
Definition int_or_zero (n : option Z) : Z :=
  if int_truthy n then default 0%Z n else 0%Z.

Definition str_truthy (s : option string) : bool :=
  match s with
  | Some s => negb (bool_decide (s = ""))
  | None => false
  end.

Definition _construct_message_param
    (tool_calls : option (list ChatCompletionMessageToolCall))
    (content : option string) : ChatCompletionAssistantMessageParam :=
  let message_param :=
    {| param_role := "assistant"; param_content := Some content;
       param_tool_calls := None |} in
  if list_truthy tool_calls
  then {| param_role := param_role message_param;
          param_content := param_content message_param;
          param_tool_calls :=
            Some ((fun tool_call =>
                     {| param_id := tool_call_id tool_call;
                        param_function :=
                          {| arguments := arguments (tool_call_function tool_call);
                             name := name (tool_call_function tool_call) |} |})
                    <$> default [] tool_calls) |}
  else message_param.

(** [ChatCompletionMessage.model_validate(message)] on the dictionary built
    from the message parameter: the role has to be ["assistant"], and every
    tool call parameter becomes a tool call object. *)
Definition model_validate_message
    (role : string) (content : option string)
    (tool_calls : list ChatCompletionMessageToolCallParam)
    : result ChatCompletionMessage :=
  if bool_decide (role = "assistant")
  then Ok {| message_role := role;
             message_content := content;
             message_tool_calls :=
               (fun p => {| tool_call_id := param_id p;
                            tool_call_function := param_function p |})
                 <$> tool_calls |}
  else Raise (ValidationError "role: Input should be 'assistant'").

Definition not_consumed_error : exn :=
  ValueError "No stream response, check if the stream has been consumed.".

Definition construct_call_response (self : OpenAIStream) : result OpenAICallResponse :=
  match message_param self with
  | None => Raise not_consumed_error
  | Some mp =>
      let role := param_role mp in
      let content := default (Some "") (param_content mp) in
      let tool_calls := default [] (param_tool_calls mp) in
      let usage :=
        if negb (int_truthy (input_tokens self)) && negb (int_truthy (output_tokens self))
        then None
        else Some {| prompt_tokens := int_or_zero (input_tokens self);
                     completion_tokens := int_or_zero (output_tokens self);
                     total_tokens := int_or_zero (input_tokens self)
                                     + int_or_zero (output_tokens self) |} in
      message ← model_validate_message role content tool_calls;
      let completion :=
        {| completion_id := if str_truthy (id self) then default "" (id self) else "";
           completion_model := model self;
           choices :=
             [ {| finish_reason :=
                    match finish_reasons self with
                    | Some (r :: _) => r
                    | _ => finish_stop
                    end;
                  index := 0;
                  message := message |} ];
           created := 0;
           object := "chat.completion";
           usage := usage |} in
      Ok {| response_metadata := metadata self;
            response := completion;
            response_tool_types := tool_types self;
            response_prompt_template := prompt_template self;
            response_fn_args :=
              match fn_args self with
              | Some args => args
              | None => ∅
              end;
            response_dynamic_config := dynamic_config self;
            response_messages := messages self;
            response_call_params := call_params self;
            response_call_kwargs := call_kwargs self;
            response_user_message_param := user_message_param self;
            response_start_time := start_time self;
            response_end_time := end_time self |}
  end.

End stream.
Arguments OpenAIStream : clear implicits.
Arguments OpenAICallResponse : clear implicits.

(** A stream before iteration, and the same stream once iteration has stored
    the assistant message built by [_construct_message_param]. *)
Definition fresh_stream : OpenAIStream unit unit unit unit unit unit unit Z string :=
  {| message_param := None;
     input_tokens := None;
     output_tokens := None;
     id := None;
     model := "gpt-4o-mini";
     finish_reasons := None;
     metadata := tt; tool_types := tt;
     prompt_template := Some "Recommend a {genre} book";
     fn_args := Some {[ "genre" := "fantasy" ]};
     dynamic_config := tt; messages := tt; call_params := tt; call_kwargs := tt;
     user_message_param := tt;
     start_time := 0%Z; end_time := 0%Z |}.

Definition consumed_stream : OpenAIStream unit unit unit unit unit unit unit Z string :=
  {| message_param := Some (_construct_message_param None (Some "The Name of the Wind"));
     input_tokens := Some 12%Z;
     output_tokens := Some 7%Z;
     id := Some "chatcmpl-1";
     model := "gpt-4o-mini";
     finish_reasons := Some [finish_stop];
     metadata := tt; tool_types := tt;
     prompt_template := Some "Recommend a {genre} book";
     fn_args := Some {[ "genre" := "fantasy" ]};
     dynamic_config := tt; messages := tt; call_params := tt; call_kwargs := tt;
     user_message_param := tt;
     start_time := 0%Z; end_time := 5%Z |}.

End Stream.

(** ** Call setup: [setup_call] and [setup_extract] *)

Module Setup.

(** The Python values that travel through call parameters, function
    arguments and messages.  A float is given by its binary64 value; a
    nested dictionary keeps its insertion order. *)
Inductive pyval :=
| VNone
| VBool (b : bool)
| VInt (n : Z)
| VFloat (x : spec_float)
| VStr (s : string)
| VList (l : list pyval)
| VDict (d : list (string * pyval)).

(** [bool(v)] *)
Definition truthy (v : pyval) : bool :=
  match v with
  | VNone => false
  | VBool b => b
  | VInt n => negb (n =? 0)%Z
  | VFloat x => match x with S754_zero _ => false | _ => true end
  | VStr s => negb (bool_decide (s = ""))
  | VList l => negb (bool_decide (l = []))
  | VDict d => negb (bool_decide (d = []))
  end.

(** [v == s] for a string [s] *)
Definition eq_str (v : pyval) (s : string) : bool :=
  match v with
  | VStr s' => bool_decide (s' = s)
  | _ => false
  end.

Fixpoint dict_lookup (d : list (string * pyval)) (key : string) : option pyval :=
  match d with
  | [] => None
  | (k, v) :: d' => if decide (k = key) then Some v else dict_lookup d' key
  end.

(** [key in v] for a string [key]: key membership in a dictionary, substring
    test in a string, element membership in a list, [TypeError] otherwise. *)
Definition contains (key : string) (v : pyval) : result bool :=
  match v with
  | VDict d => Ok (bool_decide (is_Some (dict_lookup d key)))
  | VStr s => Ok (bool_decide (is_Some (String.index 0 key s)))
  | VList l => Ok (existsb (fun x => eq_str x key) l)
  | _ => Raise (TypeError "argument is not iterable")
  end.

(** [v[key]] for a string [key] *)
Definition getitem (v : pyval) (key : string) : result pyval :=
  match v with
  | VDict d =>
      match dict_lookup d key with
      | Some x => Ok x
      | None => Raise (KeyError key)
      end
  | VStr _ => Raise (TypeError "string indices must be integers")
  | VList _ => Raise (TypeError "list indices must be integers or slices, not str")
  | _ => Raise (TypeError "object is not subscriptable")
  end.

(** [d |= other] on dictionaries: every entry of [other] is written into
    [d], so on a key of both the value of [other] stays. *)
Definition ior (d other : gmap string pyval) : gmap string pyval := other ∪ d.

Definition dict_truthy (d : option (gmap string pyval)) : bool :=
  match d with
  | Some d => negb (bool_decide (d = ∅))
  | None => false
  end.

(** The decorated function, as far as call setup looks at it:
    [inspect.getdoc fn]. *)
Record Callable := {
  getdoc : option string;
}.

Definition newline : string := String "010"%char EmptyString.

(** The text handed to [dedent] in JSON mode, up to the schema. *)
Definition extraction_instruction : string :=
  "            Extract a valid JSON object instance from the content using this schema:"
  +:+ newline +:+ "                        "
  +:+ newline +:+ "            ".

Definition roles : list string := ["system"; "user"; "assistant"; "tool"].

Section setup.
(** Tools as the caller declares them ([Tool]: a class or a function) and as
    the provider needs them ([ToolType]). *)
Context {Tool ToolType : Type}.

(** The dynamic return of the decorated function
    ([OpenAICallFunctionReturn]).  For [computed_fields], [messages] and
    [call_params] a missing key and a key holding [None] read the same
    ([.get(key, None)]); for [tools] the default is the static tool list, so
    a missing key ([None]) and a key holding [None] ([Some None]) differ. *)
Record OpenAICallFunctionReturn := {
  computed_fields : option (gmap string pyval);
  fr_tools : option (option (list Tool));
  fr_messages : option (list pyval);
  fr_call_params : option (gmap string pyval);
}.

(** Collaborators that live outside the modelled files. *)
Context (parse_prompt_messages :
           list string -> string -> gmap string pyval -> result (list pyval))
        (isclass : Tool -> bool)
        (convert_base_model_to_base_tool : Tool -> result ToolType)
        (convert_function_to_base_tool : Tool -> result ToolType)
        (tool_schema : ToolType -> pyval)
        (model_json_schema : ToolType -> pyval)
        (json_dumps : pyval -> string)
        (dedent : string -> string).

(** The [if fn_return is not None] block: the computed fields, the tools, the
    messages and the call keyword arguments after it. *)
Definition read_fn_return
    (fn_return : option OpenAICallFunctionReturn)
    (tools : option (list Tool)) (call_kwargs : gmap string pyval)
    : option (gmap string pyval) * option (list Tool) * option (list pyval)
      * gmap string pyval :=
  match fn_return with
  | Some fn_return =>
      let computed_fields := computed_fields fn_return in
      let tools := default tools (fr_tools fn_return) in
      let messages := fr_messages fn_return in
      let dynamic_call_params := fr_call_params fn_return in
      (computed_fields, tools, messages,
       if dict_truthy dynamic_call_params
       then ior call_kwargs (default ∅ dynamic_call_params)
       else call_kwargs)
  | None => (None, tools, None, call_kwargs)
  end.

(** The [if tools] block: the converted tool types and the call keyword
    arguments with their schemas. *)
Definition convert_tools
    (tools : option (list Tool)) (call_kwargs : gmap string pyval)
    : result (option (list ToolType) * gmap string pyval) :=
  if list_truthy tools
  then tool_types ← mapM (fun tool =>
                            if isclass tool
                            then convert_base_model_to_base_tool tool
                            else convert_function_to_base_tool tool)
                         (default [] tools);
       Ok (Some tool_types,
           <["tools" := VList (tool_schema <$> tool_types)]> call_kwargs)
  else Ok (None, call_kwargs).

(** [setup_call].  The first component is the caller's [fn_args] dictionary
    after the call, which [fn_args |= computed_fields] updates in place; the
    second is the returned tuple, or the exception. *)
Definition setup_call
    (fn : Callable) (fn_args : gmap string pyval)
    (fn_return : option OpenAICallFunctionReturn)
    (tools : option (list Tool)) (call_params : gmap string pyval)
    : gmap string pyval
      * result (option string * list pyval * option (list ToolType)
                * gmap string pyval) :=
  let call_kwargs := call_params in
  let '(computed_fields, tools, messages, call_kwargs) :=
    read_fn_return fn_return tools call_kwargs in
  let '(fn_args, parsed) :=
    if negb (list_truthy messages)
    then match getdoc fn with
         | None => (fn_args, Raise (AssertionError "The function must have a docstring."))
         | Some prompt_template =>
             let fn_args :=
               if dict_truthy computed_fields
               then ior fn_args (default ∅ computed_fields)
               else fn_args in
             (fn_args,
              messages ← parse_prompt_messages roles prompt_template fn_args;
              Ok (Some prompt_template, messages))
         end
    else (fn_args, Ok (None, default [] messages)) in
  (fn_args,
   '(prompt_template, messages) ← parsed;
   '(tool_types, call_kwargs) ← convert_tools tools call_kwargs;
   Ok (prompt_template, messages, tool_types, call_kwargs)).

(** [[tool_type] = tool_types]: unpacking into a one-element pattern. *)
Definition unpack_single (tool_types : option (list ToolType)) : result ToolType :=
  match tool_types with
  | None => Raise (TypeError "cannot unpack non-iterable NoneType object")
  | Some [tool_type] => Ok tool_type
  | Some [] => Raise (ValueError "not enough values to unpack (expected 1, got 0)")
  | Some _ => Raise (ValueError "too many values to unpack (expected 1)")
  end.

(** [bool(response_format and "type" in response_format
          and response_format["type"] == "json_object")] *)
Definition json_mode_requested (response_format : pyval) : result bool :=
  if negb (truthy response_format) then Ok false
  else has_type ← contains "type" response_format;
       if negb has_type then Ok false
       else type ← getitem response_format "type";
            Ok (eq_str type "json_object").

(** The message appended in JSON mode. *)
Definition extraction_message (tool_type : ToolType) : pyval :=
  VDict [ ("role", VStr "user");
          ("content",
           VStr (dedent (extraction_instruction
                         +:+ json_dumps (model_json_schema tool_type)))) ].

Definition setup_extract
    (fn : Callable) (fn_args : gmap string pyval)
    (fn_return : option OpenAICallFunctionReturn)
    (tool : Tool) (call_params : gmap string pyval)
    : gmap string pyval * result (bool * list pyval * gmap string pyval) :=
  let '(fn_args, outcome) :=
    setup_call fn fn_args fn_return (Some [tool]) call_params in
  (fn_args,
   '(_, messages, tool_types, call_kwargs) ← outcome;
   tool_type ← unpack_single tool_types;
   let response_format := default VNone (call_kwargs !! "response_format") in
   json_mode ← json_mode_requested response_format;
   if (json_mode : bool)
   then Ok (json_mode,
            messages ++ [extraction_message tool_type],
            <["tools" := VNone]> call_kwargs)
   else Ok (json_mode,
            messages,
            <["tool_choice" := VStr "required"]>
              (<["tools" := VList [tool_schema tool_type]]> call_kwargs))).

End setup.
Arguments OpenAICallFunctionReturn Tool : clear implicits.

(** *** Structured extraction: [extract_tool_return] *)

Section extract.
(** Response models, the objects validation builds from them, and parsed
    JSON documents. *)
Context {Model Instance Json : Type}.
Context (is_base_type : Model -> bool)
        (convert_base_type_to_base_tool : Model -> Model)
        (from_json_trailing_strings : string -> result Json)
        (partial : Model -> Model)
        (model_validate : Model -> Json -> result Instance)
        (model_validate_json : Model -> string -> result Instance)
        (value : Instance -> Instance).

Definition extract_tool_return
    (response_model : Model) (json_output : string) (allow_partial : bool)
    : result Instance :=
  let is_base_type := is_base_type response_model in
  let temp_model :=
    if is_base_type then convert_base_type_to_base_tool response_model
    else response_model in
  output ← (if allow_partial
            then json_obj ← from_json_trailing_strings json_output;
                 model_validate (partial temp_model) json_obj
            else model_validate_json temp_model json_output);
  Ok (if negb is_base_type then output else value output).

End extract.

(** *** Describing call parameters *)

(** The call parameters after the dynamic ones have been merged over the
    static ones. *)
Definition merged_call_params {Tool}
    (call_params : gmap string pyval)
    (fn_return : option (OpenAICallFunctionReturn Tool)) : gmap string pyval :=
  match fn_return with
  | Some fr =>
      if dict_truthy (fr_call_params fr)
      then ior call_params (default ∅ (fr_call_params fr))
      else call_params
  | None => call_params
  end.

(** The call parameters ask for JSON mode: they hold a [response_format]
    dictionary whose ["type"] is ["json_object"]. *)
Definition requests_json_object (call_kwargs : gmap string pyval) : bool :=
  match call_kwargs !! "response_format" with
  | Some (VDict d) =>
      match dict_lookup d "type" with
      | Some type => eq_str type "json_object"
      | None => false
      end
  | _ => false
  end.

(** [response_format] is missing, [None], or a dictionary, as its declared
    type has it. *)
Definition response_format_well_typed (call_kwargs : gmap string pyval) : Prop :=
  match call_kwargs !! "response_format" with
  | None | Some VNone | Some (VDict _) => True
  | Some _ => False
  end.

(** *** Concrete collaborators

    Stand-ins for the collaborators, used to run the functions on examples:
    a parser that fills [{name}] placeholders of the template with the
    string arguments and returns one user message, tools named by strings,
    a schema printer that shows the schema title, and a [dedent] that finds
    nothing to remove. *)

Fixpoint fill_placeholders
    (attrs : gmap string pyval) (template : string) (name : option string)
    : result string :=
  match template with
  | EmptyString =>
      match name with
      | None => Ok EmptyString
      | Some _ => Raise (ValueError "expected '}' before end of string")
      end
  | String c rest =>
      match name with
      | None =>
          if bool_decide (c = "{"%char)
          then fill_placeholders attrs rest (Some EmptyString)
          else String c <$> fill_placeholders attrs rest None
      | Some n =>
          if bool_decide (c = "}"%char)
          then match attrs !! n with
               | Some (VStr s) => (fun t => s +:+ t) <$> fill_placeholders attrs rest None
               | _ => Raise (KeyError n)
               end
          else fill_placeholders attrs rest (Some (n +:+ String c EmptyString))
      end
  end.

Definition user_message (content : string) : pyval :=
  VDict [("role", VStr "user"); ("content", VStr content)].

Definition example_parser
    (roles : list string) (template : string) (attrs : gmap string pyval)
    : result (list pyval) :=
  content ← fill_placeholders attrs template None;
  Ok [user_message content].

Definition example_tool_schema (tool_type : string) : pyval :=
  VDict [("type", VStr "function"); ("function", VDict [("name", VStr tool_type)])].

Definition example_json_schema (tool_type : string) : pyval :=
  VDict [("title", VStr tool_type); ("type", VStr "object")].

Definition example_json_dumps (v : pyval) : string :=
  match v with
  | VDict (("title", VStr title) :: _) => "<schema of " +:+ title +:+ ">"
  | _ => "{}"
  end.

Definition example_setup_call :=
  setup_call (Tool := string) (ToolType := string)
             example_parser (fun _ => true) Ok Ok example_tool_schema.

Definition example_setup_extract :=
  setup_extract (Tool := string) (ToolType := string)
                example_parser (fun _ => true) Ok Ok example_tool_schema
                example_json_schema example_json_dumps (fun text => text).

Definition recommend_book : Callable :=
  {| getdoc := Some "Recommend a {genre} book" |}.

Definition fantasy_args : gmap string pyval := {[ "genre" := VStr "fantasy" ]}.

(** A dynamic return with the computed field [genre = "scifi"]. *)
Definition computed_genre : OpenAICallFunctionReturn string :=
  {| computed_fields := Some {[ "genre" := VStr "scifi" ]};
     fr_tools := None; fr_messages := None; fr_call_params := None |}.

(** A dynamic return with an explicit message list. *)
Definition explicit_messages : OpenAICallFunctionReturn string :=
  {| computed_fields := None; fr_tools := None;
     fr_messages := Some [user_message "Recommend a fantasy book"];
     fr_call_params := None |}.

Definition json_object_params : gmap string pyval :=
  {[ "response_format" := VDict [("type", VStr "json_object")] ]}.

(** *** Two sentences of the specification, as it words them *)

(** On a key of both the passed arguments and the computed fields, the
    passed argument is the one the merged mapping holds. *)
Definition explicit_arguments_take_precedence : Prop :=
  forall fn fn_args fr tools call_params cf doc key v,
    computed_fields fr = Some cf ->
    list_truthy (fr_messages fr) = false ->
    getdoc fn = Some doc ->
    fn_args !! key = Some v ->
    is_Some (cf !! key) ->
    (example_setup_call fn fn_args (Some fr) tools call_params).1 !! key = Some v.

(** With a supplied message list the returned messages are that list and
    the first component is still the docstring. *)
Definition template_kept_with_supplied_messages : Prop :=
  forall fn fn_args fr tools call_params ms doc,
    fr_messages fr = Some ms ->
    ms <> [] ->
    getdoc fn = Some doc ->
    forall prompt_template messages tool_types call_kwargs,
      (example_setup_call fn fn_args (Some fr) tools call_params).2
      = Ok (prompt_template, messages, tool_types, call_kwargs) ->
      messages = ms /\ prompt_template = Some doc.

(** A dynamic return whose ["tools"] entry names another tool. *)
Definition author_tool : OpenAICallFunctionReturn string :=
  {| computed_fields := None; fr_tools := Some (Some ["Author"]);
     fr_messages := None; fr_call_params := None |}.

(** [setup_extract] is in JSON mode exactly when the merged call parameters
    ask for a JSON object; in JSON mode ["tools"] is [None] and the message
    with the schema text of the extraction tool is appended to the messages
    of [setup_call]; otherwise nothing is appended, ["tools"] holds the
    schema of the extraction tool and ["tool_choice"] is ["required"]. *)
Definition extraction_tool_schema_is_used : Prop :=
  forall fn fn_args fn_return tool call_params
         fn_args' json_mode messages call_kwargs
         prompt_template messages0 tool_types call_kwargs0,
    example_setup_extract fn fn_args fn_return tool call_params
    = (fn_args', Ok (json_mode, messages, call_kwargs)) ->
    (example_setup_call fn fn_args fn_return (Some [tool]) call_params).2
    = Ok (prompt_template, messages0, tool_types, call_kwargs0) ->
    json_mode = requests_json_object (merged_call_params call_params fn_return) /\
    if json_mode
    then call_kwargs !! "tools" = Some VNone /\
         messages
         = messages0 ++ [extraction_message example_json_schema example_json_dumps
                                            (fun text => text) tool]
    else call_kwargs !! "tools" = Some (VList [example_tool_schema tool]) /\
         call_kwargs !! "tool_choice" = Some (VStr "required") /\
         messages = messages0.

End Setup.

(** ** Hook injection: [mirascope_span] *)

Module Span.
Section span.
(** [Self]: the instances methods are called on; [Args], [K]: positional
    arguments and keyword argument values; [V]: the values methods return or
    yield; [B]: what a before hook hands to the after hook; [CM]: context
    managers; [X]: effects of the wrapped methods themselves. *)
Context {Self Args K V B CM X : Type}.

(** [None] as a return value. *)
Context (none : V).

(** [cm.__enter__()] and whether [cm.__exit__] swallows an exception. *)
Context (enter : CM -> option B) (suppresses : CM -> exn -> bool).

(** What a before hook returns: a plain value ([None] included), or an
    [AbstractContextManager]. *)
Inductive before_value :=
| Plain (b : option B)
| ContextManager (cm : CM).

(** What an after hook is given as the method's result: the returned value,
    or for the generator shapes the list of the yielded values. *)
Inductive after_result :=
| Value (v : V)
| Output (output : list V).

(** The calls a run makes to the hooks and to a context manager, in order. *)
Inductive event :=
| BeforeCall (self : Self) (kwargs : gmap string K)
| AfterCall (self : Self) (result : after_result) (before : option B)
            (kwargs : gmap string K)
| Enter (cm : CM)
| Exit (cm : CM) (exc : option exn)
| Effect (x : X).

(** A call: the events it caused, and its value or exception. *)
Record comp (A : Type) := Comp {
  trace : list event;
  outcome : result A;
}.
Arguments Comp {A} trace outcome.
Arguments trace {A} c.
Arguments outcome {A} c.

Definition comp_ret {A} (a : A) : comp A := Comp [] (Ok a).

Definition comp_bind {A A'} (f : A -> comp A') (c : comp A) : comp A' :=
  match outcome c with
  | Ok a => Comp (trace c ++ trace (f a)) (outcome (f a))
  | Raise e => Comp (trace c) (Raise e)
  end.

#[local] Instance comp_mret : MRet comp := @comp_ret.
#[local] Instance comp_mbind : MBind comp := @comp_bind.

Definition emit (e : event) : comp unit := Comp [e] (Ok tt).
Definition lift {A} (r : result A) : comp A := Comp [] r.

(** The hooks.  Both are also passed the wrapped function; it is the same
    in every call a span makes, so a hook here is the hook for that
    function.  A hook returns or raises. *)
Definition before_hook := Self -> gmap string K -> result before_value.
Definition after_hook :=
  Self -> after_result -> option B -> gmap string K -> result unit.

(** [**kwargs, **custom_kwargs] in a call: a key of both is a [TypeError]. *)
Definition merge_kwargs (kwargs custom_kwargs : gmap string K)
    : result (gmap string K) :=
  if decide ((dom kwargs : gset string) ∩ dom custom_kwargs = ∅)
  then Ok (kwargs ∪ custom_kwargs)
  else Raise (TypeError "got multiple values for keyword argument").

(** [handle_before_call(self, fn, **kwargs, **custom_kwargs)
       if handle_before_call is not None else None] *)
Definition call_before
    (handle_before_call : option before_hook)
    (self : Self) (kwargs custom_kwargs : gmap string K) : comp before_value :=
  match handle_before_call with
  | Some hook =>
      kw ← lift (merge_kwargs kwargs custom_kwargs);
      _ ← emit (BeforeCall self kw);
      lift (hook self kw)
  | None => mret (Plain None)
  end.

(** [if handle_after_call is not None:
       handle_after_call(self, fn, result, before, **kwargs, **custom_kwargs)] *)
Definition call_after
    (handle_after_call : option after_hook)
    (self : Self) (result : after_result) (before : option B)
    (kwargs custom_kwargs : gmap string K) : comp unit :=
  match handle_after_call with
  | Some hook =>
      kw ← lift (merge_kwargs kwargs custom_kwargs);
      _ ← emit (AfterCall self result before kw);
      lift (hook self result before kw)
  | None => mret tt
  end.

(** [with cm as x: body], inside a function whose remaining code after the
    block is [rest]. *)
Definition with_block {A} (cm : CM) (body : option B -> comp A) (rest : comp A)
    : comp A :=
  let c := body (enter cm) in
  match outcome c with
  | Ok a => Comp (Enter cm :: trace c ++ [Exit cm None]) (Ok a)
  | Raise e =>
      if suppresses cm e
      then Comp (Enter cm :: trace c ++ [Exit cm (Some e)] ++ trace rest) (outcome rest)
      else Comp (Enter cm :: trace c ++ [Exit cm (Some e)]) (Raise e)
  end.

(** A function or coroutine function: called with the instance, the
    positional and the keyword arguments. *)
Definition function := Self -> Args -> gmap string K -> comp V.

(** One resumption of a generator: it yields a value and suspends, returns,
    or raises. *)
Inductive gen_step (G : Type) :=
| Yield (v : V) (g : G)
| Stop
| Throw (e : exn).
Arguments Yield {G} v g.
Arguments Stop {G}.
Arguments Throw {G} e.

(** A generator function: calling it creates a suspended generator and runs
    none of its body, and [next] resumes a generator until its next yield.
    This is a generator as a [for] loop drives it, which is how the
    wrappers below drive the wrapped one. *)
Record generator_function := {
  gen_state : Type;
  gen_start : Self -> Args -> gmap string K -> gen_state;
  gen_next : gen_state -> list event * gen_step gen_state;
}.

(** The four calling conventions [inspect] tells apart. *)
Inductive method :=
| Function (f : function)
| Coroutine (f : function)
| Generator (g : generator_function)
| AsyncGenerator (g : generator_function).

Definition isasyncgenfunction (fn : method) : bool :=
  match fn with AsyncGenerator _ => true | _ => false end.
Definition iscoroutinefunction (fn : method) : bool :=
  match fn with Coroutine _ => true | _ => false end.
Definition isgeneratorfunction (fn : method) : bool :=
  match fn with Generator _ => true | _ => false end.

Section wrappers.
Context (handle_before_call : option before_hook)
        (handle_after_call : option after_hook)
        (custom_kwargs : gmap string K).

(** [wrapper]: wraps a method that returns a value. *)
Definition wrapper (fn : function) : function :=
  fun self args kwargs =>
    before_call ← call_before handle_before_call self kwargs custom_kwargs;
    match before_call with
    | ContextManager cm =>
        with_block cm
          (fun result_before_call =>
             result ← fn self args kwargs;
             _ ← call_after handle_after_call self (Value result)
                            result_before_call kwargs custom_kwargs;
             mret result)
          (mret none)
    | Plain before_call =>
        result ← fn self args kwargs;
        _ ← call_after handle_after_call self (Value result)
                       before_call kwargs custom_kwargs;
        mret result
    end.

(** [wrapper_async]: wraps an async method that returns a value; the call
    of [fn] is awaited. *)
Definition wrapper_async (fn : function) : function :=
  fun self args kwargs =>
    before_call ← call_before handle_before_call self kwargs custom_kwargs;
    match before_call with
    | ContextManager cm =>
        with_block cm
          (fun result_before_call =>
             result ← fn self args kwargs;
             _ ← call_after handle_after_call self (Value result)
                            result_before_call kwargs custom_kwargs;
             mret result)
          (mret none)
    | Plain before_call =>
        result ← fn self args kwargs;
        _ ← call_after handle_after_call self (Value result)
                       before_call kwargs custom_kwargs;
        mret result
    end.

(** The states a wrapping generator is suspended in: created and not yet
    started, or at [yield value] inside the loop, with the wrapped generator,
    the [output] list, the value for the after hook, and the context manager
    whose block the loop is in, if any. *)
Inductive wrapper_state (G : Type) :=
| Created (self : Self) (args : Args) (kwargs : gmap string K)
| Suspended (result : G) (output : list V) (before : option B) (cm : option CM)
            (self : Self) (kwargs : gmap string K).
Arguments Created {G} self args kwargs.
Arguments Suspended {G} result output before cm self kwargs.

(** Leaving the generator body: through the end of the [with] block when
    there is one. *)
Definition leave {G} (cm : option CM) (events : list event) (r : result unit)
    : list event * gen_step G :=
  match cm, r with
  | None, Ok _ => (events, Stop)
  | None, Raise e => (events, Throw e)
  | Some cm, Ok _ => (events ++ [Exit cm None], Stop)
  | Some cm, Raise e =>
      (events ++ [Exit cm (Some e)], if suppresses cm e then Stop else Throw e)
  end.

(** [for value in result: output.append(value); yield value], from the
    point where the loop asks [result] for its next value, and the call of
    the after hook once [result] is exhausted. *)
Definition resume (fn : generator_function)
    (result : gen_state fn) (output : list V) (before : option B) (cm : option CM)
    (self : Self) (kwargs : gmap string K)
    : list event * gen_step (wrapper_state (gen_state fn)) :=
  let '(events, step) := gen_next fn result in
  match step with
  | Yield value result' =>
      (events, Yield value (Suspended result' (output ++ [value]) before cm self kwargs))
  | Stop =>
      let after := call_after handle_after_call self (Output output) before
                              kwargs custom_kwargs in
      leave cm (events ++ trace after) (outcome after)
  | Throw e => leave cm events (Raise e)
  end.

(** One resumption of a wrapping generator.  The first one runs the code
    before the loop: the before hook, entering its context manager, and the
    call of [fn], which creates the wrapped generator. *)
Definition wrapper_next (fn : generator_function)
    (state : wrapper_state (gen_state fn))
    : list event * gen_step (wrapper_state (gen_state fn)) :=
  match state with
  | Created self args kwargs =>
      let before_call := call_before handle_before_call self kwargs custom_kwargs in
      match outcome before_call with
      | Raise e => (trace before_call, Throw e)
      | Ok (ContextManager cm) =>
          let result := gen_start fn self args kwargs in
          let '(events, step) := resume fn result [] (enter cm) (Some cm) self kwargs in
          (trace before_call ++ Enter cm :: events, step)
      | Ok (Plain before_call') =>
          let result := gen_start fn self args kwargs in
          let '(events, step) := resume fn result [] before_call' None self kwargs in
          (trace before_call ++ events, step)
      end
  | Suspended result output before cm self kwargs =>
      resume fn result output before cm self kwargs
  end.

(** [wrapper_generator]: wraps a method that returns a generator. *)
Definition wrapper_generator (fn : generator_function) : generator_function :=
  {| gen_state := wrapper_state (gen_state fn);
     gen_start := Created;
     gen_next := wrapper_next fn |}.

(** [wrapper_generator_async]: wraps an async method that returns a
    generator; the loop is an [async for]. *)
Definition wrapper_generator_async (fn : generator_function) : generator_function :=
  {| gen_state := wrapper_state (gen_state fn);
     gen_start := Created;
     gen_next := wrapper_next fn |}.

(** [mirascope_span]: the wrapper is chosen by what [inspect] says about
    [fn], asking in this order: async generator function, coroutine
    function, generator function, and otherwise a plain function. *)
Definition mirascope_span (fn : method) : method :=
  match fn with
  | AsyncGenerator g => AsyncGenerator (wrapper_generator_async g)
  | Coroutine f => Coroutine (wrapper_async f)
  | Generator g => Generator (wrapper_generator g)
  | Function f => Function (wrapper f)
  end.

End wrappers.

(** *** Callers *)

(** Calling a function or awaiting a coroutine function's call. *)
Definition call (fn : method) (self : Self) (args : Args) (kwargs : gmap string K)
    : option (comp V) :=
  match fn with
  | Function f | Coroutine f => Some (f self args kwargs)
  | Generator _ | AsyncGenerator _ => None
  end.

(** What a caller iterating over a generator observes, in order: the hook
    and context manager calls, and the values it receives. *)
Inductive item :=
| Happened (e : event)
| Received (v : V).

(** How an iteration ended: the generator returned, it raised, or the caller
    stopped asking. *)
Inductive completion :=
| Exhausted
| Failed (e : exn)
| Abandoned.

(** [for value in generator], for at most [n] resumptions. *)
Fixpoint iterate {G} (next : G -> list event * gen_step G) (n : nat) (g : G)
    : list item * completion :=
  match n with
  | O => ([], Abandoned)
  | S n' =>
      let '(events, step) := next g in
      match step with
      | Yield v g' =>
          let '(items, c) := iterate next n' g' in
          ((Happened <$> events) ++ Received v :: items, c)
      | Stop => (Happened <$> events, Exhausted)
      | Throw e => (Happened <$> events, Failed e)
      end
  end.

(** Calling a generator method and iterating over what it returns. *)
Definition call_and_iterate
    (fn : method) (self : Self) (args : Args) (kwargs : gmap string K) (n : nat)
    : option (list item * completion) :=
  match fn with
  | Generator g | AsyncGenerator g =>
      Some (iterate (gen_next g) n (gen_start g self args kwargs))
  | Function _ | Coroutine _ => None
  end.

(** The values among the items, in order. *)
Definition received (items : list item) : list V :=
  omap (fun i => match i with Received v => Some v | Happened _ => None end) items.

(** *** Describing runs *)

Inductive convention :=
| PlainFunction
| CoroutineFunction
| GeneratorFunction
| AsyncGeneratorFunction.

(** The calling convention of a method. *)
Definition convention_of (fn : method) : convention :=
  match fn with
  | Function _ => PlainFunction
  | Coroutine _ => CoroutineFunction
  | Generator _ => GeneratorFunction
  | AsyncGenerator _ => AsyncGeneratorFunction
  end.

(** The context manager a before hook returned, if it returned one, and
    the value the after hook gets from the before hook. *)
Definition manager (bv : before_value) : option CM :=
  match bv with
  | ContextManager cm => Some cm
  | Plain _ => None
  end.

Definition handed_over (bv : before_value) : option B :=
  match bv with
  | ContextManager cm => enter cm
  | Plain b => b
  end.

Definition enter_events (bv : before_value) : list event :=
  match bv with
  | ContextManager cm => [Enter cm]
  | Plain _ => []
  end.

Definition exit_events (cm : option CM) (r : result unit) : list event :=
  match cm with
  | Some cm => [Exit cm (match r with Ok _ => None | Raise e => Some e end)]
  | None => []
  end.

(** How the iteration over a wrapping generator ends once the wrapped one is
    exhausted and the after hook has returned or raised [r]. *)
Definition ending (cm : option CM) (r : result unit) : completion :=
  match r with
  | Ok _ => Exhausted
  | Raise e =>
      match cm with
      | Some cm => if suppresses cm e then Exhausted else Failed e
      | None => Failed e
      end
  end.

End span.

Arguments before_value : clear implicits.
Arguments after_result : clear implicits.
Arguments event : clear implicits.
Arguments comp : clear implicits.
Arguments Comp {Self K V B CM X A} trace outcome.
Arguments trace {Self K V B CM X A} c.
Arguments outcome {Self K V B CM X A} c.
Arguments gen_step : clear implicits.
Arguments Yield {V G} v g.
Arguments Stop {V G}.
Arguments Throw {V G} e.
Arguments generator_function : clear implicits.
Arguments method : clear implicits.
Arguments item : clear implicits.
Arguments Created {Self Args K V B CM G} self args kwargs.
Arguments Suspended {Self Args K V B CM G} result output before cm self kwargs.

(** *** The class decorator: [wrap_mirascope_class_functions] *)

Definition ignore_functions : list string :=
  [ "copy"; "dict"; "dump"; "json"; "messages"; "model_copy"; "model_dump";
    "model_dump_json"; "model_post_init" ].

(** [name.startswith("_")] *)
Definition startswith_underscore (name : string) : bool :=
  match name with
  | String c _ => bool_decide (c = "_"%char)
  | EmptyString => false
  end.

(** Every function member of the class whose name does not start with an
    underscore and is not in [ignore_functions] is replaced by its span. *)
Definition wrap_mirascope_class_functions {Self Args K V B CM X : Type}
    (none : V) (enter : CM -> option B) (suppresses : CM -> exn -> bool)
    (cls : gmap string (method Self Args K V B CM X))
    (handle_before_call : option (@before_hook Self K B CM))
    (handle_after_call : option (@after_hook Self K V B))
    (custom_kwargs : gmap string K)
    : gmap string (method Self Args K V B CM X) :=
  map_imap
    (fun name fn =>
       Some (if negb (startswith_underscore name)
                && negb (bool_decide (name ∈ ignore_functions))
             then mirascope_span none enter suppresses
                                 handle_before_call handle_after_call custom_kwargs fn
             else fn))
    cls.

(** *** A concrete method

    A generator method that yields the numbers it is given, a before hook
    that returns a context manager, and an after hook. *)

Definition numbers : generator_function string (list nat) nat nat string string Empty_set :=
  {| gen_state := list nat;
     gen_start := fun _ args _ => args;
     gen_next := fun state =>
                   match state with
                   | [] => ([], Stop)
                   | v :: state' => ([], Yield v state')
                   end |}.

Definition open_span : @before_hook string nat string string :=
  fun _ _ => Ok (ContextManager "span").

Definition log_output : @after_hook string nat nat string :=
  fun _ _ _ _ => Ok tt.

Definition example_span :=
  mirascope_span (Self := string) (Args := list nat) (K := nat) (X := Empty_set)
                 0 (fun cm : string => Some cm) (fun _ _ => false)
                 (Some open_span) (Some log_output) ∅.

End Span.

(** ** Further examples *)

Module ClassVarsExamples.
Import ClassVars.

(** A class that declares [base_url] without giving it a value. *)
Definition incomplete_call : BaseModel string :=
  {| __class_vars__ := ["api_key"; "base_url"];
     class_attributes := {[ "other" := "x" ]} |}.

End ClassVarsExamples.

Module SetupExamples.
Import Setup.

(** The tools a call uses: the dynamic ones when the dynamic return has a
    ["tools"] entry, and the static ones otherwise. *)
Definition tools_in_effect {Tool}
    (fn_return : option (OpenAICallFunctionReturn Tool))
    (tools : option (list Tool)) : option (list Tool) :=
  match fn_return with
  | Some fr => default tools (fr_tools fr)
  | None => tools
  end.

(** Static call parameters, and a dynamic return that lowers the
    temperature. *)
Definition warm_params : gmap string pyval :=
  {[ "temperature" := VInt 1; "seed" := VInt 7 ]}.

Definition cooler : OpenAICallFunctionReturn string :=
  {| computed_fields := None; fr_tools := None; fr_messages := None;
     fr_call_params := Some {[ "temperature" := VInt 0 ]} |}.

(** Dynamic returns with two tools, and with a ["tools"] entry that is
    [None]. *)
Definition two_tools : OpenAICallFunctionReturn string :=
  {| computed_fields := None; fr_tools := Some (Some ["Book"; "Author"]);
     fr_messages := None; fr_call_params := None |}.

Definition no_tools : OpenAICallFunctionReturn string :=
  {| computed_fields := None; fr_tools := Some None;
     fr_messages := None; fr_call_params := None |}.

(** A function without a docstring. *)
Definition undocumented : Callable := {| getdoc := None |}.

(** Call parameters that choose the tool themselves. *)
Definition auto_choice : gmap string pyval :=
  {[ "tool_choice" := VStr "auto"; "seed" := VInt 7 ]}.

End SetupExamples.

Module SpanExamples.
Import Span.

(** What a call through a span gives when the wrapped method or the after
    hook raises [e]: the exception, unless the before hook returned a
    context manager that swallows it, in which case the wrapper runs off
    its end and returns [None]. *)
Definition outcome_after_raise {V CM} (none : V) (suppresses : CM -> exn -> bool)
    (cm : option CM) (e : exn) : result V :=
  match cm with
  | Some cm => if suppresses cm e then Ok none else Raise e
  | None => Raise e
  end.

(** A span over the example types: [None] is [0], entering a context
    manager gives its name, and no context manager swallows exceptions. *)
Definition span_with
    (handle_before_call : option (@before_hook string nat string string))
    (handle_after_call : option (@after_hook string nat nat string))
    (custom_kwargs : gmap string nat) :=
  mirascope_span (Self := string) (Args := list nat) (K := nat) (X := Empty_set)
                 0 (fun cm : string => Some cm) (fun _ _ => false)
                 handle_before_call handle_after_call custom_kwargs.

(** A method that returns the sum of its arguments, one that raises, and a
    generator method that yields its arguments and then raises. *)
Definition total : @function string (list nat) nat nat string string Empty_set :=
  fun _ args _ => Comp [] (Ok (sum_list args)).

Definition failing : @function string (list nat) nat nat string string Empty_set :=
  fun _ _ _ => Comp [] (Raise (Exception "boom")).

Definition failing_numbers
    : generator_function string (list nat) nat nat string string Empty_set :=
  {| gen_state := list nat;
     gen_start := fun _ args _ => args;
     gen_next := fun state =>
                   match state with
                   | [] => ([], Throw (Exception "boom"))
                   | v :: state' => ([], Yield v state')
                   end |}.

(** A before hook that raises. *)
Definition refuse : @before_hook string nat string string :=
  fun _ _ => Raise (Exception "refused").

(** An after hook that raises. *)
Definition reject : @after_hook string nat nat string :=
  fun _ _ _ _ => Raise (Exception "rejected").

End SpanExamples.

(** ** Client and call wrappers: [get_wrapped_client], [get_wrapped_call] *)

Module Ops.
Section ops.
(** [Client]: provider clients; [Call]: the callables that make a provider
    call; [Provider], [K]: the provider name and keyword argument values
    handed to an operation. *)
Context {Client Call Provider K : Type}.

(** An entry of [configuration.client_wrappers]: a name, or a callable from
    a client to a client. *)
Inductive client_wrapper :=
| WrapperName (name : string)
| WrapperCallable (op : Client -> Client).

(** An entry of [configuration.llm_ops]: a name, or a callable that is given
    the call, the provider and the keyword arguments. *)
Inductive llm_op :=
| OpName (name : string)
| OpCallable (op : Call -> Provider -> gmap string K -> Call).

(** [LangfuseOpenAI(api_key=..., base_url=...)] and its async sibling, and
    [weave.op()]. *)
Context (LangfuseOpenAI LangfuseAsyncOpenAI : option string -> option string -> Client)
        (weave_op : Call -> Call).

(** One round of the loop of [get_wrapped_client]: the client after it, and
    the client [logfire.instrument_openai] was called on, if it was. *)
Definition wrap_client_step (api_key base_url : option string)
    (state : Client * list Client) (op : client_wrapper) : Client * list Client :=
  let '(client, instrumented) := state in
  match op with
  | WrapperName name =>
      if bool_decide (name = "langfuse")
      then (LangfuseOpenAI api_key base_url, instrumented)
      else if bool_decide (name = "logfire")
           then (client, instrumented ++ [client])
           else (client, instrumented)
  | WrapperCallable op => (op client, instrumented)
  end.

(** [get_wrapped_client]: the returned client, and the clients handed to
    [logfire.instrument_openai], in order. *)
Definition get_wrapped_client
    (client : Client) (client_wrappers : option (list client_wrapper))
    (api_key base_url : option string) : Client * list Client :=
  if list_truthy client_wrappers
  then foldl (wrap_client_step api_key base_url) (client, [])
             (default [] client_wrappers)
  else (client, []).

Definition wrap_async_client_step (api_key base_url : option string)
    (state : Client * list Client) (op : client_wrapper) : Client * list Client :=
  let '(client, instrumented) := state in
  match op with
  | WrapperName name =>
      if bool_decide (name = "langfuse")
      then (LangfuseAsyncOpenAI api_key base_url, instrumented)
      else if bool_decide (name = "logfire")
           then (client, instrumented ++ [client])
           else (client, instrumented)
  | WrapperCallable op => (op client, instrumented)
  end.

Definition get_wrapped_async_client
    (client : Client) (client_wrappers : option (list client_wrapper))
    (api_key base_url : option string) : Client * list Client :=
  if list_truthy client_wrappers
  then foldl (wrap_async_client_step api_key base_url) (client, [])
             (default [] client_wrappers)
  else (client, []).

(** One round of the loop of [get_wrapped_call]. *)
Definition wrap_call_step (provider : Provider) (kwargs : gmap string K)
    (wrapped_call : Call) (op : llm_op) : Call :=
  match op with
  | OpName name =>
      if bool_decide (name = "weave") then weave_op wrapped_call else wrapped_call
  | OpCallable op => op wrapped_call provider kwargs
  end.

Definition get_wrapped_call
    (call : Call) (llm_ops : option (list llm_op))
    (provider : Provider) (kwargs : gmap string K) : Call :=
  if list_truthy llm_ops
  then foldl (wrap_call_step provider kwargs) call (default [] llm_ops)
  else call.

End ops.
Arguments client_wrapper : clear implicits.
Arguments llm_op : clear implicits.

(** Wrappers over clients that are lists of the names of what wrapped
    them. *)
Definition traced (name : string) : list string -> list string :=
  fun client => name :: client.

End Ops.

(** ** Gemini calls: [GeminiCall.call], [GeminiCall.stream] *)

Module Gemini.
Section gemini.
(** [K]: keyword argument values; [Messages]: what the [messages] property
    returns; [Model]: [GenerativeModel] objects; [SDKResponse], [Chunk]:
    what [generate_content] returns and what iterating over it gives;
    [ToolTypes]: the tool types [_setup] returns. *)
Context {K Messages Model SDKResponse Chunk ToolTypes : Type}.

Record GeminiCallResponse := {
  response : SDKResponse;
  tool_types : ToolTypes;
  start_time : spec_float;
  end_time : spec_float
}.

Record GeminiCallResponseChunk := {
  chunk : Chunk;
  chunk_tool_types : ToolTypes
}.

(** A call [model.generate_content(contents, stream=..., tools=..., **kwargs)]
    as it is handed to [generate_content]: the model, the positional
    argument, the two explicit keyword arguments and the unpacked ones.
    What [generate_content] does with them, from binding them to its own
    parameters on, is its business. *)
Record request := GenerateContent {
  request_model : Model;
  request_contents : Messages;
  request_stream : bool;
  request_tools : option K;
  request_kwargs : gmap string K
}.

(** [self._setup(kwargs, GeminiTool)], [GenerativeModel(name)], the
    [messages] property of the call, [generate_content] and the iteration
    over its result are not part of this module. *)
Context (_setup : gmap string K -> result (gmap string K * ToolTypes))
        (GenerativeModel : K -> Model)
        (messages : result Messages)
        (generate_content : request -> result SDKResponse)
        (iterate_response : SDKResponse -> list Chunk).

(** [kwargs.pop(key)]: the value and the dict without the key. *)
Definition pop (key : string) (kwargs : gmap string K)
    : result (K * gmap string K) :=
  match kwargs !! key with
  | Some value => Ok (value, delete key kwargs)
  | None => Raise (KeyError key)
  end.

(** [kwargs.pop("tools") if "tools" in kwargs else None]. *)
Definition pop_tools (kwargs : gmap string K) : option K * gmap string K :=
  match kwargs !! "tools" with
  | Some tools => (Some tools, delete "tools" kwargs)
  | None => (None, kwargs)
  end.

(** [datetime.datetime.now().timestamp() * 1000]. *)
Definition milliseconds (timestamp : spec_float) : spec_float :=
  SF64mul timestamp (Cost.float_of_int_exact 1000).

(** The exception of a call [f(..., stream=..., **kwargs)] whose [kwargs]
    hold ["stream"] too; Python puts the name of the function in front of
    this message. *)
Definition multiple_values_for_stream : exn :=
  TypeError "got multiple values for keyword argument 'stream'".

(** [gemini_pro_model.generate_content(contents, stream=stream, tools=tools,
    **kwargs)], once the arguments have been evaluated: a ["stream"] key
    among [kwargs] collides with the explicit [stream=] argument, and then
    [generate_content] is not entered. *)
Definition call_generate_content
    (gemini_pro_model : Model) (contents : Messages) (stream : bool)
    (tools : option K) (kwargs : gmap string K)
    : list request * result SDKResponse :=
  match kwargs !! "stream" with
  | Some _ => ([], Raise multiple_values_for_stream)
  | None =>
      let request := GenerateContent gemini_pro_model contents stream tools kwargs in
      ([request], generate_content request)
  end.

(** [call]: the calls of [generate_content] made, and the outcome.  [now1]
    and [now2] are the two readings of the clock. *)
Definition call (kwargs : gmap string K) (now1 now2 : spec_float)
    : list request * result GeminiCallResponse :=
  match _setup kwargs with
  | Raise e => ([], Raise e)
  | Ok (kwargs, tool_types) =>
      match pop "model" kwargs with
      | Raise e => ([], Raise e)
      | Ok (model, kwargs) =>
          let gemini_pro_model := GenerativeModel model in
          let start_time := milliseconds now1 in
          match messages with
          | Raise e => ([], Raise e)
          | Ok contents =>
              let '(tools, kwargs) := pop_tools kwargs in
              let '(requests, outcome) :=
                call_generate_content gemini_pro_model contents false tools kwargs in
              match outcome with
              | Raise e => (requests, Raise e)
              | Ok response =>
                  (requests,
                   Ok {| response := response; tool_types := tool_types;
                         start_time := start_time;
                         end_time := milliseconds now2 |})
              end
          end
      end
  end.

(** [stream], run to exhaustion: the calls of [generate_content] made, and
    the chunks yielded. *)
Definition stream (kwargs : gmap string K)
    : list request * result (list GeminiCallResponseChunk) :=
  match _setup kwargs with
  | Raise e => ([], Raise e)
  | Ok (kwargs, tool_types) =>
      match pop "model" kwargs with
      | Raise e => ([], Raise e)
      | Ok (model, kwargs) =>
          let gemini_pro_model := GenerativeModel model in
          match messages with
          | Raise e => ([], Raise e)
          | Ok contents =>
              let '(tools, kwargs) := pop_tools kwargs in
              let '(requests, outcome) :=
                call_generate_content gemini_pro_model contents true tools kwargs in
              match outcome with
              | Raise e => (requests, Raise e)
              | Ok stream =>
                  (requests,
                   Ok (map (fun chunk =>
                              {| chunk := chunk; chunk_tool_types := tool_types |})
                           (iterate_response stream)))
              end
          end
      end
  end.

End gemini.

(** A call whose [_setup] adds the call parameters to the arguments, with
    an SDK that answers with the names of the arguments it was given. *)
Definition example_call_params : gmap string string :=
  {[ "model" := "gemini-1.0-pro"; "tools" := "format_book" ]}.

Definition example__setup (kwargs : gmap string string)
    : result (gmap string string * list string) :=
  Ok (kwargs ∪ example_call_params, ["FormatBook"]).

Definition echo (r : @request string (list string) string) : result (list string) :=
  Ok (elements (dom (request_kwargs r) : gset string)).

End Gemini.

(** ** Generators a caller sends values to *)

Module SpanSend.
Import Span.
Section send.
Context {Self Args K V B CM X : Type}.
Context (none : V) (enter : CM -> option B) (suppresses : CM -> exn -> bool).

(** One resumption of a generator, with what [return] gives: it yields a
    value and suspends, returns a value, or raises. *)
Inductive send_step (G : Type) :=
| Yielded (v : V) (g : G)
| Returned (r : V)
| Thrown (e : exn).
Arguments Yielded {G} v g.
Arguments Returned {G} r.
Arguments Thrown {G} e.

(** A generator function whose generators use what they are sent:
    [send_next state sent] resumes a generator, [sent] being the value its
    [yield] expression takes; [next(g)] is [g.send(None)]. *)
Record sendable_generator_function := {
  send_state : Type;
  send_start : Self -> Args -> gmap string K -> send_state;
  send_next : send_state -> V -> list (event Self K V B CM X) * send_step send_state;
}.

(** [for value in result]: what a [for] loop sees of such a generator.  It
    resumes with [next], so the generator is sent [None] each time, and it
    drops the value the generator returns. *)
Definition for_loop_view (fn : sendable_generator_function)
    : generator_function Self Args K V B CM X :=
  {| gen_state := send_state fn;
     gen_start := send_start fn;
     gen_next := fun state =>
                   let '(events, step) := send_next fn state none in
                   (events,
                    match step with
                    | Yielded v state' => Yield v state'
                    | Returned _ => Stop
                    | Thrown e => Throw e
                    end) |}.

(** [wrapper_generator] as a generator one can send to.  Its [yield value]
    is a statement, so what it is sent is dropped; its loop is a [for]
    loop over the wrapped generator; and it runs off its end, so it returns
    [None].  [wrapper_generator_async] is the same with [async for]. *)
Definition wrapper_generator_send
    (handle_before_call : option (@before_hook Self K B CM))
    (handle_after_call : option (@after_hook Self K V B))
    (custom_kwargs : gmap string K)
    (fn : sendable_generator_function) : sendable_generator_function :=
  {| send_state := @wrapper_state Self Args K V B CM (send_state fn);
     send_start := Created;
     send_next := fun state _ =>
                    let '(events, step) :=
                      wrapper_next enter suppresses handle_before_call
                                   handle_after_call custom_kwargs
                                   (for_loop_view fn) state in
                    (events,
                     match step with
                     | Yield v state' => Yielded v state'
                     | Stop => Returned none
                     | Throw e => Thrown e
                     end) |}.

(** How driving a generator ended: it returned a value, it raised, or the
    caller stopped while it was suspended. *)
Inductive send_completion :=
| Finished (r : V)
| Raised (e : exn)
| StillSuspended.

(** [g.send(x)] for the values of [sent] in turn, up to the end of [g]. *)
Fixpoint drive {G} (next : G -> V -> list (event Self K V B CM X) * send_step G)
    (sent : list V) (g : G) : list (item Self K V B CM X) * send_completion :=
  match sent with
  | [] => ([], StillSuspended)
  | x :: sent' =>
      let '(events, step) := next g x in
      match step with
      | Yielded v g' =>
          let '(items, c) := drive next sent' g' in
          ((Happened <$> events) ++ Received v :: items, c)
      | Returned r => (Happened <$> events, Finished r)
      | Thrown e => (Happened <$> events, Raised e)
      end
  end.

(** Calling a generator method, then [next(g)] and [g.send(x)] for the
    values of [sent] in turn.  (A generator that has just been created can
    only be sent [None].) *)
Definition call_and_send (fn : sendable_generator_function)
    (self : Self) (args : Args) (kwargs : gmap string K) (sent : list V)
    : list (item Self K V B CM X) * send_completion :=
  drive (send_next fn) (none :: sent) (send_start fn self args kwargs).

(** The same run, had the generator returned [None]. *)
Definition returning_none (run : list (item Self K V B CM X) * send_completion)
    : list (item Self K V B CM X) * send_completion :=
  (run.1, match run.2 with Finished _ => Finished none | c => c end).

(** What a [for] loop makes of the end of a generator. *)
Definition completion_of (c : send_completion) : completion :=
  match c with
  | Finished _ => Exhausted
  | Raised e => Failed e
  | StillSuspended => Abandoned
  end.

End send.

Arguments send_step : clear implicits.
Arguments Yielded {V G} v g.
Arguments Returned {V G} r.
Arguments Thrown {V G} e.
Arguments sendable_generator_function : clear implicits.
Arguments send_completion : clear implicits.
Arguments Finished {V} r.
Arguments Raised {V} e.
Arguments StillSuspended {V}.

(** A generator that yields what it was sent, three times, and returns the
    number of values it was sent. *)
Definition echo : sendable_generator_function string (list nat) nat nat string string Empty_set :=
  {| send_state := nat;
     send_start := fun _ _ _ => 0;
     send_next := fun count sent =>
                    if bool_decide (count < 3)
                    then ([], Yielded sent (S count))
                    else ([], Returned count) |}.

End SpanSend.

(** ** Properties of the cost table *)

Module CostFacts.
Import Cost.

Lemma dict_getitem_missing {V} (d : list (string * V)) key :
  key ∉ d.*1 -> dict_getitem d key = Raise (KeyError key).
Proof.
  induction d as [|[k v] d IH]; simpl; intros Hnot; [done|].
  apply not_elem_of_cons in Hnot as [Hne Hnot].
  destruct (decide (k = key)) as [->|_]; [done|]. by apply IH.
Qed.

Lemma dict_getitem_present {V} (d : list (string * V)) key :
  key ∈ d.*1 -> exists v, dict_getitem d key = Ok v.
Proof.
  induction d as [|[k v] d IH]; simpl; intros Hin.
  - by apply elem_of_nil in Hin.
  - destruct (decide (k = key)) as [->|Hne]; [by eexists|].
    apply elem_of_cons in Hin as [Heq|Hin]; [congruence|by apply IH].
Qed.

(** The prices of the table are the binary64 values the literals of the
    source denote. *)
Example pricing_literals :
  pricing
  = prod_map id (prod_map Prim2SF Prim2SF) <$>
    [ ("gpt-4o",                 (0.000005,    0.000015));
      ("gpt-4o-2024-05-13",      (0.000005,    0.000015));
      ("gpt-4-turbo",            (0.00001,     0.00003));
      ("gpt-4-turbo-2024-04-09", (0.00001,     0.00003));
      ("gpt-3.5-turbo-0125",     (0.0000005,   0.0000015));
      ("gpt-3.5-turbo-1106",     (0.000001,    0.000002));
      ("gpt-4-1106-preview",     (0.00001,     0.00003));
      ("gpt-4",                  (0.000003,    0.000006));
      ("gpt-3.5-turbo-4k",       (0.000015,    0.00002));
      ("gpt-3.5-turbo-16k",      (0.000003,    0.000004));
      ("gpt-4-8k",               (0.000003,    0.000006));
      ("gpt-4-32k",              (0.000006,    0.000012));
      ("text-embedding-3-small", (0.00000002,  0.00000002));
      ("text-embedding-ada-002", (0.0000001,   0.0000001));
      ("text-embedding-3-large", (0.00000013,  0.00000013)) ]%float.
Proof. vm_compute. reflexivity. Qed.

Example one_eightieth : literal 125 (-4) = Prim2SF 0.0125%float.
Proof. vm_compute. reflexivity. Qed.

(** C7: for model ["gpt-4o"] and a usage of 1000 prompt tokens and 500
    completion tokens the cost calculation returns
    [1000 * 0.000005 + 500 * 0.000015], computed in binary64, which is the
    float [0.0125]; the two unit prices are the ones stored in the table. *)
Theorem gpt_4o_cost_example :
  dict_getitem pricing "gpt-4o" = Ok (literal 5 (-6), literal 15 (-6)) /\
  openai_api_calculate_cost
    (Some {| prompt_tokens := 1000; completion_tokens := 500; total_tokens := 1500 |})
    "gpt-4o"
  = Ok (Some (SF64add (SF64mul (literal 1000 0) (literal 5 (-6)))
                      (SF64mul (literal 500 0) (literal 15 (-6))))) /\
  SF64add (SF64mul (literal 1000 0) (literal 5 (-6)))
          (SF64mul (literal 500 0) (literal 15 (-6)))
  = literal 125 (-4).
Proof. repeat split; vm_compute; reflexivity. Qed.

(** C8: for a model name that is not a key of the pricing table the cost
    calculation returns [None] without raising, whatever the usage. *)
Theorem unknown_model_cost_is_none (usage : option CompletionUsage) (model : string) :
  ~ priced model ->
  openai_api_calculate_cost usage model = Ok None.
Proof.
  intros Hnot. unfold openai_api_calculate_cost.
  destruct usage as [u|]; [|done].
  by rewrite (dict_getitem_missing pricing model Hnot).
Qed.

Lemma unknown_model_cost_is_none_witness :
  ~ priced "gpt-5" /\
  openai_api_calculate_cost
    (Some {| prompt_tokens := 1000; completion_tokens := 500; total_tokens := 1500 |}) "gpt-5" = Ok None.
Proof.
  assert (H : ~ priced "gpt-5").
  { unfold priced. vm_compute. intros H.
    repeat (apply elem_of_cons in H as [H|H]; [discriminate H|]).
    by apply elem_of_nil in H. }
  split; [exact H|]. exact (unknown_model_cost_is_none _ _ H).
Defined.

End CostFacts.

(** ** Properties of [get_class_vars] *)

Module ClassVarsFacts.
Import ClassVars.

Section facts.
Context {V : Type}.
Implicit Types (cls : BaseModel V) (names : list string) (acc : gmap string V).

Lemma getattr_other cls1 cls2 name :
  differ_only_in_api_key cls1 cls2 ->
  name <> "api_key" ->
  getattr cls1 name = getattr cls2 name.
Proof.
  intros [_ Hattrs] Hne. unfold getattr.
  rewrite <- (lookup_delete_ne (class_attributes cls1) "api_key" name) by done.
  rewrite <- (lookup_delete_ne (class_attributes cls2) "api_key" name) by done.
  by rewrite Hattrs.
Qed.

Lemma loop_keeps_api_key_out cls names acc m :
  get_class_vars_loop cls names acc = Ok m ->
  acc !! "api_key" = None ->
  m !! "api_key" = None.
Proof.
  revert acc. induction names as [|n names IH]; simpl; intros acc Hrun Hacc.
  - by injection Hrun as <-.
  - destruct (bool_decide_reflect (n = "api_key")) as [->|Hne]; simpl in Hrun.
    + by eapply IH.
    + destruct (getattr cls n) as [v|e]; simpl in Hrun; [|done].
      eapply IH; [exact Hrun|]. by rewrite lookup_insert_ne.
Qed.

Lemma loop_ignores_api_key cls1 cls2 names acc :
  differ_only_in_api_key cls1 cls2 ->
  get_class_vars_loop cls1 names acc = get_class_vars_loop cls2 names acc.
Proof.
  intros Hdiff. revert acc. induction names as [|n names IH]; simpl; intros acc; [done|].
  destruct (bool_decide_reflect (n = "api_key")) as [->|Hne]; simpl; [apply IH|].
  rewrite (getattr_other cls1 cls2 n Hdiff Hne).
  destruct (getattr cls2 n) as [v|e]; simpl; [apply IH|done].
Qed.

(** C10: the mapping [get_class_vars] returns has no ["api_key"] entry, and
    two models that differ only in the value of their [api_key] class
    variable give the same outcome (the same mapping, or the same error). *)
Theorem get_class_vars_hides_api_key cls1 cls2 :
  differ_only_in_api_key cls1 cls2 ->
  get_class_vars cls1 = get_class_vars cls2 /\
  (forall m, get_class_vars cls1 = Ok m -> m !! "api_key" = None).
Proof.
  intros Hdiff. split.
  - unfold get_class_vars. destruct Hdiff as [Hnames Hattrs].
    rewrite <- Hnames. by apply loop_ignores_api_key.
  - intros m Hrun. eapply loop_keeps_api_key_out; [exact Hrun|]. apply lookup_empty.
Qed.

End facts.

Lemma get_class_vars_hides_api_key_witness :
  differ_only_in_api_key (book_call "sk-one") (book_call "sk-two") /\
  get_class_vars (book_call "sk-one")
  = Ok (<["base_url" := "https://api"]> (<["call_params" := "gpt-4o"]> ∅)) /\
  get_class_vars (book_call "sk-one") = get_class_vars (book_call "sk-two") /\
  (<["base_url" := "https://api"]> (<["call_params" := "gpt-4o"]> ∅) : gmap string string)
    !! "api_key" = None.
Proof.
  assert (Hdiff : differ_only_in_api_key (book_call "sk-one") (book_call "sk-two")).
  { split; [reflexivity|]. vm_compute. reflexivity. }
  assert (Hrun : get_class_vars (book_call "sk-one")
                 = Ok (<["base_url" := "https://api"]> (<["call_params" := "gpt-4o"]> ∅))).
  { vm_compute. reflexivity. }
  destruct (get_class_vars_hides_api_key _ _ Hdiff) as [Hsame Hout].
  split; [exact Hdiff|]. split; [exact Hrun|]. split; [exact Hsame|].
  exact (Hout _ Hrun).
Defined.

End ClassVarsFacts.

(** ** Properties of [OpenAIStream.construct_call_response] *)

Module StreamFacts.
Import Stream.

Section facts.
Context {Metadata ToolTypes DynamicConfig Messages CallParams CallKwargs
         UserMessage Time V : Type}.
Implicit Types
  self : OpenAIStream Metadata ToolTypes DynamicConfig Messages CallParams CallKwargs
                      UserMessage Time V.

Lemma construct_call_response_unconsumed self :
  message_param self = None ->
  construct_call_response self = Raise not_consumed_error.
Proof. intros Hmp. unfold construct_call_response. by rewrite Hmp. Qed.

Lemma _construct_message_param_role tool_calls content :
  param_role (_construct_message_param tool_calls content) = "assistant".
Proof. unfold _construct_message_param. by destruct (list_truthy tool_calls). Qed.

Lemma construct_call_response_consumed self mp :
  message_param self = Some mp ->
  param_role mp = "assistant" ->
  returns (construct_call_response self) /\ ~ raises (construct_call_response self).
Proof.
  intros Hmp Hrole. unfold construct_call_response, model_validate_message.
  rewrite Hmp, Hrole. simpl. split; [by eexists|]. by intros [e He].
Qed.

(** C5: on a stream object without an aggregated final message
    ([message_param] does not exist) [construct_call_response] raises the
    [ValueError] "No stream response, ..." and returns nothing; on a stream
    that holds an assistant message, in particular the one
    [_construct_message_param] builds when the stream has been consumed, it
    returns a response and does not raise. *)
Theorem construct_call_response_needs_consumed_stream self :
  (message_param self = None ->
   construct_call_response self = Raise not_consumed_error /\
   ~ returns (construct_call_response self)) /\
  (forall mp,
      message_param self = Some mp ->
      param_role mp = "assistant" ->
      returns (construct_call_response self) /\
      ~ raises (construct_call_response self)) /\
  (forall tool_calls content,
      message_param self = Some (_construct_message_param tool_calls content) ->
      returns (construct_call_response self) /\
      ~ raises (construct_call_response self)).
Proof.
  split; [|split].
  - intros Hmp. rewrite (construct_call_response_unconsumed self Hmp).
    split; [done|]. by intros [r Hr].
  - apply construct_call_response_consumed.
  - intros tool_calls content Hmp.
    eapply construct_call_response_consumed; [exact Hmp|].
    apply _construct_message_param_role.
Qed.

End facts.

Lemma construct_call_response_needs_consumed_stream_witness :
  (message_param fresh_stream = None /\
   construct_call_response fresh_stream = Raise not_consumed_error) /\
  (is_Some (message_param consumed_stream) /\
   returns (construct_call_response consumed_stream)).
Proof.
  split.
  - split; [reflexivity|].
    exact (proj1 (proj1 (construct_call_response_needs_consumed_stream fresh_stream)
                        eq_refl)).
  - split; [by eexists|].
    exact (proj1 (proj2 (proj2 (construct_call_response_needs_consumed_stream
                                  consumed_stream))
                        None (Some "The Name of the Wind") eq_refl)).
Defined.

Example consumed_stream_usage :
  (usage ∘ response) <$> construct_call_response consumed_stream
  = Ok (Some {| prompt_tokens := 12; completion_tokens := 7; total_tokens := 19 |}).
Proof. reflexivity. Qed.

End StreamFacts.

(** ** Properties of [setup_call] and [setup_extract] *)

Module SetupFacts.
Import Setup SetupExamples.

Lemma ior_lookup (d other : gmap string pyval) (k : string) :
  ior d other !! k = match other !! k with
                     | Some v => Some v
                     | None => d !! k
                     end.
Proof.
  unfold ior. destruct (other !! k) as [v|] eqn:Hk.
  - by apply lookup_union_Some_l.
  - rewrite lookup_union_r; done.
Qed.

Lemma ior_empty (d : gmap string pyval) : ior d ∅ = d.
Proof. unfold ior. apply (left_id_L ∅ (∪)). Qed.

Lemma dict_truthy_false_merge (d : gmap string pyval) other :
  dict_truthy other = false -> ior d (default ∅ other) = d.
Proof.
  destruct other as [o|]; simpl; intros H; [|apply ior_empty].
  apply negb_false_iff, bool_decide_eq_true in H. subst o. apply ior_empty.
Qed.

Lemma json_mode_requested_true (rf : pyval) :
  json_mode_requested rf = Ok true ->
  exists d, rf = VDict d /\ dict_lookup d "type" = Some (VStr "json_object").
Proof.
  unfold json_mode_requested.
  destruct (truthy rf) eqn:Htruthy; simpl; [|done].
  destruct rf as [| | | | s |l|d]; simpl; try done.
  - destruct (bool_decide _); simpl; done.
  - destruct (existsb _ l); simpl; done.
  - destruct (dict_lookup d "type") as [t|] eqn:Hlookup; simpl; [|done].
    destruct t; simpl; try done.
    intros [= Heq%bool_decide_eq_true]. subst. by exists d.
Qed.

Lemma json_mode_requested_dict (d : list (string * pyval)) :
  json_mode_requested (VDict d)
  = Ok (match dict_lookup d "type" with
        | Some type => eq_str type "json_object"
        | None => false
        end).
Proof.
  unfold json_mode_requested. destruct d as [|[k v] d]; [done|].
  change (truthy (VDict ((k, v) :: d))) with true. simpl negb. cbv iota.
  unfold contains, getitem.
  by destruct (dict_lookup ((k, v) :: d) "type") as [t|] eqn:Hlookup.
Qed.

Section facts.
Context {Tool ToolType : Type}.
Context (parse_prompt_messages :
           list string -> string -> gmap string pyval -> result (list pyval))
        (isclass : Tool -> bool)
        (convert_base_model_to_base_tool : Tool -> result ToolType)
        (convert_function_to_base_tool : Tool -> result ToolType)
        (tool_schema : ToolType -> pyval)
        (model_json_schema : ToolType -> pyval)
        (json_dumps : pyval -> string)
        (dedent : string -> string).

#[local] Abbreviation setup_call' :=
  (setup_call parse_prompt_messages isclass convert_base_model_to_base_tool
              convert_function_to_base_tool tool_schema).
#[local] Abbreviation convert_tools' :=
  (convert_tools isclass convert_base_model_to_base_tool
                 convert_function_to_base_tool tool_schema).
#[local] Abbreviation setup_extract' :=
  (setup_extract parse_prompt_messages isclass convert_base_model_to_base_tool
                 convert_function_to_base_tool tool_schema model_json_schema
                 json_dumps dedent).

Implicit Types (fn : Callable) (fn_args call_params : gmap string pyval)
               (fr : OpenAICallFunctionReturn Tool) (tools : option (list Tool)).

Lemma read_fn_return_some fr tools call_params :
  read_fn_return (Some fr) tools call_params
  = (computed_fields fr, default tools (fr_tools fr), fr_messages fr,
     merged_call_params call_params (Some fr)).
Proof. reflexivity. Qed.

(** The [if tools] block writes the ["tools"] key and no other. *)
Lemma convert_tools_other_keys tools call_kwargs tool_types call_kwargs' key :
  convert_tools' tools call_kwargs = Ok (tool_types, call_kwargs') ->
  key <> "tools" ->
  call_kwargs' !! key = call_kwargs !! key.
Proof.
  unfold convert_tools. destruct (list_truthy tools); simpl.
  - destruct (mapM _ _) as [tts|e]; simpl; [|done].
    intros [= <- <-] Hne. by rewrite lookup_insert_ne.
  - by intros [= <- <-] _.
Qed.

(** Apart from ["tools"], the call keyword arguments [setup_call] returns
    are the merged call parameters. *)
Lemma setup_call_kwargs fn fn_args fn_return tools call_params
    fn_args' prompt_template messages tool_types call_kwargs key :
  setup_call' fn fn_args fn_return tools call_params
  = (fn_args', Ok (prompt_template, messages, tool_types, call_kwargs)) ->
  key <> "tools" ->
  call_kwargs !! key = merged_call_params call_params fn_return !! key.
Proof.
  unfold setup_call. intros Hrun Hne.
  assert (Hread : exists cf tools' ms,
             read_fn_return fn_return tools call_params
             = (cf, tools', ms, merged_call_params call_params fn_return)).
  { destruct fn_return as [fr|]; simpl; eauto. }
  destruct Hread as (cf & tools' & ms & Hread). rewrite Hread in Hrun.
  destruct (negb (list_truthy ms)); [destruct (getdoc fn) as [doc|]|];
    injection Hrun as _ Hrun.
  - destruct (parse_prompt_messages _ _ _) as [parsed|e]; simpl in Hrun; [|done].
    destruct (convert_tools' tools' _) as [[tts kw]|e] eqn:Hconv; simpl in Hrun; [|done].
    injection Hrun as _ _ _ <-. by eapply convert_tools_other_keys.
  - done.
  - simpl in Hrun.
    destruct (convert_tools' tools' _) as [[tts kw]|e] eqn:Hconv; simpl in Hrun; [|done].
    injection Hrun as _ _ _ <-. by eapply convert_tools_other_keys.
Qed.

(** C1 (amended): when the dynamic return supplies computed fields and no
    message list, what [setup_call] does depends on the docstring of the
    decorated function.  With a docstring it writes the computed fields
    into the function arguments before the template is parsed, the parser
    receives that merged mapping, and on a key of both the computed field's
    value is the one that stays; keys the computed fields do not have keep
    the passed value.  Without a docstring it raises the [AssertionError]
    before anything is merged: the function arguments are left as they
    were. *)
Theorem computed_fields_override_fn_args
    fn fn_args fr tools call_params cf :
  computed_fields fr = Some cf ->
  list_truthy (fr_messages fr) = false ->
  let run := setup_call' fn fn_args (Some fr) tools call_params in
  match getdoc fn with
  | Some doc =>
      (forall key, run.1 !! key = match cf !! key with
                                  | Some v => Some v
                                  | None => fn_args !! key
                                  end) /\
      (forall e, parse_prompt_messages roles doc run.1 = Raise e -> run.2 = Raise e) /\
      (forall prompt_template messages tool_types call_kwargs,
          run.2 = Ok (prompt_template, messages, tool_types, call_kwargs) ->
          prompt_template = Some doc /\
          parse_prompt_messages roles doc run.1 = Ok messages)
  | None =>
      run = (fn_args, Raise (AssertionError "The function must have a docstring."))
  end.
Proof.
  intros Hcf Hms run. subst run. unfold setup_call.
  rewrite read_fn_return_some, Hcf, Hms. simpl negb. cbv iota beta.
  destruct (getdoc fn) as [doc|]; [|reflexivity].
  set (merged := if dict_truthy (Some cf) then ior fn_args (default ∅ (Some cf))
                 else fn_args).
  assert (Hmerged : merged = ior fn_args cf).
  { subst merged. destruct (dict_truthy (Some cf)) eqn:Ht; [done|].
    symmetry. by apply (dict_truthy_false_merge fn_args (Some cf)). }
  simpl fst. simpl snd. split; [|split].
  - intros key. rewrite Hmerged. apply ior_lookup.
  - intros e He. by rewrite He.
  - intros pt msgs tts kw.
    destruct (parse_prompt_messages roles doc merged) as [parsed|e]; simpl; [|done].
    destruct (convert_tools' _ _) as [[tts' kw']|e]; simpl; [|done].
    by intros [= <- <- _ _].
Qed.

(** With a non-empty supplied message list neither the docstring nor the
    parser is looked at. *)
Lemma setup_call_with_messages fn fn_args fr tools call_params ms :
  fr_messages fr = Some ms ->
  ms <> [] ->
  setup_call' fn fn_args (Some fr) tools call_params
  = (fn_args,
     '(tool_types, call_kwargs) ←
        convert_tools' (default tools (fr_tools fr))
                       (merged_call_params call_params (Some fr));
     Ok (None, ms, tool_types, call_kwargs)).
Proof.
  intros Hms Hne. unfold setup_call.
  rewrite read_fn_return_some, Hms.
  destruct ms as [|m ms]; [done|]. reflexivity.
Qed.

(** A returning [setup_call] has converted the tools in effect. *)
Lemma setup_call_conversion fn fn_args fn_return tools call_params
    fn_args' prompt_template messages tool_types call_kwargs :
  setup_call' fn fn_args fn_return tools call_params
  = (fn_args', Ok (prompt_template, messages, tool_types, call_kwargs)) ->
  convert_tools' (tools_in_effect fn_return tools)
                 (merged_call_params call_params fn_return)
  = Ok (tool_types, call_kwargs).
Proof.
  unfold setup_call. intros Hrun.
  assert (Hread : exists cf ms,
             read_fn_return fn_return tools call_params
             = (cf, tools_in_effect fn_return tools, ms,
                merged_call_params call_params fn_return)).
  { destruct fn_return as [fr|]; simpl; eauto. }
  destruct Hread as (cf & ms & Hread). rewrite Hread in Hrun.
  destruct (negb (list_truthy ms)); [destruct (getdoc fn) as [doc|]|];
    injection Hrun as _ Hrun.
  - destruct (parse_prompt_messages _ _ _) as [parsed|e]; simpl in Hrun; [|done].
    destruct (convert_tools' _ _) as [[tts kw]|e]; simpl in Hrun; [|done].
    by injection Hrun as _ _ <- <-.
  - done.
  - simpl in Hrun.
    destruct (convert_tools' _ _) as [[tts kw]|e]; simpl in Hrun; [|done].
    by injection Hrun as _ _ <- <-.
Qed.

(** One tool type comes from one tool. *)
Lemma convert_tools_single tools call_kwargs tool_type call_kwargs' :
  convert_tools' tools call_kwargs = Ok (Some [tool_type], call_kwargs') ->
  exists used,
    tools = Some [used] /\
    (if isclass used then convert_base_model_to_base_tool used
     else convert_function_to_base_tool used) = Ok tool_type.
Proof.
  unfold convert_tools. destruct tools as [[|used [|next rest]]|]; simpl; try done.
  - destruct (if isclass used then _ else _) as [type|e] eqn:Hused; simpl; [|done].
    intros [= -> _]. by exists used.
  - destruct (if isclass used then _ else _) as [type|e]; simpl; [|done].
    destruct (if isclass next then _ else _) as [type'|e]; simpl; [|done].
    destruct (mapM _ rest) as [types|e]; simpl; done.
Qed.

(** C3 (amended): when [setup_call] returns one tool type, it is the
    conversion of the one tool in effect, which is the extraction tool when
    the dynamic return has no ["tools"] entry and the tool of that entry
    otherwise.  [setup_extract] goes into JSON mode exactly when the merged
    call parameters hold a [response_format] whose ["type"] is
    ["json_object"].  With a [response_format] of its declared type it
    returns: in JSON mode the ["tools"] entry is [None] and the extraction
    message (role ["user"], content the dedented instruction followed by
    the JSON schema text of that tool type) is appended as the last
    message; otherwise no message is appended, ["tools"] holds the schema
    of that tool type and ["tool_choice"] is ["required"]. *)
Theorem setup_extract_json_mode
    fn fn_args fn_return tool call_params
    fn_args' prompt_template messages tool_type call_kwargs :
  setup_call' fn fn_args fn_return (Some [tool]) call_params
  = (fn_args', Ok (prompt_template, messages, Some [tool_type], call_kwargs)) ->
  (exists used,
      tools_in_effect fn_return (Some [tool]) = Some [used] /\
      (if isclass used then convert_base_model_to_base_tool used
       else convert_function_to_base_tool used) = Ok tool_type /\
      (fn_return ≫= fr_tools = None -> used = tool)) /\
  requests_json_object call_kwargs
  = requests_json_object (merged_call_params call_params fn_return) /\
  (forall json_mode messages' call_kwargs',
      setup_extract' fn fn_args fn_return tool call_params
      = (fn_args', Ok (json_mode, messages', call_kwargs')) ->
      json_mode = requests_json_object call_kwargs) /\
  (response_format_well_typed call_kwargs ->
   setup_extract' fn fn_args fn_return tool call_params
   = (fn_args',
      Ok (if requests_json_object call_kwargs
          then (true,
                messages ++ [extraction_message model_json_schema json_dumps dedent tool_type],
                <["tools" := VNone]> call_kwargs)
          else (false,
                messages,
                <["tool_choice" := VStr "required"]>
                  (<["tools" := VList [tool_schema tool_type]]> call_kwargs))))).
Proof.
  intros Hcall. split; [|split; [|split]].
  - destruct (convert_tools_single _ _ _ _ (setup_call_conversion _ _ _ _ _ _ _ _ _ _ Hcall))
      as (used & Htools & Hused).
    exists used. split; [done|]. split; [done|].
    intros Hnone. destruct fn_return as [fr|]; simpl in Hnone, Htools.
    + rewrite Hnone in Htools. simpl in Htools. by injection Htools as ->.
    + by injection Htools as ->.
  - unfold requests_json_object.
    by rewrite (setup_call_kwargs _ _ _ _ _ _ _ _ _ _ "response_format" Hcall).
  - intros jm msgs' kw'. unfold setup_extract. rewrite Hcall. simpl.
    destruct (json_mode_requested _) as [b|e] eqn:Hmode; simpl; [|done].
    intros Hret. assert (jm = b) as -> by (destruct b; by injection Hret).
    unfold requests_json_object.
    destruct b.
    + apply json_mode_requested_true in Hmode as (d & Hrf & Htype).
      destruct (call_kwargs !! "response_format") as [rf|]; simpl in Hrf; [|done].
      subst rf. by rewrite Htype.
    + destruct (call_kwargs !! "response_format") as [[| | | | | |d]|]; try done.
      simpl in Hmode. rewrite json_mode_requested_dict in Hmode.
      by injection Hmode as ->.
  - intros Htyped. unfold setup_extract. rewrite Hcall. simpl.
    unfold response_format_well_typed, requests_json_object in *.
    destruct (call_kwargs !! "response_format") as [[| | | | | |d]|]; try done.
    simpl. rewrite json_mode_requested_dict. simpl.
    by destruct (match dict_lookup d "type" with Some _ => _ | None => _ end).
Qed.

End facts.

(** C2 (amended): when the dynamic return supplies a non-empty message list,
    [setup_call] consults neither the template parser nor the docstring: the
    outcome is the same for every parser and every decorated function, the
    function arguments are left as they were, the returned messages are the
    supplied list, the first component of the returned tuple is [None], and
    the call returns whenever the tools convert. *)
Theorem supplied_messages_skip_template {Tool ToolType : Type}
    (parse_prompt_messages parse_prompt_messages' :
       list string -> string -> gmap string pyval -> result (list pyval))
    (isclass : Tool -> bool)
    (convert_base_model_to_base_tool convert_function_to_base_tool
       : Tool -> result ToolType)
    (tool_schema : ToolType -> pyval)
    (fn fn' : Callable) (fn_args : gmap string pyval)
    (fr : OpenAICallFunctionReturn Tool) (tools : option (list Tool))
    (call_params : gmap string pyval) (ms : list pyval) :
  fr_messages fr = Some ms ->
  ms <> [] ->
  let run := setup_call parse_prompt_messages isclass
                        convert_base_model_to_base_tool
                        convert_function_to_base_tool tool_schema
                        fn fn_args (Some fr) tools call_params in
  run = setup_call parse_prompt_messages' isclass
                   convert_base_model_to_base_tool
                   convert_function_to_base_tool tool_schema
                   fn' fn_args (Some fr) tools call_params /\
  run.1 = fn_args /\
  (forall prompt_template messages tool_types call_kwargs,
      run.2 = Ok (prompt_template, messages, tool_types, call_kwargs) ->
      messages = ms /\ prompt_template = None) /\
  (forall tool_types call_kwargs,
      convert_tools isclass convert_base_model_to_base_tool
                    convert_function_to_base_tool tool_schema
                    (default tools (fr_tools fr))
                    (merged_call_params call_params (Some fr))
      = Ok (tool_types, call_kwargs) ->
      run.2 = Ok (None, ms, tool_types, call_kwargs)).
Proof.
  intros Hms Hne run. subst run.
  rewrite !(setup_call_with_messages _ _ _ _ _ _ _ _ _ _ ms Hms Hne).
  split; [done|]. split; [done|]. simpl. split.
  - intros pt msgs tts kw.
    destruct (convert_tools _ _ _ _ _ _) as [[tts' kw']|e]; simpl; [|done].
    by intros [= <- <- _ _].
  - intros tts kw ->. done.
Qed.

(** *** Structured extraction *)

Section extract_facts.
Context {Model Instance Json : Type}.
Context (is_base_type : Model -> bool)
        (convert_base_type_to_base_tool : Model -> Model)
        (from_json_trailing_strings : string -> result Json)
        (partial : Model -> Model)
        (model_validate : Model -> Json -> result Instance)
        (model_validate_json : Model -> string -> result Instance)
        (value : Instance -> Instance).

#[local] Abbreviation extract_tool_return' :=
  (extract_tool_return is_base_type convert_base_type_to_base_tool
                       from_json_trailing_strings partial model_validate
                       model_validate_json value).

(** With [allow_partial] the outcome is decided by the partial JSON parser
    and by the validation of the partial model: an exception of either
    escapes [extract_tool_return] unchanged. *)
Lemma extract_tool_return_partial_parse_error response_model json_output e :
  from_json_trailing_strings json_output = Raise e ->
  extract_tool_return' response_model json_output true = Raise e.
Proof. intros Hparse. unfold extract_tool_return. by rewrite Hparse. Qed.

Lemma extract_tool_return_partial_returns response_model json_output :
  returns (extract_tool_return' response_model json_output true) <->
  exists json_obj,
    from_json_trailing_strings json_output = Ok json_obj /\
    returns (model_validate
               (partial (if is_base_type response_model
                         then convert_base_type_to_base_tool response_model
                         else response_model))
               json_obj).
Proof.
  unfold extract_tool_return, returns, mbind, result_mbind, result_bind.
  destruct (from_json_trailing_strings json_output) as [json_obj|e].
  - destruct (model_validate _ json_obj) as [output|e] eqn:Hvalidate; split.
    + intros _. exists json_obj. split; [done|]. by exists output.
    + intros _. by eexists.
    + by intros [? ?].
    + intros (json_obj' & [= <-] & output & Houtput). congruence.
  - split; [by intros [? ?]|by intros (? & ? & _)].
Qed.

End extract_facts.

(** *** Concrete runs *)

Example setup_call_plain :
  example_setup_call recommend_book fantasy_args None None ∅
  = (fantasy_args,
     Ok (Some "Recommend a {genre} book", [user_message "Recommend a fantasy book"],
         None, ∅)).
Proof. vm_compute. reflexivity. Qed.

(** Runs of C1 (amended): the computed [genre] replaces the passed one, the
    passed [style] stays, and the parser sees the merged mapping; for a
    function without a docstring nothing is merged. *)
Lemma computed_fields_override_fn_args_witness :
  let run := example_setup_call recommend_book
               {[ "genre" := VStr "fantasy"; "style" := VStr "short" ]}
               (Some computed_genre) None ∅ in
  (run.1 !! "genre" = Some (VStr "scifi") /\
   run.1 !! "style" = Some (VStr "short") /\
   run.2 = Ok (Some "Recommend a {genre} book", [user_message "Recommend a scifi book"],
               None, ∅)) /\
  example_setup_call {| getdoc := None |} fantasy_args (Some computed_genre) None ∅
  = (fantasy_args, Raise (AssertionError "The function must have a docstring.")).
Proof.
  split.
  - destruct (computed_fields_override_fn_args
                example_parser (fun _ => true) Ok Ok example_tool_schema
                recommend_book {[ "genre" := VStr "fantasy"; "style" := VStr "short" ]}
                computed_genre None ∅
                {[ "genre" := VStr "scifi" ]}
                eq_refl eq_refl) as (Hlookup & _ & _).
    split; [exact (Hlookup "genre")|]. split; [exact (Hlookup "style")|].
    vm_compute. reflexivity.
  - exact (computed_fields_override_fn_args
             example_parser (fun _ => true) Ok Ok example_tool_schema
             {| getdoc := None |} fantasy_args computed_genre None ∅
             {[ "genre" := VStr "scifi" ]} eq_refl eq_refl).
Defined.

(** C1 as the specification words it fails: with [genre = "fantasy"] passed
    and [genre = "scifi"] computed, the merged mapping holds ["scifi"]. *)
Lemma explicit_arguments_do_not_take_precedence :
  ~ explicit_arguments_take_precedence.
Proof.
  intros Hclaim.
  specialize (Hclaim recommend_book fantasy_args computed_genre
                     None ∅ {[ "genre" := VStr "scifi" ]} "Recommend a {genre} book"
                     "genre" (VStr "fantasy") eq_refl eq_refl eq_refl eq_refl).
  assert (Hin : is_Some (({[ "genre" := VStr "scifi" ]} : gmap string pyval) !! "genre"))
    by (eexists; reflexivity).
  specialize (Hclaim Hin). vm_compute in Hclaim. discriminate Hclaim.
Qed.

(** A run of C2 (amended): the supplied message comes back, the passed
    arguments are untouched and there is no prompt template. *)
Lemma supplied_messages_skip_template_witness :
  fr_messages explicit_messages = Some [user_message "Recommend a fantasy book"] /\
  [user_message "Recommend a fantasy book"] <> [] /\
  example_setup_call recommend_book {[ "genre" := VStr "horror" ]}
                     (Some explicit_messages) None ∅
  = ({[ "genre" := VStr "horror" ]},
     Ok (None, [user_message "Recommend a fantasy book"], None, ∅)).
Proof.
  assert (Hne : [user_message "Recommend a fantasy book"] <> []) by discriminate.
  split; [reflexivity|]. split; [exact Hne|].
  destruct (supplied_messages_skip_template
              example_parser example_parser (fun _ => true) Ok Ok example_tool_schema
              recommend_book recommend_book {[ "genre" := VStr "horror" ]}
              explicit_messages None ∅
              [user_message "Recommend a fantasy book"] eq_refl Hne)
    as (_ & Hargs & _ & Hrun).
  specialize (Hrun None ∅ eq_refl).
  unfold example_setup_call.
  destruct (setup_call _ _ _ _ _ _ _ _ _ _) as [fn_args outcome].
  simpl in Hargs, Hrun. by rewrite Hargs, Hrun.
Defined.

(** C2 as the specification words it fails: with a supplied message list
    the first component is [None], not the docstring. *)
Lemma template_dropped_with_supplied_messages :
  ~ template_kept_with_supplied_messages.
Proof.
  intros Hclaim.
  assert (Hne : [user_message "Recommend a fantasy book"] <> []) by discriminate.
  destruct (Hclaim recommend_book {[ "genre" := VStr "horror" ]} explicit_messages
                   None ∅ [user_message "Recommend a fantasy book"]
                   "Recommend a {genre} book" eq_refl Hne eq_refl
                   None [user_message "Recommend a fantasy book"] None ∅)
    as [_ Hdoc].
  - vm_compute. reflexivity.
  - discriminate Hdoc.
Qed.

(** Runs of C3 (amended): with a JSON-object response format, and without
    one; and with a dynamic tool, whose schema is the one used. *)
Lemma setup_extract_json_mode_witness :
  example_setup_extract recommend_book fantasy_args None "Book" json_object_params
  = (fantasy_args,
     Ok (true,
         [ user_message "Recommend a fantasy book";
           user_message (extraction_instruction +:+ "<schema of Book>") ],
         <["tools" := VNone]> json_object_params)) /\
  example_setup_extract recommend_book fantasy_args None "Book" ∅
  = (fantasy_args,
     Ok (false,
         [ user_message "Recommend a fantasy book" ],
         {[ "tools" := VList [example_tool_schema "Book"];
            "tool_choice" := VStr "required" ]})) /\
  example_setup_extract recommend_book fantasy_args (Some author_tool) "Book" ∅
  = (fantasy_args,
     Ok (false,
         [ user_message "Recommend a fantasy book" ],
         {[ "tools" := VList [example_tool_schema "Author"];
            "tool_choice" := VStr "required" ]})).
Proof.
  split; [|split].
  - destruct (setup_extract_json_mode
                example_parser (fun _ => true) Ok Ok example_tool_schema
                example_json_schema example_json_dumps (fun text => text)
                recommend_book fantasy_args None "Book" json_object_params
                fantasy_args (Some "Recommend a {genre} book")
                [user_message "Recommend a fantasy book"] "Book"
                (<["tools" := VList [example_tool_schema "Book"]]> json_object_params))
      as (_ & _ & _ & Hrun).
    + vm_compute. reflexivity.
    + etrans; [apply Hrun; vm_compute; exact I|]. vm_compute. reflexivity.
  - destruct (setup_extract_json_mode
                example_parser (fun _ => true) Ok Ok example_tool_schema
                example_json_schema example_json_dumps (fun text => text)
                recommend_book fantasy_args None "Book" ∅
                fantasy_args (Some "Recommend a {genre} book")
                [user_message "Recommend a fantasy book"] "Book"
                (<["tools" := VList [example_tool_schema "Book"]]> ∅))
      as (_ & _ & _ & Hrun).
    + vm_compute. reflexivity.
    + etrans; [apply Hrun; vm_compute; exact I|]. vm_compute. reflexivity.
  - destruct (setup_extract_json_mode
                example_parser (fun _ => true) Ok Ok example_tool_schema
                example_json_schema example_json_dumps (fun text => text)
                recommend_book fantasy_args (Some author_tool) "Book" ∅
                fantasy_args (Some "Recommend a {genre} book")
                [user_message "Recommend a fantasy book"] "Author"
                (<["tools" := VList [example_tool_schema "Author"]]> ∅))
      as (_ & _ & _ & Hrun).
    + vm_compute. reflexivity.
    + etrans; [apply Hrun; vm_compute; exact I|]. vm_compute. reflexivity.
Defined.

(** C3 as the specification words it fails: with the extraction tool
    ["Book"] and a dynamic return whose ["tools"] entry is ["Author"], the
    call keyword arguments hold the schema of ["Author"]. *)
Lemma extraction_tool_schema_replaced :
  ~ extraction_tool_schema_is_used.
Proof.
  intros Hclaim.
  destruct (Hclaim recommend_book fantasy_args (Some author_tool) "Book" ∅
                   fantasy_args false
                   [user_message "Recommend a fantasy book"]
                   {[ "tools" := VList [example_tool_schema "Author"];
                      "tool_choice" := VStr "required" ]}
                   (Some "Recommend a {genre} book")
                   [user_message "Recommend a fantasy book"]
                   (Some ["Author"])
                   (<["tools" := VList [example_tool_schema "Author"]]> ∅))
    as (_ & Htools & _).
  - vm_compute. reflexivity.
  - vm_compute. reflexivity.
  - vm_compute in Htools. discriminate Htools.
Qed.

(** A dynamic tool list replaces the extraction tool inside [setup_call];
    with two dynamic tools the one-element unpacking fails. *)
Example setup_extract_two_dynamic_tools :
  (example_setup_extract recommend_book fantasy_args
     (Some {| computed_fields := None; fr_tools := Some (Some ["Book"; "Author"]);
              fr_messages := None; fr_call_params := None |})
     "Book" ∅).2
  = Raise (ValueError "too many values to unpack (expected 1)").
Proof. vm_compute. reflexivity. Qed.

End SetupFacts.
(** ** Properties of [mirascope_span] *)

Module SpanFacts.
Import Span.

Section facts.
Context {Self Args K V B CM X : Type}.
Context (none : V) (enter : CM -> option B) (suppresses : CM -> exn -> bool).

#[local] Abbreviation method' := (method Self Args K V B CM X).
#[local] Abbreviation event' := (event Self K V B CM).
#[local] Abbreviation item' := (item Self K V B CM X).
#[local] Abbreviation span :=
  (mirascope_span (Self := Self) (Args := Args) (X := X) none enter suppresses).

Implicit Types (fn : method') (self : Self) (args : Args)
               (kwargs custom_kwargs kw : gmap string K)
               (items : list item') (output : list V).

(** *** Calls and their traces *)

Lemma comp_bind_ret_l {A A'} (a : A) (f : A -> comp Self K V B CM X A') :
  comp_bind f (comp_ret a) = f a.
Proof. unfold comp_bind, comp_ret. simpl. by destruct (f a). Qed.

Lemma comp_bind_ret_r {A} (c : comp Self K V B CM X A) :
  comp_bind comp_ret c = c.
Proof.
  unfold comp_bind, comp_ret. destruct c as [t [a|e]]; simpl; [|done].
  by rewrite app_nil_r.
Qed.

Lemma call_after_supplied (hook : @after_hook Self K V B) self res b kwargs custom_kwargs kw :
  merge_kwargs kwargs custom_kwargs = Ok kw ->
  call_after (X := X) (CM := CM) (Some hook) self res b kwargs custom_kwargs
  = Comp [AfterCall self res b kw] (hook self res b kw).
Proof. intros Hkw. unfold call_after. simpl. unfold comp_bind, lift. simpl. by rewrite Hkw. Qed.

(** *** Received values *)

Lemma received_happened (events : list (event' X)) :
  received (Happened <$> events) = [].
Proof. unfold received. by induction events. Qed.

Lemma received_app items1 items2 :
  received (items1 ++ items2) = received items1 ++ received items2.
Proof. unfold received. apply omap_app. Qed.

Lemma received_cons v items :
  received (Received v :: items) = v :: received items.
Proof. reflexivity. Qed.

(** *** Iterating over a wrapping generator *)

Section iteration.
Context (handle_before_call : option (@before_hook Self K B CM))
        (handle_after_call : option (@after_hook Self K V B))
        (custom_kwargs : gmap string K)
        (g : generator_function Self Args K V B CM X).

#[local] Abbreviation next' :=
  (wrapper_next enter suppresses handle_before_call handle_after_call custom_kwargs g).

#[local] Abbreviation wrapper_state' :=
  (@wrapper_state Self Args K V B CM (gen_state g)).

Lemma leave_ending (cm : option CM) (events : list (event' X)) (r : result unit) :
  leave (V := V) (G := wrapper_state') suppresses cm events r
  = (events ++ exit_events cm r,
     match ending suppresses cm r with
     | Failed e => Throw e
     | _ => Stop
     end).
Proof.
  destruct cm as [cm|], r as [[]|e]; simpl; rewrite ?app_nil_r; try done.
  by destruct (suppresses cm e).
Qed.

(** From inside the loop: the caller receives what the wrapped generator
    yields, as it yields it, and once that one is exhausted the after hook
    is called with everything appended to [output]. *)
Lemma iterate_suspended n :
  forall (result : gen_state g) output before cm self kwargs items,
    iterate (gen_next g) n result = (items, Exhausted) ->
    let after := call_after handle_after_call self (Output (output ++ received items))
                            before kwargs custom_kwargs in
    iterate next' n (Suspended result output before cm self kwargs)
    = (items ++ (Happened <$> (trace after ++ exit_events cm (outcome after))),
       ending suppresses cm (outcome after)).
Proof.
  induction n as [|n IH]; intros result output before cm self kwargs items; simpl.
  { intros [= _ ?]. }
  unfold resume.
  destruct (gen_next g result) as [events [v result'| |e]] eqn:Hnext.
  - destruct (iterate (gen_next g) n result') as [items' c] eqn:Hrest.
    intros [= <- ->].
    rewrite (IH result' (output ++ [v]) before cm self kwargs items' Hrest).
    rewrite received_app, received_happened, received_cons. simpl.
    by rewrite <- !(assoc_L (++)).
  - intros [= <-]. rewrite received_happened, app_nil_r.
    rewrite leave_ending. rewrite !fmap_app, <- !(assoc_L (++)).
    unfold ending. destruct (outcome _) as [[]|e]; [done|].
    destruct cm as [cm|]; [destruct (suppresses cm e)|]; done.
  - intros [= _ ?].
Qed.

(** While the wrapped generator keeps yielding, the caller of the wrapping
    one receives each value at the resumption that produced it, and no hook
    is called in between. *)
Lemma iterate_suspended_abandoned n :
  forall (result : gen_state g) output before cm self kwargs items,
    iterate (gen_next g) n result = (items, Abandoned) ->
    iterate next' n (Suspended result output before cm self kwargs)
    = (items, Abandoned).
Proof.
  induction n as [|n IH]; intros result output before cm self kwargs items; simpl;
    [done|].
  unfold resume.
  destruct (gen_next g result) as [events [v result'| |e]] eqn:Hnext; [|done..].
  destruct (iterate (gen_next g) n result') as [items' c] eqn:Hrest.
  intros [= <- ->].
  by rewrite (IH result' (output ++ [v]) before cm self kwargs items' Hrest).
Qed.

(** The first resumption runs the before hook, enters its context manager,
    creates the wrapped generator and goes into the loop. *)
Lemma iterate_first_resumption n self args kwargs bv :
  let before := call_before (V := V) (X := X)
                            handle_before_call self kwargs custom_kwargs in
  outcome before = Ok bv ->
  iterate next' (S n) (Created self args kwargs)
  = let '(items, c) :=
      iterate next' (S n)
              (Suspended (gen_start g self args kwargs) [] (handed_over enter bv)
                         (manager bv) self kwargs) in
    ((Happened <$> (trace before ++ enter_events bv)) ++ items, c).
Proof.
  intros before Hbefore. simpl. fold before. rewrite Hbefore.
  destruct bv as [b|cm]; simpl;
    destruct (resume _ _ _ _ _ _ _ _ _ _) as [events [v st| |e]];
    try destruct (iterate _ n st) as [items' c];
    rewrite ?fmap_app, <- ?(assoc_L (++)), ?app_nil_r; done.
Qed.

(** From the call to exhaustion. *)
Lemma iterate_created n self args kwargs items bv :
  iterate (gen_next g) n (gen_start g self args kwargs) = (items, Exhausted) ->
  let before := call_before (V := V) (X := X)
                            handle_before_call self kwargs custom_kwargs in
  outcome before = Ok bv ->
  let after := call_after handle_after_call self (Output (received items))
                          (handed_over enter bv) kwargs custom_kwargs in
  iterate next' n (Created self args kwargs)
  = ((Happened <$> (trace before ++ enter_events bv))
       ++ items
       ++ (Happened <$> (trace after ++ exit_events (manager bv) (outcome after))),
     ending suppresses (manager bv) (outcome after)).
Proof.
  intros Hitems before Hbefore after.
  pose proof (iterate_suspended n (gen_start g self args kwargs) [] (handed_over enter bv)
                (manager bv) self kwargs items Hitems) as Hloop.
  destruct n as [|n]; [by injection Hitems|].
  rewrite (iterate_first_resumption n self args kwargs bv Hbefore).
  cbv zeta in Hloop. rewrite Hloop. reflexivity.
Qed.

End iteration.

(** What [inspect] says about a span is what it says about the method. *)
Lemma mirascope_span_inspect handle_before_call handle_after_call custom_kwargs fn :
  let wrapped := span handle_before_call handle_after_call custom_kwargs fn in
  isasyncgenfunction wrapped = isasyncgenfunction fn /\
  iscoroutinefunction wrapped = iscoroutinefunction fn /\
  isgeneratorfunction wrapped = isgeneratorfunction fn.
Proof. by destruct fn. Qed.

(** C4: the span of a method has the method's calling convention, and for
    the two generator shapes: when the caller iterates over the span of a
    generator that yields [received items] and is then exhausted, the caller
    receives exactly these values, in this order and as the wrapped
    generator yields them, and only after the last of them is the after hook
    called, with the list of these values as the result. *)
Theorem mirascope_span_keeps_convention_and_output
    (handle_before_call : option (@before_hook Self K B CM))
    (handle_after_call : option (@after_hook Self K V B))
    custom_kwargs :
  (forall fn,
      convention_of (span handle_before_call handle_after_call custom_kwargs fn)
      = convention_of fn) /\
  (forall fn self args kwargs n items bv hook kw,
      call_and_iterate fn self args kwargs n = Some (items, Exhausted) ->
      handle_after_call = Some hook ->
      merge_kwargs kwargs custom_kwargs = Ok kw ->
      let before := call_before (V := V) (X := X)
                                handle_before_call self kwargs custom_kwargs in
      outcome before = Ok bv ->
      let output := received items in
      let after := hook self (Output output) (handed_over enter bv) kw in
      let timeline :=
        (Happened <$> (trace before ++ enter_events bv))
          ++ items
          ++ Happened (AfterCall self (Output output) (handed_over enter bv) kw)
          :: (Happened <$> exit_events (manager bv) after) in
      call_and_iterate (span handle_before_call handle_after_call custom_kwargs fn)
                       self args kwargs n
      = Some (timeline, ending suppresses (manager bv) after) /\
      received timeline = output).
Proof.
  split; [by intros []|].
  intros fn self args kwargs n items bv hook kw Hitems -> Hkw before Hbefore
         output after timeline.
  split.
  - destruct fn as [f|f|g|g]; simpl in Hitems; try done;
      injection Hitems as Hitems; simpl; f_equal;
      rewrite (iterate_created handle_before_call (Some hook) custom_kwargs g
                 n self args kwargs items bv Hitems Hbefore);
      rewrite (call_after_supplied hook _ _ _ _ _ kw Hkw); reflexivity.
  - subst timeline.
    rewrite !received_app, received_happened.
    change (Happened ?e :: (Happened <$> ?l)) with (Happened <$> (e :: l)).
    by rewrite received_happened, app_nil_r.
Qed.

(** C9: without a before and an after hook, calling the span of a plain
    function is calling the function: the same value or the same exception,
    and no hook or context manager call on the way. *)
Theorem span_without_hooks_is_the_function
    (f : @function Self Args K V B CM X) custom_kwargs self args kwargs :
  call (span None None custom_kwargs (Function f)) self args kwargs
  = Some (f self args kwargs).
Proof.
  simpl. f_equal. unfold wrapper, call_before, call_after.
  unfold mbind, mret, comp_mbind, comp_mret. rewrite comp_bind_ret_l.
  exact (comp_bind_ret_r (f self args kwargs)).
Qed.

(** The class decorator keeps the calling convention of every member. *)
Lemma wrap_mirascope_class_functions_keeps_conventions
    (cls : gmap string method') handle_before_call handle_after_call custom_kwargs
    (name : string) :
  convention_of <$>
    (wrap_mirascope_class_functions none enter suppresses cls
       handle_before_call handle_after_call custom_kwargs !! name)
  = convention_of <$> (cls !! name).
Proof.
  unfold wrap_mirascope_class_functions. rewrite map_lookup_imap.
  destruct (cls !! name) as [fn|]; simpl; [|done]. f_equal.
  destruct (_ && _); [|done]. by destruct fn.
Qed.

End facts.

(** *** A concrete run *)

(** A run of C4: a generator method wrapped with a before hook that returns
    a context manager and with an after hook. *)
Lemma mirascope_span_keeps_convention_and_output_witness :
  convention_of (example_span (Generator numbers)) = GeneratorFunction /\
  call_and_iterate (Generator numbers) "stream" [1; 2; 3] ∅ 4
  = Some ([Received 1; Received 2; Received 3], Exhausted) /\
  call_and_iterate (example_span (Generator numbers)) "stream" [1; 2; 3] ∅ 4
  = Some ([ Happened (BeforeCall "stream" ∅);
            Happened (Enter "span");
            Received 1; Received 2; Received 3;
            Happened (AfterCall "stream" (Output [1; 2; 3]) (Some "span") ∅);
            Happened (Exit "span" None) ],
          Exhausted).
Proof.
  pose proof (mirascope_span_keeps_convention_and_output
                (Args := list nat) (X := Empty_set)
                0 (fun cm : string => Some cm) (fun _ _ => false)
                (Some open_span) (Some log_output) (∅ : gmap string nat))
    as [Hconvention Houtput].
  split; [exact (Hconvention (Generator numbers))|].
  split; [reflexivity|].
  assert (Hkw : merge_kwargs (∅ : gmap string nat) ∅ = Ok ∅)
    by (vm_compute; reflexivity).
  assert (Hbefore : outcome (call_before (V := nat) (X := Empty_set)
                                         (Some open_span) "stream" (∅ : gmap string nat) ∅)
                    = Ok (ContextManager "span"))
    by (vm_compute; reflexivity).
  destruct (Houtput (Generator numbers) "stream" [1; 2; 3] ∅ 4
                    [Received 1; Received 2; Received 3] (ContextManager "span")
                    log_output ∅ eq_refl eq_refl Hkw Hbefore) as [Hrun _].
  etrans; [exact Hrun|]. vm_compute. reflexivity.
Defined.

(** A public generator method, which the decorator wraps, and a private and
    an ignored member, which it leaves alone. *)
Example wrap_mirascope_class_functions_members :
  let cls : gmap string (method string (list nat) nat nat string string Empty_set) :=
    {[ "stream" := Generator numbers;
       "_setup" := Generator numbers;
       "model_dump" := Generator numbers ]} in
  let wrapped :=
    wrap_mirascope_class_functions 0 (fun cm : string => Some cm) (fun _ _ => false)
                                   cls (Some open_span) (Some log_output) ∅ in
  wrapped !! "stream" = Some (example_span (Generator numbers)) /\
  wrapped !! "_setup" = Some (Generator numbers) /\
  wrapped !! "model_dump" = Some (Generator numbers).
Proof. repeat split. Qed.

End SpanFacts.

(** ** More about [get_class_vars] *)

Module ClassVarsMore.
Import ClassVars ClassVarsExamples.

Section facts.
Context {V : Type}.
Implicit Types (cls : BaseModel V) (names : list string) (acc m : gmap string V).

(** What the loop leaves in the dictionary. *)
Lemma loop_lookup cls names acc m name :
  get_class_vars_loop cls names acc = Ok m ->
  m !! name = if decide (name ∈ names /\ name <> "api_key")
              then class_attributes cls !! name
              else acc !! name.
Proof.
  revert acc. induction names as [|n names IH]; intros acc Hrun; simpl in Hrun.
  - injection Hrun as <-. case_decide as Hin; [|done].
    destruct Hin as [Hin _]. by apply elem_of_nil in Hin.
  - destruct (bool_decide_reflect (n = "api_key")) as [->|Hne]; simpl in Hrun.
    + rewrite (IH _ Hrun).
      destruct (decide (name ∈ names /\ _)) as [[Hin Hname]|Hnot];
        destruct (decide (name ∈ "api_key" :: names /\ _)) as [[Hin' Hname']|Hnot'];
        try done.
      * exfalso. apply Hnot'. split; [by right|done].
      * exfalso. apply elem_of_cons in Hin' as [->|Hin']; [done|]. by apply Hnot.
    + unfold getattr in Hrun.
      destruct (class_attributes cls !! n) as [v|] eqn:Hattr; simpl in Hrun; [|done].
      rewrite (IH _ Hrun).
      destruct (decide (name ∈ names /\ _)) as [[Hin Hname]|Hnot];
        destruct (decide (name ∈ n :: names /\ _)) as [[Hin' Hname']|Hnot'];
        try done.
      * exfalso. apply Hnot'. split; [by right|done].
      * apply elem_of_cons in Hin' as [->|Hin']; [|exfalso; by apply Hnot].
        by rewrite lookup_insert_eq.
      * apply lookup_insert_ne. intros ->. apply Hnot'. split; [by left|done].
Qed.

(** When the loop gets through. *)
Lemma loop_returns cls names acc :
  returns (get_class_vars_loop cls names acc) <->
  Forall (fun n => n = "api_key" \/ is_Some (class_attributes cls !! n)) names.
Proof.
  revert acc. induction names as [|n names IH]; simpl; intros acc.
  - split; [by intros _|]. intros _. by eexists.
  - rewrite Forall_cons.
    destruct (bool_decide_reflect (n = "api_key")) as [->|Hne]; simpl.
    + rewrite IH. split; [intros H; split; [by left|done]|by intros [_ H]].
    + unfold getattr.
      destruct (class_attributes cls !! n) as [v|] eqn:Hattr; simpl.
      * rewrite IH. split; [intros H; split; [right; by eexists|done]|by intros [_ H]].
      * split; [by intros [? ?]|]. intros [[?|[? ?]] _]; done.
Qed.

(** When it does not: the exception names a declared variable without a
    class attribute. *)
Lemma loop_raises cls names acc e :
  get_class_vars_loop cls names acc = Raise e ->
  exists n, e = AttributeError n /\ n ∈ names /\ n <> "api_key" /\
            class_attributes cls !! n = None.
Proof.
  revert acc. induction names as [|n names IH]; simpl; intros acc Hrun; [done|].
  destruct (bool_decide_reflect (n = "api_key")) as [->|Hne]; simpl in Hrun.
  - destruct (IH _ Hrun) as (n' & ? & ? & ? & ?). exists n'. by rewrite elem_of_cons; auto.
  - unfold getattr in Hrun.
    destruct (class_attributes cls !! n) as [v|] eqn:Hattr; simpl in Hrun.
    + destruct (IH _ Hrun) as (n' & ? & ? & ? & ?). exists n'.
      by rewrite elem_of_cons; auto.
    + injection Hrun as <-. exists n. by rewrite elem_of_cons; auto.
Qed.

(** X1: the mapping [get_class_vars] returns holds, for every declared
    class variable other than ["api_key"], the value of the attribute of
    that name on the class, and holds nothing else. *)
Theorem get_class_vars_lookup cls m name :
  get_class_vars cls = Ok m ->
  m !! name = if decide (name ∈ __class_vars__ cls /\ name <> "api_key")
              then class_attributes cls !! name
              else None.
Proof. intros Hrun. by rewrite (loop_lookup _ _ _ _ name Hrun), lookup_empty. Qed.

(** X2: [get_class_vars] returns exactly when every declared class variable
    other than ["api_key"] is an attribute of the class ([api_key] itself is
    never read); otherwise it raises the [AttributeError] of a declared
    variable that is not. *)
Theorem get_class_vars_returns_iff cls :
  (returns (get_class_vars cls) <->
   Forall (fun n => n = "api_key" \/ is_Some (class_attributes cls !! n))
          (__class_vars__ cls)) /\
  (forall e, get_class_vars cls = Raise e ->
             exists n, e = AttributeError n /\ n ∈ __class_vars__ cls /\
                       n <> "api_key" /\ class_attributes cls !! n = None).
Proof. split; [apply loop_returns|apply loop_raises]. Qed.

(** X3: [__class_vars__] is a set, and the order in which the loop visits
    it does not matter to the mapping returned. *)
Theorem get_class_vars_order cls1 cls2 m :
  __class_vars__ cls1 ≡ₚ __class_vars__ cls2 ->
  class_attributes cls1 = class_attributes cls2 ->
  get_class_vars cls1 = Ok m ->
  get_class_vars cls2 = Ok m.
Proof.
  intros Hperm Hattrs Hrun.
  assert (Hreturns : returns (get_class_vars cls2)).
  { apply loop_returns. rewrite <- Hperm, <- Hattrs.
    apply (loop_returns cls1 _ ∅). by exists m. }
  destruct Hreturns as [m' Hrun']. rewrite Hrun'. f_equal.
  apply map_eq. intros name.
  rewrite (get_class_vars_lookup _ _ name Hrun), (get_class_vars_lookup _ _ name Hrun').
  rewrite Hattrs.
  destruct (decide (name ∈ __class_vars__ cls1 /\ _)) as [[Hin ?]|Hnot].
  - rewrite decide_True; [done|]. by rewrite <- Hperm.
  - rewrite decide_False; [done|]. rewrite <- Hperm. done.
Qed.

End facts.

Lemma get_class_vars_lookup_witness :
  get_class_vars (book_call "sk-one")
  = Ok (<["base_url" := "https://api"]> (<["call_params" := "gpt-4o"]> ∅)) /\
  (<["base_url" := "https://api"]> (<["call_params" := "gpt-4o"]> ∅) : gmap string string)
    !! "call_params" = Some "gpt-4o".
Proof.
  assert (Hrun : get_class_vars (book_call "sk-one")
                 = Ok (<["base_url" := "https://api"]> (<["call_params" := "gpt-4o"]> ∅)))
    by (vm_compute; reflexivity).
  split; [exact Hrun|].
  etrans; [exact (get_class_vars_lookup _ _ "call_params" Hrun)|].
  vm_compute. reflexivity.
Defined.

Lemma get_class_vars_returns_iff_witness :
  get_class_vars incomplete_call = Raise (AttributeError "base_url") /\
  exists n, AttributeError "base_url" = AttributeError n /\
            n ∈ __class_vars__ incomplete_call /\ n <> "api_key" /\
            class_attributes incomplete_call !! n = None.
Proof.
  assert (Hrun : get_class_vars incomplete_call = Raise (AttributeError "base_url"))
    by (vm_compute; reflexivity).
  split; [exact Hrun|].
  exact (proj2 (get_class_vars_returns_iff incomplete_call) _ Hrun).
Defined.

Lemma get_class_vars_order_witness :
  get_class_vars {| __class_vars__ := ["base_url"; "call_params"; "api_key"];
                    class_attributes := class_attributes (book_call "sk-one") |}
  = Ok (<["base_url" := "https://api"]> (<["call_params" := "gpt-4o"]> ∅)).
Proof.
  apply (get_class_vars_order (book_call "sk-one")).
  - exact (Permutation_rev ["api_key"; "call_params"; "base_url"]).
  - reflexivity.
  - vm_compute. reflexivity.
Defined.

End ClassVarsMore.

(** ** More about the cost table *)

Module CostMore.
Import Cost CostFacts.

Lemma int_mul_float_outcome (n : Z) (x : spec_float) :
  (exists f, int_mul_float n x = Ok f) \/
  (exists msg, int_mul_float n x = Raise (OverflowError msg)).
Proof.
  unfold int_mul_float, float_of_int.
  destruct (float_of_int_exact n); simpl; eauto.
Qed.

(** X4: the cost is "unknown" ([None]) exactly when there is no usage or the
    model is not priced; for a priced model with a usage the function
    returns a cost or raises [OverflowError] (a token count too large for a
    float), and it raises nothing else. *)
Theorem cost_unknown_iff (usage : option CompletionUsage) (model : string) :
  (openai_api_calculate_cost usage model = Ok None <->
   usage = None \/ ~ priced model) /\
  (forall e, openai_api_calculate_cost usage model = Raise e ->
             exists msg, e = OverflowError msg).
Proof.
  unfold openai_api_calculate_cost.
  destruct usage as [u|]; [|split; [split; auto|done]].
  destruct (decide (priced model)) as [Hpriced|Hnot].
  - destruct (dict_getitem_present pricing model Hpriced) as [[p c] ->].
    destruct (int_mul_float_outcome (prompt_tokens u) p) as [[f1 ->]|[msg1 ->]];
      simpl; [|split; [split; [done|intros [?|?]; done]|intros e [= <-]; eauto]].
    destruct (int_mul_float_outcome (completion_tokens u) c) as [[f2 ->]|[msg2 ->]];
      simpl.
    + split; [split; [done|intros [?|?]; done]|done].
    + split; [split; [done|intros [?|?]; done]|intros e [= <-]; eauto].
  - rewrite (dict_getitem_missing pricing model Hnot). split; [split; auto|done].
Qed.

(** A priced model with a usage: a cost, not [None]. *)
Lemma cost_unknown_iff_witness :
  openai_api_calculate_cost
    (Some {| prompt_tokens := 10; completion_tokens := 0; total_tokens := 10 |})
    "gpt-4" <> Ok None.
Proof.
  intros Hnone.
  destruct (proj1 (proj1 (cost_unknown_iff _ _)) Hnone) as [Husage|Hmodel].
  - discriminate Husage.
  - apply Hmodel. unfold priced. simpl. rewrite !elem_of_cons. auto 10.
Defined.

End CostMore.

(** ** More about [OpenAIStream] *)

Module StreamMore.
Import Stream.

Lemma tool_call_round_trip (tool_calls : list ChatCompletionMessageToolCall) :
  (fun p => {| tool_call_id := param_id p; tool_call_function := param_function p |})
    <$> ((fun tool_call =>
            {| param_id := tool_call_id tool_call;
               param_function :=
                 {| arguments := arguments (tool_call_function tool_call);
                    name := name (tool_call_function tool_call) |} |})
           <$> tool_calls)
  = tool_calls.
Proof.
  induction tool_calls as [|[i [a n]] tool_calls IH]; [done|].
  rewrite !fmap_cons, IH. reflexivity.
Qed.

Section facts.
Context {Metadata ToolTypes DynamicConfig Messages CallParams CallKwargs
         UserMessage Time V : Type}.
Implicit Types
  self : OpenAIStream Metadata ToolTypes DynamicConfig Messages CallParams CallKwargs
                      UserMessage Time V.

(** X5: the message parameter [_construct_message_param] builds from the
    tool calls and the content of a stream comes back from
    [construct_call_response] as the message of the response's only choice:
    the same content and the same tool calls in the same order (none when
    there were none). *)
Theorem construct_call_response_message self tool_calls content :
  message_param self = Some (_construct_message_param tool_calls content) ->
  exists r,
    construct_call_response self = Ok r /\
    message <$> choices (response r)
    = [ {| message_role := "assistant";
           message_content := content;
           message_tool_calls := default [] tool_calls |} ].
Proof.
  intros Hmp. unfold construct_call_response. rewrite Hmp.
  unfold _construct_message_param.
  destruct tool_calls as [[|tc tcs]|]; simpl; eexists; (split; [reflexivity|]);
    simpl; try done.
  do 3 f_equal. destruct tc as [i [a n]]. simpl. f_equal.
  apply tool_call_round_trip.
Qed.

(** X6: the response has a usage exactly when one of the two token counters
    of the stream is a non-zero number; a usage counts a missing counter as
    zero and its total is the sum of the two. *)
Theorem construct_call_response_usage self r :
  construct_call_response self = Ok r ->
  match usage (response r) with
  | None =>
      (input_tokens self = None \/ input_tokens self = Some 0%Z) /\
      (output_tokens self = None \/ output_tokens self = Some 0%Z)
  | Some u =>
      (int_truthy (input_tokens self) = true \/ int_truthy (output_tokens self) = true) /\
      prompt_tokens u = default 0%Z (input_tokens self) /\
      completion_tokens u = default 0%Z (output_tokens self) /\
      total_tokens u = (prompt_tokens u + completion_tokens u)%Z
  end.
Proof.
  unfold construct_call_response.
  destruct (message_param self) as [mp|]; [|done].
  destruct (model_validate_message _ _ _) as [msg|e]; simpl; [|done].
  intros [= <-]. simpl. unfold int_or_zero, int_truthy.
  destruct (input_tokens self) as [i|], (output_tokens self) as [o|]; simpl;
    try destruct (Z.eqb_spec i 0); try destruct (Z.eqb_spec o 0); subst; simpl; auto 10.
Qed.

End facts.

Lemma construct_call_response_message_witness :
  exists r,
    construct_call_response consumed_stream = Ok r /\
    message <$> choices (response r)
    = [ {| message_role := "assistant";
           message_content := Some "The Name of the Wind";
           message_tool_calls := [] |} ].
Proof.
  exact (construct_call_response_message consumed_stream None
           (Some "The Name of the Wind") eq_refl).
Defined.

Lemma construct_call_response_usage_witness :
  exists r u,
    construct_call_response consumed_stream = Ok r /\
    usage (response r) = Some u /\
    prompt_tokens u = 12%Z /\ completion_tokens u = 7%Z /\
    total_tokens u = (prompt_tokens u + completion_tokens u)%Z.
Proof.
  destruct (construct_call_response consumed_stream) as [r|e] eqn:Hrun;
    [|by vm_compute in Hrun].
  pose proof (construct_call_response_usage consumed_stream r Hrun) as Husage.
  destruct (usage (response r)) as [u|] eqn:Hu.
  - exists r, u. destruct Husage as (_ & Hp & Hc & Ht). by repeat split.
  - destruct Husage as [[H|H] _]; discriminate H.
Defined.

End StreamMore.

(** ** More about [setup_call] and [setup_extract] *)

Module SetupMore.
Import Setup SetupExamples SetupFacts.

Lemma mapM_result_Forall2 {A A'} (f : A -> result A') (l : list A) (k : list A') :
  mapM f l = Ok k -> Forall2 (fun x y => f x = Ok y) l k.
Proof.
  revert k. induction l as [|x l IH]; simpl; intros k.
  - intros [= <-]. constructor.
  - destruct (f x) as [y|e] eqn:Hx; simpl; [|done].
    destruct (mapM f l) as [k'|e]; simpl; [|done].
    intros [= <-]. constructor; [done|]. by apply IH.
Qed.

Lemma merged_call_params_lookup {Tool} (call_params : gmap string pyval)
    (fn_return : option (OpenAICallFunctionReturn Tool)) (key : string) :
  merged_call_params call_params fn_return !! key
  = match default ∅ (fn_return ≫= fr_call_params) !! key with
    | Some v => Some v
    | None => call_params !! key
    end.
Proof.
  destruct fn_return as [fr|]; simpl; [|by rewrite lookup_empty].
  destruct (dict_truthy (fr_call_params fr)) eqn:Htruthy; [apply ior_lookup|].
  rewrite <- (dict_truthy_false_merge call_params _ Htruthy) at 1. apply ior_lookup.
Qed.

Section facts.
Context {Tool ToolType : Type}.
Context (parse_prompt_messages :
           list string -> string -> gmap string pyval -> result (list pyval))
        (isclass : Tool -> bool)
        (convert_base_model_to_base_tool : Tool -> result ToolType)
        (convert_function_to_base_tool : Tool -> result ToolType)
        (tool_schema : ToolType -> pyval)
        (model_json_schema : ToolType -> pyval)
        (json_dumps : pyval -> string)
        (dedent : string -> string).

#[local] Abbreviation setup_call' :=
  (setup_call parse_prompt_messages isclass convert_base_model_to_base_tool
              convert_function_to_base_tool tool_schema).
#[local] Abbreviation convert_tools' :=
  (convert_tools isclass convert_base_model_to_base_tool
                 convert_function_to_base_tool tool_schema).
#[local] Abbreviation setup_extract' :=
  (setup_extract parse_prompt_messages isclass convert_base_model_to_base_tool
                 convert_function_to_base_tool tool_schema model_json_schema
                 json_dumps dedent).

Implicit Types (fn : Callable) (fn_args call_params : gmap string pyval)
               (fr : OpenAICallFunctionReturn Tool) (tools : option (list Tool))
               (fn_return : option (OpenAICallFunctionReturn Tool)).

Lemma read_fn_return_eq fn_return tools call_params :
  read_fn_return fn_return tools call_params
  = (fn_return ≫= computed_fields, tools_in_effect fn_return tools,
     fn_return ≫= fr_messages, merged_call_params call_params fn_return).
Proof. by destruct fn_return. Qed.

(** A returning [setup_call] has converted the tools in effect. *)
Lemma setup_call_converts fn fn_args fn_return tools call_params
    fn_args' prompt_template messages tool_types call_kwargs :
  setup_call' fn fn_args fn_return tools call_params
  = (fn_args', Ok (prompt_template, messages, tool_types, call_kwargs)) ->
  convert_tools' (tools_in_effect fn_return tools)
                 (merged_call_params call_params fn_return)
  = Ok (tool_types, call_kwargs).
Proof.
  unfold setup_call. rewrite read_fn_return_eq. intros Hrun.
  destruct (negb (list_truthy (fn_return ≫= fr_messages)));
    [destruct (getdoc fn) as [doc|]|]; injection Hrun as _ Hrun.
  - destruct (parse_prompt_messages _ _ _) as [parsed|e]; simpl in Hrun; [|done].
    destruct (convert_tools' _ _) as [[tts kw]|e]; simpl in Hrun; [|done].
    by injection Hrun as _ _ <- <-.
  - done.
  - simpl in Hrun.
    destruct (convert_tools' _ _) as [[tts kw]|e]; simpl in Hrun; [|done].
    by injection Hrun as _ _ <- <-.
Qed.

(** X7: in the call keyword arguments [setup_call] returns, every key other
    than ["tools"] holds the dynamic call parameter of that name when the
    dynamic return has one, and the static call parameter otherwise. *)
Theorem setup_call_dynamic_params_win fn fn_args fn_return tools call_params
    fn_args' prompt_template messages tool_types call_kwargs key :
  setup_call parse_prompt_messages isclass convert_base_model_to_base_tool
      convert_function_to_base_tool tool_schema fn fn_args fn_return tools call_params
  = (fn_args', Ok (prompt_template, messages, tool_types, call_kwargs)) ->
  key <> "tools" ->
  call_kwargs !! key
  = match default ∅ (fn_return ≫= fr_call_params) !! key with
    | Some v => Some v
    | None => call_params !! key
    end.
Proof.
  intros Hrun Hkey.
  rewrite (setup_call_kwargs _ _ _ _ _ _ _ _ _ _ _ _ _ _ _ key Hrun Hkey).
  apply merged_call_params_lookup.
Qed.

(** X8: a ["tools"] entry in the dynamic return replaces the static tool
    list for the call: the outcome is the one for the dynamic list, whatever
    the static list is. *)
Theorem setup_call_dynamic_tools_replace fn fn_args fr tools tools' call_params dynamic :
  fr_tools fr = Some dynamic ->
  setup_call parse_prompt_messages isclass convert_base_model_to_base_tool
      convert_function_to_base_tool tool_schema fn fn_args (Some fr) tools call_params
  = setup_call parse_prompt_messages isclass convert_base_model_to_base_tool
      convert_function_to_base_tool tool_schema fn fn_args (Some fr) tools' call_params /\
  setup_call parse_prompt_messages isclass convert_base_model_to_base_tool
      convert_function_to_base_tool tool_schema fn fn_args (Some fr) tools call_params
  = setup_call parse_prompt_messages isclass convert_base_model_to_base_tool
      convert_function_to_base_tool tool_schema fn fn_args
                (Some {| computed_fields := computed_fields fr; fr_tools := None;
                         fr_messages := fr_messages fr;
                         fr_call_params := fr_call_params fr |})
                dynamic call_params.
Proof.
  intros Hdynamic. unfold setup_call. rewrite !read_fn_return_eq. simpl.
  by rewrite Hdynamic.
Qed.

(** X9: without supplied messages a function without a docstring is an
    [AssertionError]: nothing is merged into the function arguments, and
    neither the parser nor the tool conversion gets to run. *)
Theorem setup_call_requires_docstring fn fn_args fn_return tools call_params :
  getdoc fn = None ->
  list_truthy (fn_return ≫= fr_messages) = false ->
  setup_call parse_prompt_messages isclass convert_base_model_to_base_tool
      convert_function_to_base_tool tool_schema fn fn_args fn_return tools call_params
  = (fn_args, Raise (AssertionError "The function must have a docstring.")).
Proof.
  intros Hdoc Hmessages. unfold setup_call.
  by rewrite read_fn_return_eq, Hmessages, Hdoc.
Qed.

(** X10: when [setup_call] returns, the tool types are the conversions of
    the tools in effect, one for each and in their order (through
    [convert_base_model_to_base_tool] for a class and through
    [convert_function_to_base_tool] otherwise), and the ["tools"] call
    argument is the list of their schemas; without tools there are no tool
    types and the call arguments are the merged call parameters. *)
Theorem setup_call_tool_types fn fn_args fn_return tools call_params
    fn_args' prompt_template messages tool_types call_kwargs :
  setup_call parse_prompt_messages isclass convert_base_model_to_base_tool
      convert_function_to_base_tool tool_schema fn fn_args fn_return tools call_params
  = (fn_args', Ok (prompt_template, messages, tool_types, call_kwargs)) ->
  match tools_in_effect fn_return tools with
  | Some (tool :: rest) =>
      exists types,
        tool_types = Some types /\
        Forall2 (fun tool type =>
                   (if isclass tool then convert_base_model_to_base_tool tool
                    else convert_function_to_base_tool tool) = Ok type)
                (tool :: rest) types /\
        call_kwargs
        = <["tools" := VList (tool_schema <$> types)]>
            (merged_call_params call_params fn_return)
  | _ =>
      tool_types = None /\
      call_kwargs = merged_call_params call_params fn_return
  end.
Proof.
  intros Hrun. apply setup_call_converts in Hrun.
  unfold convert_tools in Hrun.
  destruct (tools_in_effect fn_return tools) as [[|tool rest]|];
    simpl list_truthy in Hrun; cbv iota in Hrun;
    [by injection Hrun as <- <-| |by injection Hrun as <- <-].
  destruct (mapM _ _) as [types|e] eqn:Hconv in Hrun; simpl in Hrun; [|done].
  injection Hrun as <- <-. exists types. split; [done|]. split; [|done].
  by apply mapM_result_Forall2 in Hconv.
Qed.

(** X11: [setup_extract] unpacks the tool types of [setup_call] into one
    name.  When the dynamic return has a ["tools"] entry that is not a list
    of exactly one tool, [setup_extract] does not return: it raises
    whatever [setup_call] raises, and otherwise a [TypeError] (no tools) or a
    [ValueError] (several tools) from the unpacking. *)
Theorem setup_extract_needs_one_tool fn fn_args fr tool call_params dynamic :
  fr_tools fr = Some dynamic ->
  length (default [] dynamic) <> 1%nat ->
  let run := setup_call parse_prompt_messages isclass convert_base_model_to_base_tool
      convert_function_to_base_tool tool_schema
      fn fn_args (Some fr) (Some [tool]) call_params in
  let extract := setup_extract parse_prompt_messages isclass convert_base_model_to_base_tool
      convert_function_to_base_tool tool_schema model_json_schema json_dumps dedent
      fn fn_args (Some fr) tool call_params in
  extract.1 = run.1 /\
  match run.2 with
  | Raise e => extract.2 = Raise e
  | Ok _ =>
      match dynamic with
      | None | Some [] =>
          extract.2 = Raise (TypeError "cannot unpack non-iterable NoneType object")
      | Some _ =>
          extract.2 = Raise (ValueError "too many values to unpack (expected 1)")
      end
  end.
Proof.
  intros Hdynamic Hlength run extract. subst run extract. unfold setup_extract.
  destruct (setup_call' _ _ _ _ _) as [fn_args' [[[[pt msgs] tts] kw]|e]] eqn:Hrun;
    simpl; [|done].
  split; [done|].
  pose proof (setup_call_tool_types _ _ _ _ _ _ _ _ _ _ Hrun) as Htools.
  simpl in Htools. rewrite Hdynamic in Htools. simpl in Htools.
  destruct dynamic as [[|tool1 [|tool2 rest]]|]; simpl in *.
  - by destruct Htools as [-> _].
  - done.
  - destruct Htools as (types & -> & Hall & _).
    apply Forall2_length in Hall. destruct types as [|t1 [|t2 types]]; done.
  - by destruct Htools as [-> _].
Qed.

(** X12: [setup_extract] leaves every call argument other than ["tools"]
    and ["tool_choice"] as the merged call parameters have it.  In JSON mode
    a ["tool_choice"] of the call parameters stays too; otherwise it is
    replaced by ["required"]. *)
Theorem setup_extract_other_arguments fn fn_args fn_return tool call_params
    fn_args' json_mode messages call_kwargs :
  setup_extract parse_prompt_messages isclass convert_base_model_to_base_tool
      convert_function_to_base_tool tool_schema model_json_schema json_dumps dedent
      fn fn_args fn_return tool call_params
  = (fn_args', Ok (json_mode, messages, call_kwargs)) ->
  (forall key, key <> "tools" -> key <> "tool_choice" ->
               call_kwargs !! key = merged_call_params call_params fn_return !! key) /\
  call_kwargs !! "tool_choice"
  = (if json_mode then merged_call_params call_params fn_return !! "tool_choice"
     else Some (VStr "required")) /\
  is_Some (call_kwargs !! "tools").
Proof.
  unfold setup_extract.
  destruct (setup_call' _ _ _ _ _) as [fa [[[[pt msgs] tts] kw]|e]] eqn:Hrun;
    simpl; [|done].
  destruct (unpack_single tts) as [tool_type|e]; simpl; [|by intros [= _ ?]].
  destruct (json_mode_requested _) as [[]|e]; simpl; [| |by intros [= _ ?]];
    intros [= _ <- <- <-].
  - split; [|split].
    + intros key Htools _. rewrite lookup_insert_ne by done.
      by eapply setup_call_kwargs.
    + rewrite lookup_insert_ne by done. by eapply setup_call_kwargs.
    + rewrite lookup_insert_eq. by eexists.
  - split; [|split].
    + intros key Htools Hchoice. rewrite !lookup_insert_ne by done.
      by eapply setup_call_kwargs.
    + by rewrite lookup_insert_eq.
    + rewrite lookup_insert_ne by done. rewrite lookup_insert_eq. by eexists.
Qed.

End facts.

Lemma setup_call_dynamic_params_win_witness :
  (example_setup_call recommend_book fantasy_args (Some cooler) None warm_params).2
  = Ok (Some "Recommend a {genre} book", [user_message "Recommend a fantasy book"],
        None, {[ "temperature" := VInt 0; "seed" := VInt 7 ]}) /\
  ({[ "temperature" := VInt 0; "seed" := VInt 7 ]} : gmap string pyval) !! "temperature"
  = Some (VInt 0) /\
  ({[ "temperature" := VInt 0; "seed" := VInt 7 ]} : gmap string pyval) !! "seed"
  = Some (VInt 7).
Proof.
  assert (Hrun : example_setup_call recommend_book fantasy_args (Some cooler) None
                                    warm_params
                 = (fantasy_args,
                    Ok (Some "Recommend a {genre} book",
                        [user_message "Recommend a fantasy book"],
                        None, {[ "temperature" := VInt 0; "seed" := VInt 7 ]})))
    by (vm_compute; reflexivity).
  split; [by rewrite Hrun|].
  assert (Htemperature : "temperature" <> "tools") by discriminate.
  assert (Hseed : "seed" <> "tools") by discriminate.
  split.
  - etrans; [exact (setup_call_dynamic_params_win _ _ _ _ _ _ _ _ _ _ _ _ _ _ _
                      "temperature" Hrun Htemperature)|].
    vm_compute. reflexivity.
  - etrans; [exact (setup_call_dynamic_params_win _ _ _ _ _ _ _ _ _ _ _ _ _ _ _
                      "seed" Hrun Hseed)|].
    vm_compute. reflexivity.
Defined.

Lemma setup_call_dynamic_tools_replace_witness :
  example_setup_call recommend_book fantasy_args (Some two_tools) (Some ["Book"]) ∅
  = example_setup_call recommend_book fantasy_args (Some two_tools) None ∅.
Proof.
  exact (proj1 (setup_call_dynamic_tools_replace
                  example_parser (fun _ => true) Ok Ok example_tool_schema
                  recommend_book fantasy_args two_tools (Some ["Book"]) None ∅
                  (Some ["Book"; "Author"]) eq_refl)).
Defined.

Lemma setup_call_requires_docstring_witness :
  example_setup_call undocumented fantasy_args (Some computed_genre) (Some ["Book"]) ∅
  = (fantasy_args, Raise (AssertionError "The function must have a docstring.")).
Proof.
  exact (setup_call_requires_docstring
           example_parser (fun _ => true) Ok Ok example_tool_schema
           undocumented fantasy_args (Some computed_genre) (Some ["Book"]) ∅
           eq_refl eq_refl).
Defined.

Lemma setup_call_tool_types_witness :
  exists types,
    Some ["Book"; "Author"] = Some types /\
    Forall2 (fun tool type => (if true then Ok tool else Ok tool) = Ok type)
            ["Book"; "Author"] types /\
    ({[ "tools" := VList [example_tool_schema "Book"; example_tool_schema "Author"] ]}
       : gmap string pyval)
    = <["tools" := VList (example_tool_schema <$> types)]> ∅.
Proof.
  assert (Hrun : example_setup_call recommend_book fantasy_args (Some two_tools) None ∅
                 = (fantasy_args,
                    Ok (Some "Recommend a {genre} book",
                        [user_message "Recommend a fantasy book"],
                        Some ["Book"; "Author"],
                        {[ "tools" := VList [example_tool_schema "Book";
                                             example_tool_schema "Author"] ]})))
    by (vm_compute; reflexivity).
  exact (setup_call_tool_types _ _ _ _ _ _ _ _ _ _ _ _ _ _ _ Hrun).
Defined.

Lemma setup_extract_needs_one_tool_witness :
  (example_setup_extract recommend_book fantasy_args (Some two_tools) "Book" ∅).2
  = Raise (ValueError "too many values to unpack (expected 1)") /\
  (example_setup_extract recommend_book fantasy_args (Some no_tools) "Book" ∅).2
  = Raise (TypeError "cannot unpack non-iterable NoneType object").
Proof.
  split.
  - destruct (setup_extract_needs_one_tool
                example_parser (fun _ => true) Ok Ok example_tool_schema
                example_json_schema example_json_dumps (fun text => text)
                recommend_book fantasy_args two_tools "Book" ∅
                (Some ["Book"; "Author"]) eq_refl ltac:(discriminate)) as [_ Hrun].
    exact Hrun.
  - destruct (setup_extract_needs_one_tool
                example_parser (fun _ => true) Ok Ok example_tool_schema
                example_json_schema example_json_dumps (fun text => text)
                recommend_book fantasy_args no_tools "Book" ∅
                None eq_refl ltac:(discriminate)) as [_ Hrun].
    exact Hrun.
Defined.

Lemma setup_extract_other_arguments_witness :
  (example_setup_extract recommend_book fantasy_args None "Book" auto_choice).2
  = Ok (false, [user_message "Recommend a fantasy book"],
        {[ "tools" := VList [example_tool_schema "Book"];
           "tool_choice" := VStr "required"; "seed" := VInt 7 ]}) /\
  ({[ "tools" := VList [example_tool_schema "Book"];
      "tool_choice" := VStr "required"; "seed" := VInt 7 ]} : gmap string pyval)
    !! "tool_choice" = Some (VStr "required").
Proof.
  assert (Hrun : example_setup_extract recommend_book fantasy_args None "Book" auto_choice
                 = (fantasy_args,
                    Ok (false, [user_message "Recommend a fantasy book"],
                        {[ "tools" := VList [example_tool_schema "Book"];
                           "tool_choice" := VStr "required"; "seed" := VInt 7 ]})))
    by (vm_compute; reflexivity).
  split; [by rewrite Hrun|].
  exact (proj1 (proj2 (setup_extract_other_arguments
                         example_parser (fun _ => true) Ok Ok example_tool_schema
                         example_json_schema example_json_dumps (fun text => text)
                         _ _ _ _ _ _ _ _ _ Hrun))).
Defined.

End SetupMore.

(** ** More about [mirascope_span] *)

Module SpanMore.
Import Span SpanExamples SpanFacts.

Section facts.
Context {Self Args K V B CM X : Type}.
Context (none : V) (enter : CM -> option B) (suppresses : CM -> exn -> bool).

#[local] Abbreviation method' := (method Self Args K V B CM X).
#[local] Abbreviation item' := (item Self K V B CM X).
#[local] Abbreviation span :=
  (mirascope_span (Self := Self) (Args := Args) (X := X) none enter suppresses).
#[local] Abbreviation raised := (outcome_after_raise none suppresses).

Implicit Types (fn : method') (self : Self) (args : Args)
               (kwargs custom_kwargs kw : gmap string K)
               (items : list item')
               (handle_before_call : option (@before_hook Self K B CM))
               (handle_after_call : option (@after_hook Self K V B)).

(** *** Functions and coroutine functions *)

(** A call through the span of a function, once the before hook has
    returned: the method, then the after hook on its result, inside the
    context manager of the before hook. *)
Lemma wrapper_run handle_before_call handle_after_call custom_kwargs
    (f : @function Self Args K V B CM X) self args kwargs bv :
  let before := call_before (V := V) (X := X)
                            handle_before_call self kwargs custom_kwargs in
  outcome before = Ok bv ->
  let body :=
    comp_bind (fun result =>
                 comp_bind (fun _ => comp_ret result)
                           (call_after handle_after_call self (Value result)
                                       (handed_over enter bv) kwargs custom_kwargs))
              (f self args kwargs) in
  wrapper none enter suppresses handle_before_call handle_after_call custom_kwargs
          f self args kwargs
  = Comp (trace before ++ enter_events bv ++ trace body
            ++ match outcome body with
               | Ok _ => exit_events (manager bv) (Ok tt)
               | Raise e => exit_events (manager bv) (Raise e)
               end)
         (match outcome body with
          | Ok v => Ok v
          | Raise e => raised (manager bv) e
          end).
Proof.
  intros before Hbefore body. subst body. unfold wrapper.
  unfold mbind, mret, comp_mbind, comp_mret. fold before.
  unfold comp_bind at 1. rewrite Hbefore.
  destruct bv as [b|cm]; simpl.
  - set (body := comp_bind _ (f self args kwargs)).
    destruct (outcome body) as [v|e] eqn:Hbody; simpl; by rewrite app_nil_r.
  - unfold with_block. set (body := comp_bind _ (f self args kwargs)).
    destruct (outcome body) as [v|e] eqn:Hbody; simpl; [done|].
    destruct (suppresses cm e); simpl; by rewrite ?app_nil_r.
Qed.

Lemma span_call_run handle_before_call handle_after_call custom_kwargs
    fn self args kwargs (c : comp Self K V B CM X V) bv :
  call fn self args kwargs = Some c ->
  let before := call_before (V := V) (X := X)
                            handle_before_call self kwargs custom_kwargs in
  outcome before = Ok bv ->
  let body :=
    comp_bind (fun result =>
                 comp_bind (fun _ => comp_ret result)
                           (call_after handle_after_call self (Value result)
                                       (handed_over enter bv) kwargs custom_kwargs))
              c in
  call (span handle_before_call handle_after_call custom_kwargs fn) self args kwargs
  = Some (Comp (trace before ++ enter_events bv ++ trace body
                  ++ match outcome body with
                     | Ok _ => exit_events (manager bv) (Ok tt)
                     | Raise e => exit_events (manager bv) (Raise e)
                     end)
               (match outcome body with
                | Ok v => Ok v
                | Raise e => raised (manager bv) e
                end)).
Proof.
  intros Hcall before Hbefore body.
  destruct fn as [f|f|g|g]; simpl in Hcall; try done; injection Hcall as <-;
    simpl; f_equal;
    exact (wrapper_run handle_before_call handle_after_call custom_kwargs
                       f self args kwargs bv Hbefore).
Qed.

(** X13: when the before hook, the method and the after hook all return,
    the span of a function or coroutine function returns what the method
    returned.  On the way the after hook has been given that value and what
    the before hook handed over, after the method and before the context
    manager is left. *)
Theorem span_call_returns handle_before_call handle_after_call custom_kwargs
    fn self args kwargs t v bv :
  call fn self args kwargs = Some (Comp t (Ok v)) ->
  let before := call_before (V := V) (X := X)
                            handle_before_call self kwargs custom_kwargs in
  outcome before = Ok bv ->
  let after := call_after (X := X) (CM := CM) handle_after_call self (Value v)
                          (handed_over enter bv) kwargs custom_kwargs in
  outcome after = Ok tt ->
  call (span handle_before_call handle_after_call custom_kwargs fn) self args kwargs
  = Some (Comp (trace before ++ enter_events bv ++ t ++ trace after
                  ++ exit_events (manager bv) (Ok tt))
               (Ok v)).
Proof.
  intros Hcall before Hbefore after Hafter.
  rewrite (span_call_run _ _ _ _ _ _ _ _ bv Hcall Hbefore).
  unfold comp_bind at 2 4 6. simpl. fold after.
  unfold comp_bind. rewrite Hafter. simpl.
  by rewrite app_nil_r, <- !(assoc_L (++)).
Qed.

(** X14: when the method raises, the after hook is not called; a context
    manager returned by the before hook is left with the exception, and the
    exception reaches the caller unless the context manager swallows it. *)
Theorem span_call_method_raises handle_before_call handle_after_call custom_kwargs
    fn self args kwargs t e bv :
  call fn self args kwargs = Some (Comp t (Raise e)) ->
  let before := call_before (V := V) (X := X)
                            handle_before_call self kwargs custom_kwargs in
  outcome before = Ok bv ->
  call (span handle_before_call handle_after_call custom_kwargs fn) self args kwargs
  = Some (Comp (trace before ++ enter_events bv ++ t
                  ++ exit_events (manager bv) (Raise e))
               (raised (manager bv) e)).
Proof.
  intros Hcall before Hbefore.
  by rewrite (span_call_run _ _ _ _ _ _ _ _ bv Hcall Hbefore).
Qed.

(** X15: when the before hook raises, the method is not called at all: the
    exception is the outcome of the call of a function, and of the first
    resumption of a generator. *)
Theorem span_before_hook_raises handle_before_call handle_after_call custom_kwargs
    fn self args kwargs e :
  let before := call_before (V := V) (X := X)
                            handle_before_call self kwargs custom_kwargs in
  outcome before = Raise e ->
  let wrapped := span handle_before_call handle_after_call custom_kwargs fn in
  match fn with
  | Function _ | Coroutine _ =>
      call wrapped self args kwargs = Some (Comp (trace before) (Raise e))
  | Generator _ | AsyncGenerator _ =>
      forall n, call_and_iterate wrapped self args kwargs (S n)
                = Some (Happened <$> trace before, Failed e)
  end.
Proof.
  intros before Hbefore wrapped. subst wrapped.
  destruct fn as [f|f|g|g]; simpl.
  - unfold wrapper, mbind, comp_mbind, comp_bind. fold before. by rewrite Hbefore.
  - unfold wrapper_async, mbind, comp_mbind, comp_bind. fold before. by rewrite Hbefore.
  - intros n. fold before. by rewrite Hbefore.
  - intros n. fold before. by rewrite Hbefore.
Qed.

(** X16: when the after hook raises, the value the method returned is lost:
    the caller gets the exception of the hook (or [None], when a context
    manager swallows it). *)
Theorem span_after_hook_raises handle_before_call handle_after_call custom_kwargs
    fn self args kwargs t v bv e :
  call fn self args kwargs = Some (Comp t (Ok v)) ->
  let before := call_before (V := V) (X := X)
                            handle_before_call self kwargs custom_kwargs in
  outcome before = Ok bv ->
  let after := call_after (X := X) (CM := CM) handle_after_call self (Value v)
                          (handed_over enter bv) kwargs custom_kwargs in
  outcome after = Raise e ->
  call (span handle_before_call handle_after_call custom_kwargs fn) self args kwargs
  = Some (Comp (trace before ++ enter_events bv ++ t ++ trace after
                  ++ exit_events (manager bv) (Raise e))
               (raised (manager bv) e)).
Proof.
  intros Hcall before Hbefore after Hafter.
  rewrite (span_call_run _ _ _ _ _ _ _ _ bv Hcall Hbefore).
  unfold comp_bind at 2 4 6. simpl. fold after.
  unfold comp_bind. rewrite Hafter. simpl.
  by rewrite <- !(assoc_L (++)).
Qed.

(** X17: a keyword argument of the call that is also a custom keyword
    argument of the span is a [TypeError] in the call of a hook, and the
    hook does not run.  With an after hook and no before hook the method has
    run by then: the caller gets the [TypeError] instead of the value. *)
Theorem span_keyword_collision
    (before_hook : @before_hook Self K B CM) (after_hook : @after_hook Self K V B)
    custom_kwargs fn self args kwargs t v key :
  is_Some (kwargs !! key) ->
  is_Some (custom_kwargs !! key) ->
  call fn self args kwargs = Some (Comp t (Ok v)) ->
  let collision := TypeError "got multiple values for keyword argument" in
  call (span (Some before_hook) (Some after_hook) custom_kwargs fn) self args kwargs
  = Some (Comp [] (Raise collision)) /\
  call (span None (Some after_hook) custom_kwargs fn) self args kwargs
  = Some (Comp t (Raise collision)).
Proof.
  intros Hkwargs Hcustom Hcall collision.
  assert (Hmerge : merge_kwargs kwargs custom_kwargs = Raise collision).
  { unfold merge_kwargs. case_decide as Hdisjoint; [exfalso|reflexivity].
    apply elem_of_dom in Hkwargs, Hcustom.
    apply (not_elem_of_empty (C := gset string) key). rewrite <- Hdisjoint.
    by apply elem_of_intersection. }
  split.
  - assert (Hbefore : outcome (call_before (V := V) (X := X) (Some before_hook)
                                           self kwargs custom_kwargs)
                      = Raise collision).
    { simpl. unfold comp_bind, lift. simpl. by rewrite Hmerge. }
    pose proof (span_before_hook_raises (Some before_hook) (Some after_hook)
                  custom_kwargs fn self args kwargs collision Hbefore) as Hrun.
    destruct fn as [f|f|g|g]; try done; rewrite Hrun;
      simpl; unfold comp_bind, lift; simpl; by rewrite Hmerge.
  - rewrite (span_after_hook_raises None (Some after_hook) custom_kwargs
               fn self args kwargs t v (Plain None) collision Hcall eq_refl).
    + simpl. unfold comp_bind, lift. simpl. rewrite Hmerge. simpl.
      by rewrite !app_nil_r.
    + simpl. unfold comp_bind, lift. simpl. by rewrite Hmerge.
Qed.

(** *** Generator functions *)

Section iteration.
Context (handle_before_call : option (@before_hook Self K B CM))
        (handle_after_call : option (@after_hook Self K V B))
        (custom_kwargs : gmap string K)
        (g : generator_function Self Args K V B CM X).

#[local] Abbreviation next' :=
  (wrapper_next enter suppresses handle_before_call handle_after_call custom_kwargs g).

(** From inside the loop, when the wrapped generator raises. *)
Lemma iterate_suspended_failed n :
  forall (result : gen_state g) output before cm self kwargs items e,
    iterate (gen_next g) n result = (items, Failed e) ->
    iterate next' n (Suspended result output before cm self kwargs)
    = (items ++ (Happened <$> exit_events cm (Raise e)),
       ending suppresses cm (Raise e)).
Proof.
  induction n as [|n IH]; intros result output before cm self kwargs items e; simpl;
    [done|].
  unfold resume.
  destruct (gen_next g result) as [events [v result'| |e']] eqn:Hnext.
  - destruct (iterate (gen_next g) n result') as [items' c] eqn:Hrest.
    intros [= <- ->].
    rewrite (IH result' (output ++ [v]) before cm self kwargs items' e Hrest).
    by rewrite <- !(assoc_L (++)).
  - done.
  - intros [= <- <-]. rewrite leave_ending, fmap_app.
    destruct cm as [cm|]; simpl; [by destruct (suppresses cm e')|done].
Qed.

(** From inside the loop and without an after hook or a context manager,
    the wrapping generator is the wrapped one. *)
Lemma iterate_suspended_plain n :
  handle_after_call = None ->
  forall (result : gen_state g) output before self kwargs,
    iterate next' n (Suspended result output before None self kwargs)
    = iterate (gen_next g) n result.
Proof.
  intros ->. induction n as [|n IH]; intros result output before self kwargs; simpl;
    [done|].
  unfold resume.
  destruct (gen_next g result) as [events [v result'| |e]] eqn:Hnext; simpl.
  - by rewrite IH.
  - by rewrite app_nil_r.
  - done.
Qed.

End iteration.

(** X18: when a wrapped generator raises after yielding some values, the
    caller of its span has received exactly these values, the after hook is
    not called, a context manager returned by the before hook is left with
    the exception, and the exception reaches the caller unless the context
    manager swallows it (then the iteration just ends). *)
Theorem span_generator_raises handle_before_call handle_after_call custom_kwargs
    fn self args kwargs n items e bv :
  call_and_iterate fn self args kwargs n = Some (items, Failed e) ->
  let before := call_before (V := V) (X := X)
                            handle_before_call self kwargs custom_kwargs in
  outcome before = Ok bv ->
  call_and_iterate (span handle_before_call handle_after_call custom_kwargs fn)
                   self args kwargs n
  = Some ((Happened <$> (trace before ++ enter_events bv))
            ++ items
            ++ (Happened <$> exit_events (manager bv) (Raise e)),
          ending suppresses (manager bv) (Raise e)).
Proof.
  intros Hitems before Hbefore.
  assert (Hrun : forall g : generator_function Self Args K V B CM X,
             iterate (gen_next g) n (gen_start g self args kwargs) = (items, Failed e) ->
             iterate (wrapper_next enter suppresses handle_before_call
                                   handle_after_call custom_kwargs g)
                     n (Created self args kwargs)
             = ((Happened <$> (trace before ++ enter_events bv))
                  ++ items ++ (Happened <$> exit_events (manager bv) (Raise e)),
                ending suppresses (manager bv) (Raise e))).
  { intros g Hg. destruct n as [|n]; [by injection Hg|].
    rewrite (iterate_first_resumption enter suppresses handle_before_call
               handle_after_call custom_kwargs g n self args kwargs bv Hbefore).
    by rewrite (iterate_suspended_failed handle_before_call handle_after_call
                  custom_kwargs g (S n) _ [] (handed_over enter bv) (manager bv)
                  self kwargs items e Hg). }
  destruct fn as [f|f|g|g]; simpl in Hitems; try done;
    injection Hitems as Hitems; simpl; f_equal; by apply Hrun.
Qed.

(** X19: a span does not run ahead of its caller.  While the wrapped
    generator has more to give, the caller of the span has received, after
    as many resumptions, the same values, preceded only by the call of the
    before hook and the entering of its context manager; the after hook has
    not been called. *)
Theorem span_generator_is_lazy handle_before_call handle_after_call custom_kwargs
    fn self args kwargs n items bv :
  call_and_iterate fn self args kwargs (S n) = Some (items, Abandoned) ->
  let before := call_before (V := V) (X := X)
                            handle_before_call self kwargs custom_kwargs in
  outcome before = Ok bv ->
  call_and_iterate (span handle_before_call handle_after_call custom_kwargs fn)
                   self args kwargs (S n)
  = Some ((Happened <$> (trace before ++ enter_events bv)) ++ items, Abandoned).
Proof.
  intros Hitems before Hbefore.
  assert (Hrun : forall g : generator_function Self Args K V B CM X,
             iterate (gen_next g) (S n) (gen_start g self args kwargs)
             = (items, Abandoned) ->
             iterate (wrapper_next enter suppresses handle_before_call
                                   handle_after_call custom_kwargs g)
                     (S n) (Created self args kwargs)
             = ((Happened <$> (trace before ++ enter_events bv)) ++ items, Abandoned)).
  { intros g Hg.
    rewrite (iterate_first_resumption enter suppresses handle_before_call
               handle_after_call custom_kwargs g n self args kwargs bv Hbefore).
    by rewrite (iterate_suspended_abandoned enter suppresses handle_before_call
                  handle_after_call custom_kwargs g (S n) _ [] (handed_over enter bv)
                  (manager bv) self kwargs items Hg). }
  destruct fn as [f|f|g|g]; simpl in Hitems; try done;
    injection Hitems as Hitems; simpl; f_equal; by apply Hrun.
Qed.

(** Without hooks, iterating over the wrapping generator is iterating over
    the wrapped one. *)
Lemma iterate_span_without_hooks custom_kwargs
    (g : generator_function Self Args K V B CM X) self args kwargs n :
  iterate (wrapper_next enter suppresses None None custom_kwargs g)
          n (Created self args kwargs)
  = iterate (gen_next g) n (gen_start g self args kwargs).
Proof.
  destruct n as [|n]; [done|].
  rewrite (iterate_first_resumption enter suppresses None None custom_kwargs g n
             self args kwargs (Plain None) eq_refl).
  rewrite (iterate_suspended_plain None None custom_kwargs g (S n) eq_refl).
  by destruct (iterate (gen_next g) (S n) _).
Qed.

(** X20: without a before and an after hook, a caller that calls the span
    of a function or of a coroutine function, or that iterates over the
    span of a generator or async generator function with a [for] loop, sees
    what it sees of the method itself: the same outcome and events of a
    call, and the same items with the same end for every number of
    resumptions.  (A [for] loop sends nothing to a generator and does not
    see what it returns.) *)
Theorem span_without_hooks_is_the_method custom_kwargs fn self args kwargs :
  call (span None None custom_kwargs fn) self args kwargs = call fn self args kwargs /\
  forall n,
    call_and_iterate (span None None custom_kwargs fn) self args kwargs n
    = call_and_iterate fn self args kwargs n.
Proof.
  assert (Hcall : forall f : @function Self Args K V B CM X,
             wrapper none enter suppresses None None custom_kwargs f self args kwargs
             = f self args kwargs).
  { intros f. unfold wrapper, call_before, call_after.
    unfold mbind, mret, comp_mbind, comp_mret. rewrite comp_bind_ret_l.
    exact (comp_bind_ret_r (f self args kwargs)). }
  destruct fn as [f|f|g|g]; simpl; (split; [|intros n]); try done.
  - f_equal. apply Hcall.
  - f_equal. apply Hcall.
  - f_equal. apply iterate_span_without_hooks.
  - f_equal. apply iterate_span_without_hooks.
Qed.

(** X21: the class decorator adds and removes no member, leaves every
    member whose name starts with an underscore or is one of
    [ignore_functions] exactly as it is, and replaces every other member by
    its span. *)
Theorem wrap_mirascope_class_functions_members_spec
    (cls : gmap string method') handle_before_call handle_after_call custom_kwargs :
  let wrapped := wrap_mirascope_class_functions none enter suppresses cls
                   handle_before_call handle_after_call custom_kwargs in
  dom wrapped = dom cls /\
  (forall name fn,
      cls !! name = Some fn ->
      startswith_underscore name = true \/ name ∈ ignore_functions ->
      wrapped !! name = Some fn) /\
  (forall name fn,
      cls !! name = Some fn ->
      startswith_underscore name = false ->
      name ∉ ignore_functions ->
      wrapped !! name
      = Some (span handle_before_call handle_after_call custom_kwargs fn)).
Proof.
  intros wrapped. subst wrapped. unfold wrap_mirascope_class_functions.
  split; [|split].
  - apply set_eq. intros name. rewrite !elem_of_dom, map_lookup_imap.
    by destruct (cls !! name).
  - intros name fn Hfn Hname. rewrite map_lookup_imap, Hfn. simpl. f_equal.
    destruct Hname as [->|Hin]; [done|].
    by rewrite (bool_decide_eq_true_2 _ Hin), andb_false_r.
  - intros name fn Hfn Hunderscore Hnot. rewrite map_lookup_imap, Hfn. simpl.
    by rewrite Hunderscore, (bool_decide_eq_false_2 _ Hnot).
Qed.

End facts.

(** *** Concrete runs *)

#[local] Abbreviation hooked := (span_with (Some open_span) (Some log_output) ∅).

Lemma open_span_returns (self : string) :
  outcome (call_before (V := nat) (X := Empty_set)
                       (Some open_span) self (∅ : gmap string nat) ∅)
  = Ok (ContextManager "span").
Proof. vm_compute. reflexivity. Qed.

Lemma refuse_raises (self : string) :
  outcome (call_before (V := nat) (X := Empty_set)
                       (Some refuse) self (∅ : gmap string nat) ∅)
  = Raise (Exception "refused").
Proof. vm_compute. reflexivity. Qed.

Lemma span_call_returns_witness :
  call (hooked (Function total)) "calc" [1; 2; 3] ∅
  = Some (Comp [ BeforeCall "calc" ∅; Enter "span";
                 AfterCall "calc" (Value 6) (Some "span") ∅; Exit "span" None ]
               (Ok 6)).
Proof.
  assert (Hafter : outcome (call_after (X := Empty_set) (CM := string)
                                       (Some log_output) "calc" (Value 6) (Some "span")
                                       (∅ : gmap string nat) ∅)
                   = Ok tt) by (vm_compute; reflexivity).
  etrans;
    [exact (span_call_returns (X := Empty_set)
              0 (fun cm : string => Some cm) (fun _ _ => false)
              (Some open_span) (Some log_output) ∅ (Function total)
              "calc" [1; 2; 3] ∅ [] 6 (ContextManager "span")
              eq_refl (open_span_returns "calc") Hafter)|].
  vm_compute. reflexivity.
Defined.

Lemma span_call_method_raises_witness :
  call (hooked (Function failing)) "calc" [1; 2; 3] ∅
  = Some (Comp [ BeforeCall "calc" ∅; Enter "span";
                 Exit "span" (Some (Exception "boom")) ]
               (Raise (Exception "boom"))).
Proof.
  etrans;
    [exact (span_call_method_raises (X := Empty_set)
              0 (fun cm : string => Some cm) (fun _ _ => false)
              (Some open_span) (Some log_output) ∅ (Function failing)
              "calc" [1; 2; 3] ∅ [] (Exception "boom") (ContextManager "span")
              eq_refl (open_span_returns "calc"))|].
  vm_compute. reflexivity.
Defined.

Lemma span_before_hook_raises_witness :
  call (span_with (Some refuse) (Some log_output) ∅ (Function total)) "calc" [1; 2; 3] ∅
  = Some (Comp [BeforeCall "calc" ∅] (Raise (Exception "refused"))) /\
  call_and_iterate (span_with (Some refuse) (Some log_output) ∅ (Generator numbers))
                   "stream" [1; 2; 3] ∅ 4
  = Some ([Happened (BeforeCall "stream" ∅)], Failed (Exception "refused")).
Proof.
  split.
  - etrans;
      [exact (span_before_hook_raises (X := Empty_set)
                0 (fun cm : string => Some cm) (fun _ _ => false)
                (Some refuse) (Some log_output) ∅ (Function total)
                "calc" [1; 2; 3] ∅ (Exception "refused") (refuse_raises "calc"))|].
    vm_compute. reflexivity.
  - etrans;
      [exact (span_before_hook_raises (X := Empty_set)
                0 (fun cm : string => Some cm) (fun _ _ => false)
                (Some refuse) (Some log_output) ∅ (Generator numbers)
                "stream" [1; 2; 3] ∅ (Exception "refused") (refuse_raises "stream") 3)|].
    vm_compute. reflexivity.
Defined.

Lemma span_after_hook_raises_witness :
  call (span_with None (Some reject) ∅ (Function total)) "calc" [1; 2; 3] ∅
  = Some (Comp [AfterCall "calc" (Value 6) None ∅] (Raise (Exception "rejected"))).
Proof.
  assert (Hafter : outcome (call_after (X := Empty_set) (CM := string)
                                       (Some reject) "calc" (Value 6) None
                                       (∅ : gmap string nat) ∅)
                   = Raise (Exception "rejected")) by (vm_compute; reflexivity).
  etrans;
    [exact (span_after_hook_raises (X := Empty_set)
              0 (fun cm : string => Some cm) (fun _ _ => false)
              None (Some reject) ∅ (Function total)
              "calc" [1; 2; 3] ∅ [] 6 (Plain None) (Exception "rejected")
              eq_refl eq_refl Hafter)|].
  vm_compute. reflexivity.
Defined.

Lemma span_keyword_collision_witness :
  call (span_with (Some open_span) (Some log_output) {[ "user" := 2 ]} (Function total))
       "calc" [1; 2; 3] {[ "user" := 1 ]}
  = Some (Comp [] (Raise (TypeError "got multiple values for keyword argument"))) /\
  call (span_with None (Some log_output) {[ "user" := 2 ]} (Function total))
       "calc" [1; 2; 3] {[ "user" := 1 ]}
  = Some (Comp [] (Raise (TypeError "got multiple values for keyword argument"))).
Proof.
  assert (H1 : is_Some (({[ "user" := 1 ]} : gmap string nat) !! "user"))
    by (by eexists).
  assert (H2 : is_Some (({[ "user" := 2 ]} : gmap string nat) !! "user"))
    by (by eexists).
  exact (span_keyword_collision (X := Empty_set)
           0 (fun cm : string => Some cm) (fun _ _ => false)
           open_span log_output {[ "user" := 2 ]} (Function total)
           "calc" [1; 2; 3] {[ "user" := 1 ]} [] 6 "user" H1 H2 eq_refl).
Defined.

Lemma span_generator_raises_witness :
  call_and_iterate (Generator failing_numbers) "stream" [1; 2] ∅ 3
  = Some ([Received 1; Received 2], Failed (Exception "boom")) /\
  call_and_iterate (hooked (Generator failing_numbers)) "stream" [1; 2] ∅ 3
  = Some ([ Happened (BeforeCall "stream" ∅); Happened (Enter "span");
            Received 1; Received 2;
            Happened (Exit "span" (Some (Exception "boom"))) ],
          Failed (Exception "boom")).
Proof.
  split; [reflexivity|].
  etrans;
    [exact (span_generator_raises (X := Empty_set)
              0 (fun cm : string => Some cm) (fun _ _ => false)
              (Some open_span) (Some log_output) ∅ (Generator failing_numbers)
              "stream" [1; 2] ∅ 3 [Received 1; Received 2] (Exception "boom")
              (ContextManager "span") eq_refl (open_span_returns "stream"))|].
  vm_compute. reflexivity.
Defined.

Lemma span_generator_is_lazy_witness :
  call_and_iterate (Generator numbers) "stream" [1; 2; 3] ∅ 2
  = Some ([Received 1; Received 2], Abandoned) /\
  call_and_iterate (hooked (Generator numbers)) "stream" [1; 2; 3] ∅ 2
  = Some ([ Happened (BeforeCall "stream" ∅); Happened (Enter "span");
            Received 1; Received 2 ],
          Abandoned).
Proof.
  split; [reflexivity|].
  etrans;
    [exact (span_generator_is_lazy (X := Empty_set)
              0 (fun cm : string => Some cm) (fun _ _ => false)
              (Some open_span) (Some log_output) ∅ (Generator numbers)
              "stream" [1; 2; 3] ∅ 1 [Received 1; Received 2]
              (ContextManager "span") eq_refl (open_span_returns "stream"))|].
  vm_compute. reflexivity.
Defined.

Lemma wrap_mirascope_class_functions_members_spec_witness :
  let cls : gmap string (method string (list nat) nat nat string string Empty_set) :=
    {[ "stream" := Generator numbers; "_setup" := Function total;
       "model_dump" := Function total ]} in
  let wrapped :=
    wrap_mirascope_class_functions 0 (fun cm : string => Some cm) (fun _ _ => false)
                                   cls (Some open_span) (Some log_output) ∅ in
  wrapped !! "stream" = Some (hooked (Generator numbers)) /\
  wrapped !! "_setup" = Some (Function total) /\
  wrapped !! "model_dump" = Some (Function total).
Proof.
  intros cls wrapped.
  destruct (wrap_mirascope_class_functions_members_spec
              0 (fun cm : string => Some cm) (fun _ _ => false)
              cls (Some open_span) (Some log_output) ∅) as (_ & Hkept & Hwrapped).
  split; [|split].
  - apply Hwrapped; [reflexivity|reflexivity|].
    unfold ignore_functions. rewrite !not_elem_of_cons.
    repeat split; try discriminate. apply not_elem_of_nil.
  - apply Hkept; [reflexivity|by left].
  - apply Hkept; [reflexivity|]. right. unfold ignore_functions.
    rewrite !elem_of_cons. auto 10.
Defined.

End SpanMore.

(** ** Properties of [get_wrapped_client] and [get_wrapped_call] *)

Module OpsFacts.
Import Ops.

Section facts.
Context {Client Call Provider K : Type}.
Context (LangfuseOpenAI LangfuseAsyncOpenAI : option string -> option string -> Client)
        (weave_op : Call -> Call).

Implicit Types (client : Client) (call : Call)
               (wrappers : list (client_wrapper Client))
               (ops : list (llm_op Call Provider K)).


Lemma list_truthy_Some {A} (l : list A) :
  list_truthy (Some l) = negb (bool_decide (l = [])).
Proof. by destruct l. Qed.

Lemma get_wrapped_client_fold client wrappers api_key base_url :
  get_wrapped_client LangfuseOpenAI client (Some wrappers) api_key base_url
  = foldl (wrap_client_step LangfuseOpenAI api_key base_url) (client, []) wrappers.
Proof. unfold get_wrapped_client. by destruct wrappers. Qed.

Lemma get_wrapped_async_client_fold client wrappers api_key base_url :
  get_wrapped_async_client LangfuseAsyncOpenAI client (Some wrappers) api_key base_url
  = foldl (wrap_async_client_step LangfuseAsyncOpenAI api_key base_url)
          (client, []) wrappers.
Proof. unfold get_wrapped_async_client. by destruct wrappers. Qed.

Lemma get_wrapped_call_fold call ops provider kwargs :
  get_wrapped_call weave_op call (Some ops) provider kwargs
  = foldl (wrap_call_step weave_op provider kwargs) call ops.
Proof. unfold get_wrapped_call. by destruct ops. Qed.

(** The client after the loop does not depend on what has been
    instrumented so far. *)
Lemma wrap_client_fold_client api_key base_url wrappers client log1 log2 :
  (foldl (wrap_client_step LangfuseOpenAI api_key base_url) (client, log1) wrappers).1
  = (foldl (wrap_client_step LangfuseOpenAI api_key base_url) (client, log2) wrappers).1.
Proof.
  revert client log1 log2. induction wrappers as [|w wrappers IH]; [done|].
  intros client log1 log2. simpl.
  destruct w as [name|op]; simpl; [|apply IH].
  destruct (bool_decide (name = "langfuse")); [apply IH|].
  destruct (bool_decide (name = "logfire")); apply IH.
Qed.

Lemma wrap_async_client_fold_client api_key base_url wrappers client log1 log2 :
  (foldl (wrap_async_client_step LangfuseAsyncOpenAI api_key base_url)
         (client, log1) wrappers).1
  = (foldl (wrap_async_client_step LangfuseAsyncOpenAI api_key base_url)
           (client, log2) wrappers).1.
Proof.
  revert client log1 log2. induction wrappers as [|w wrappers IH]; [done|].
  intros client log1 log2. simpl.
  destruct w as [name|op]; simpl; [|apply IH].
  destruct (bool_decide (name = "langfuse")); [apply IH|].
  destruct (bool_decide (name = "logfire")); apply IH.
Qed.

(** X22: a ["langfuse"] entry among the client wrappers replaces the
    client by [LangfuseOpenAI(api_key=self.api_key, base_url=self.base_url)]:
    the client returned is what the wrappers listed after that entry make
    of this new client, so the client passed in and every wrapper listed
    before the entry leave no trace in it.  The same holds for the async
    clients, with [LangfuseAsyncOpenAI]. *)
Theorem get_wrapped_client_langfuse_resets
    client wrappers later api_key base_url :
  (get_wrapped_client LangfuseOpenAI client
     (Some (wrappers ++ WrapperName "langfuse" :: later)) api_key base_url).1
  = (get_wrapped_client LangfuseOpenAI (LangfuseOpenAI api_key base_url)
       (Some later) api_key base_url).1 /\
  (get_wrapped_async_client LangfuseAsyncOpenAI client
     (Some (wrappers ++ WrapperName "langfuse" :: later)) api_key base_url).1
  = (get_wrapped_async_client LangfuseAsyncOpenAI
       (LangfuseAsyncOpenAI api_key base_url) (Some later) api_key base_url).1.
Proof.
  rewrite !get_wrapped_client_fold, !get_wrapped_async_client_fold, !foldl_app.
  simpl. split.
  - destruct (foldl _ (client, []) wrappers) as [c l]. simpl.
    apply wrap_client_fold_client.
  - destruct (foldl _ (client, []) wrappers) as [c l]. simpl.
    apply wrap_async_client_fold_client.
Qed.

(** X23: [logfire.instrument_openai] is called on the client as it is when
    the loop reaches the ["logfire"] entry, that is on the client the
    wrappers listed before it have produced, and the entry itself leaves
    the client as it is. *)
Theorem get_wrapped_client_logfire client wrappers later api_key base_url :
  let before :=
    get_wrapped_client LangfuseOpenAI client (Some wrappers) api_key base_url in
  let after :=
    get_wrapped_client LangfuseOpenAI client (Some (wrappers ++ [WrapperName "logfire"]))
                                   api_key base_url in
  after = (before.1, before.2 ++ [before.1]) /\
  (get_wrapped_client LangfuseOpenAI client
     (Some (wrappers ++ WrapperName "logfire" :: later))
                       api_key base_url).1
  = (get_wrapped_client LangfuseOpenAI client (Some (wrappers ++ later))
       api_key base_url).1.
Proof.
  intros before after. subst before after.
  rewrite !get_wrapped_client_fold, !foldl_app. simpl.
  destruct (foldl _ (client, []) wrappers) as [c l]. simpl. split; [done|].
  apply wrap_client_fold_client.
Qed.

(** X24: the operations of [llm_ops] are applied in list order, the first
    one innermost: wrapping with two lists one after the other is wrapping
    with their concatenation.  A name other than ["weave"] is skipped, and
    without operations the call is returned as it is. *)
Theorem get_wrapped_call_composes call ops1 ops2 provider kwargs :
  get_wrapped_call weave_op call (Some (ops1 ++ ops2)) provider kwargs
  = get_wrapped_call weave_op (get_wrapped_call weave_op call (Some ops1) provider kwargs)
                      (Some ops2) provider kwargs /\
  (forall name, name <> "weave" ->
     get_wrapped_call weave_op call (Some (ops1 ++ OpName name :: ops2)) provider kwargs
     = get_wrapped_call weave_op call (Some (ops1 ++ ops2)) provider kwargs) /\
  get_wrapped_call weave_op call None provider kwargs = call /\
  get_wrapped_call weave_op call (Some []) provider kwargs = call.
Proof.
  rewrite !get_wrapped_call_fold, foldl_app. split; [done|]. split; [|done].
  intros name Hname. rewrite !get_wrapped_call_fold, !foldl_app. simpl.
  by rewrite (bool_decide_eq_false_2 _ Hname).
Qed.

End facts.

Lemma get_wrapped_call_composes_witness :
  get_wrapped_call (Provider := string) (K := nat) (traced "weave") ["call"]
    (Some [OpCallable (fun call provider _ => provider :: call);
           OpName "logfire"; OpName "weave"])
    "openai" ∅
  = ["weave"; "openai"; "call"].
Proof.
  pose proof (get_wrapped_call_composes (Provider := string) (K := nat)
                (traced "weave") ["call"]
                [OpCallable (fun call provider _ => provider :: call)]
                [OpName "weave"] "openai" ∅) as (_ & Hskip & _).
  simpl app in Hskip. rewrite (Hskip "logfire") by discriminate. reflexivity.
Defined.

(** With nothing listed after it, the ["langfuse"] entry makes the new
    Langfuse client the one returned. *)
Lemma get_wrapped_client_langfuse_resets_witness :
  (get_wrapped_client (fun api_key base_url => ["langfuse"; default "" api_key])
     ["openai"]
     (Some [WrapperCallable (traced "retry"); WrapperName "langfuse"])
     (Some "sk-1") None).1
  = ["langfuse"; "sk-1"].
Proof.
  exact (proj1 (get_wrapped_client_langfuse_resets
                  (fun api_key base_url => ["langfuse"; default "" api_key])
                  (fun api_key base_url => ["langfuse-async"; default "" api_key])
                  ["openai"] [WrapperCallable (traced "retry")] []
                  (Some "sk-1") None)).
Defined.

(** Clients as the list of what wrapped them, newest first. *)
Example get_wrapped_client_order :
  get_wrapped_client (fun _ _ => ["langfuse"]) ["openai"]
    (Some [ WrapperCallable (traced "retry"); WrapperName "logfire";
            WrapperName "langfuse"; WrapperCallable (traced "cache") ])
    None None
  = (["cache"; "langfuse"], [["retry"; "openai"]]).
Proof. reflexivity. Qed.

End OpsFacts.

(** ** Properties of [GeminiCall.call] and [GeminiCall.stream] *)

Module GeminiFacts.
Import Gemini.

Section facts.
Context {K Messages Model SDKResponse Chunk ToolTypes : Type}.
Context (_setup : gmap string K -> result (gmap string K * ToolTypes))
        (GenerativeModel : K -> Model)
        (messages : result Messages)
        (generate_content : @request K Messages Model -> result SDKResponse)
        (iterate_response : SDKResponse -> list Chunk).


Lemma pop_tools_spec (kwargs : gmap string K) :
  (pop_tools kwargs).1 = kwargs !! "tools" /\
  (pop_tools kwargs).2 = delete "tools" kwargs.
Proof.
  unfold pop_tools. destruct (kwargs !! "tools") as [tools|] eqn:Htools; simpl.
  - done.
  - split; [done|]. symmetry. by apply delete_id.
Qed.

(** X25: when [_setup] returns arguments with a ["model"] entry and the
    [messages] property returns, what [call] and [stream] do depends on a
    ["stream"] entry of these arguments.  Without one, each makes one call
    of [generate_content], on the model named by the ["model"] entry, with
    the ["tools"] entry (or [None]) as [tools]; neither ["model"] nor
    ["tools"] is among the keyword arguments forwarded, and every other
    entry is forwarded as it is; the two calls differ in the [stream] flag
    only.  With a ["stream"] entry the explicit [stream=] argument collides
    with it: both raise [TypeError] and [generate_content] is not called. *)
Theorem call_forwards_arguments
    kwargs kwargs' tool_types model contents now1 now2 :
  _setup kwargs = Ok (kwargs', tool_types) ->
  kwargs' !! "model" = Some model ->
  messages = Ok contents ->
  match kwargs' !! "stream" with
  | None =>
      exists forwarded,
        (call _setup GenerativeModel messages generate_content kwargs now1 now2).1
        = [GenerateContent (GenerativeModel model) contents false
                           (kwargs' !! "tools") forwarded] /\
        (stream _setup GenerativeModel messages generate_content iterate_response
                kwargs).1
        = [GenerateContent (GenerativeModel model) contents true
                           (kwargs' !! "tools") forwarded] /\
        forall key,
          forwarded !! key
          = if decide (key = "model" \/ key = "tools") then None else kwargs' !! key
  | Some _ =>
      call _setup GenerativeModel messages generate_content kwargs now1 now2
      = ([], Raise multiple_values_for_stream) /\
      stream _setup GenerativeModel messages generate_content iterate_response kwargs
      = ([], Raise multiple_values_for_stream)
  end.
Proof.
  intros Hsetup Hmodel Hmessages.
  unfold call, stream, pop, call_generate_content.
  rewrite Hsetup, Hmodel, Hmessages.
  destruct (pop_tools_spec (delete "model" kwargs')) as [Htools Hrest].
  destruct (pop_tools (delete "model" kwargs')) as [tools rest].
  simpl in Htools, Hrest. subst tools rest.
  rewrite !lookup_delete_ne by done.
  destruct (kwargs' !! "stream") as [value|]; [done|].
  exists (delete "tools" (delete "model" kwargs')).
  split; [by destruct (generate_content _)|].
  split; [by destruct (generate_content _)|].
  intros key. case_decide as Hkey.
  - destruct Hkey as [-> | ->].
    + rewrite lookup_delete_ne by done. apply lookup_delete_eq.
    + apply lookup_delete_eq.
  - rewrite !lookup_delete_ne; [done| |]; intros <-; tauto.
Qed.

(** X26: when the arguments [_setup] returned have no ["model"] entry,
    [call] and [stream] raise [KeyError] and nothing is requested from the
    SDK. *)
Theorem call_needs_model kwargs kwargs' tool_types now1 now2 :
  _setup kwargs = Ok (kwargs', tool_types) ->
  kwargs' !! "model" = None ->
  call _setup GenerativeModel messages generate_content kwargs now1 now2
  = ([], Raise (KeyError "model")) /\
  stream _setup GenerativeModel messages generate_content iterate_response kwargs
  = ([], Raise (KeyError "model")).
Proof.
  intros Hsetup Hmodel. unfold call, stream, pop.
  by rewrite Hsetup, Hmodel.
Qed.

End facts.

Lemma call_forwards_arguments_witness :
  (exists forwarded,
     (call example__setup id (Ok ["USER: hello"]) echo
           {[ "temperature" := "0.2" ]} (S754_zero false) (S754_zero false)).1
     = [GenerateContent "gemini-1.0-pro" ["USER: hello"] false
                        (Some "format_book") forwarded] /\
     forwarded !! "temperature" = Some "0.2" /\
     forwarded !! "model" = None /\
     forwarded !! "tools" = None) /\
  call example__setup id (Ok ["USER: hello"]) echo
       {[ "stream" := "yes" ]} (S754_zero false) (S754_zero false)
  = ([], Raise multiple_values_for_stream).
Proof.
  split.
  - assert (Hmodel : (({[ "temperature" := "0.2" ]} ∪ example_call_params)
                        : gmap string string) !! "model" = Some "gemini-1.0-pro")
      by (vm_compute; reflexivity).
    assert (Htools : (({[ "temperature" := "0.2" ]} ∪ example_call_params)
                        : gmap string string) !! "tools" = Some "format_book")
      by (vm_compute; reflexivity).
    assert (Htemperature : (({[ "temperature" := "0.2" ]} ∪ example_call_params)
                              : gmap string string) !! "temperature" = Some "0.2")
      by (vm_compute; reflexivity).
    assert (Hstream : (({[ "temperature" := "0.2" ]} ∪ example_call_params)
                         : gmap string string) !! "stream" = None)
      by (vm_compute; reflexivity).
    pose proof (call_forwards_arguments example__setup id (Ok ["USER: hello"]) echo
                  (fun r : list string => r)
                  {[ "temperature" := "0.2" ]}
                  ({[ "temperature" := "0.2" ]} ∪ example_call_params)
                  ["FormatBook"] "gemini-1.0-pro" ["USER: hello"]
                  (S754_zero false) (S754_zero false)
                  eq_refl Hmodel eq_refl) as Hrun.
    rewrite Hstream in Hrun. destruct Hrun as (forwarded & Hcall & _ & Hforwarded).
    exists forwarded. rewrite <- Htools. split; [exact Hcall|].
    rewrite !Hforwarded, Htemperature. repeat split.
  - assert (Hmodel : (({[ "stream" := "yes" ]} ∪ example_call_params)
                        : gmap string string) !! "model" = Some "gemini-1.0-pro")
      by (vm_compute; reflexivity).
    assert (Hstream : (({[ "stream" := "yes" ]} ∪ example_call_params)
                         : gmap string string) !! "stream" = Some "yes")
      by (vm_compute; reflexivity).
    pose proof (call_forwards_arguments example__setup id (Ok ["USER: hello"]) echo
                  (fun r : list string => r)
                  {[ "stream" := "yes" ]}
                  ({[ "stream" := "yes" ]} ∪ example_call_params)
                  ["FormatBook"] "gemini-1.0-pro" ["USER: hello"]
                  (S754_zero false) (S754_zero false)
                  eq_refl Hmodel eq_refl) as Hrun.
    rewrite Hstream in Hrun. exact (proj1 Hrun).
Defined.

Lemma call_needs_model_witness :
  call (fun kwargs : gmap string string => Ok (kwargs, ["FormatBook"]))
       id (Ok ["USER: hello"]) echo
       {[ "temperature" := "0.2" ]} (S754_zero false) (S754_zero false)
  = ([], Raise (KeyError "model")).
Proof.
  assert (Hmodel : ({[ "temperature" := "0.2" ]} : gmap string string) !! "model"
                   = None)
    by (vm_compute; reflexivity).
  exact (proj1 (call_needs_model
                  (fun kwargs : gmap string string => Ok (kwargs, ["FormatBook"]))
                  id (Ok ["USER: hello"]) echo (fun r : list string => r)
                  {[ "temperature" := "0.2" ]} {[ "temperature" := "0.2" ]}
                  ["FormatBook"] (S754_zero false) (S754_zero false)
                  eq_refl Hmodel)).
Defined.

End GeminiFacts.

(** ** The span of a generator and [send] *)

Module SpanSendFacts.
Import Span SpanSend SpanFacts SpanMore.

Section facts.
Context {Self Args K V B CM X : Type}.
Context (none : V) (enter : CM -> option B) (suppresses : CM -> exn -> bool).

Implicit Types (fn : sendable_generator_function Self Args K V B CM X)
               (self : Self) (args : Args) (kwargs custom_kwargs : gmap string K)
               (sent : list V).

(** Driving a wrapping generator is iterating over it, whatever is sent. *)
Lemma drive_wrapper handle_before_call handle_after_call custom_kwargs fn sent :
  forall state : @wrapper_state Self Args K V B CM (send_state fn),
    let run := drive (send_next (wrapper_generator_send none enter suppresses
                                   handle_before_call handle_after_call
                                   custom_kwargs fn))
                     sent state in
    let loop := iterate (wrapper_next enter suppresses handle_before_call
                                      handle_after_call custom_kwargs
                                      (for_loop_view none fn))
                        (length sent) state in
    run.1 = loop.1 /\ completion_of run.2 = loop.2 /\
    forall r, run.2 = Finished r -> r = none.
Proof.
  set (next := send_next (wrapper_generator_send none enter suppresses
                            handle_before_call handle_after_call custom_kwargs fn)).
  set (next' := wrapper_next enter suppresses handle_before_call handle_after_call
                             custom_kwargs (for_loop_view none fn)).
  assert (Hnext : forall state x,
             next state x
             = (let '(events, step) := next' state in
                (events,
                 match step with
                 | Yield v state' => Yielded v state'
                 | Stop => Returned none
                 | Throw e => Thrown e
                 end))) by reflexivity.
  clearbody next next'.
  induction sent as [|x sent IH]; intros state; cbn [drive iterate length]; [done|].
  rewrite Hnext. destruct (next' state) as [events [v state'| |e]].
  - destruct (IH state') as (Hitems & Hend & Hreturn).
    destruct (drive next sent state') as [items c].
    destruct (iterate next' (length sent) state') as [items' c'].
    simpl in *. by subst.
  - simpl. split; [done|]. split; [done|]. by intros r [= <-].
  - done.
Qed.

(** Driving a generator with [None] each time is iterating over it with a
    [for] loop. *)
Lemma drive_for_loop_view fn n :
  forall state,
    let run := drive (send_next fn) (replicate n none) state in
    let loop := iterate (gen_next (for_loop_view none fn)) n state in
    run.1 = loop.1 /\ completion_of run.2 = loop.2.
Proof.
  set (next' := gen_next (for_loop_view none fn)).
  assert (Hnext : forall state,
             next' state
             = (let '(events, step) := send_next fn state none in
                (events,
                 match step with
                 | Yielded v state' => Yield v state'
                 | Returned _ => Stop
                 | Thrown e => Throw e
                 end))) by reflexivity.
  clearbody next'.
  induction n as [|n IH]; intros state; cbn [drive iterate replicate]; [done|].
  rewrite Hnext. destruct (send_next fn state none) as [events [v state'|r|e]];
    try done.
  destruct (IH state') as (Hitems & Hend).
  destruct (drive (send_next fn) (replicate n none) state') as [items c].
  destruct (iterate next' n state') as [items' c'].
  simpl in *. by subst.
Qed.

Lemma completion_of_inj (c c' : send_completion V) :
  completion_of c = completion_of c' ->
  (forall r, c = Finished r -> r = none) ->
  c = match c' with Finished _ => Finished none | _ => c' end.
Proof.
  destruct c as [r| |], c' as [r'| |]; simpl; try done.
  - intros _ Hr. by rewrite (Hr r eq_refl).
  - by intros [= ->].
Qed.

(** X27: the span of a generator function does not pass on what its caller
    sends, nor what the wrapped generator returns.  Whatever the hooks,
    what the caller gets does not depend on the values it sends.  Without
    hooks it gets what the wrapped generator gives when it is sent [None]
    each time, and at the end [None] in place of the value the wrapped
    generator returned. *)
Theorem span_drops_sent_values
    handle_before_call handle_after_call custom_kwargs fn self args kwargs sent :
  let span_of := wrapper_generator_send none enter suppresses in
  call_and_send none (span_of handle_before_call handle_after_call custom_kwargs fn)
                self args kwargs sent
  = call_and_send none (span_of handle_before_call handle_after_call custom_kwargs fn)
                  self args kwargs (replicate (length sent) none) /\
  call_and_send none (span_of None None custom_kwargs fn) self args kwargs sent
  = returning_none none
      (call_and_send none fn self args kwargs (replicate (length sent) none)).
Proof.
  intros span_of. subst span_of. unfold call_and_send.
  change (send_start (wrapper_generator_send none enter suppresses ?hb ?ha
                        custom_kwargs fn) self args kwargs)
    with (@Created Self Args K V B CM (send_state fn) self args kwargs).
  split.
  - pose proof (drive_wrapper handle_before_call handle_after_call custom_kwargs fn
                  (none :: sent) (Created self args kwargs)) as (H1 & H2 & H3).
    pose proof (drive_wrapper handle_before_call handle_after_call custom_kwargs fn
                  (none :: replicate (length sent) none) (Created self args kwargs))
      as (H1' & H2' & H3').
    simpl length in *. rewrite length_replicate in *.
    pose proof (eq_trans H1 (eq_sym H1')) as Hitems.
    pose proof (eq_trans H2 (eq_sym H2')) as Hend.
    clear H1 H2 H1' H2'.
    destruct (drive _ (none :: sent) _) as [items c].
    destruct (drive _ (none :: replicate _ _) _) as [items' c'].
    simpl in *. subst items'. f_equal.
    rewrite (completion_of_inj _ _ Hend H3).
    destruct c' as [r| |]; try done. by rewrite (H3' r eq_refl).
  - pose proof (drive_wrapper None None custom_kwargs fn
                  (none :: sent) (Created self args kwargs)) as (H1 & H2 & H3).
    pose proof (drive_for_loop_view fn (S (length sent))
                  (send_start fn self args kwargs)) as (H1' & H2').
    pose proof (iterate_span_without_hooks enter suppresses custom_kwargs
                  (for_loop_view none fn) self args kwargs (S (length sent)))
      as Hiter.
    change (replicate (S (length sent)) none)
      with (none :: replicate (length sent) none) in *.
    simpl length in *.
    pose proof (eq_trans H1 (eq_trans (f_equal fst Hiter) (eq_sym H1'))) as Hitems.
    pose proof (eq_trans H2 (eq_trans (f_equal snd Hiter) (eq_sym H2'))) as Hend.
    clear H1 H2 H1' H2' Hiter.
    destruct (drive _ (none :: sent) _) as [items c].
    destruct (drive (send_next fn) _ _) as [items' c'].
    unfold returning_none. simpl in *. subst items'. f_equal.
    rewrite (completion_of_inj _ _ Hend H3). by destruct c'.
Qed.

End facts.

Lemma span_drops_sent_values_witness :
  call_and_send 0
    (wrapper_generator_send 0 (fun cm : string => Some cm) (fun _ _ => false)
                            None None ∅ echo)
    "self" [] ∅ [5; 7; 9]
  = returning_none 0 (call_and_send 0 echo "self" [] ∅ [0; 0; 0]).
Proof.
  exact (proj2 (span_drops_sent_values
                  0 (fun cm : string => Some cm) (fun _ _ => false)
                  None None ∅ echo "self" [] ∅ [5; 7; 9])).
Defined.

(** The caller sends [5] and [7].  The generator itself yields them back
    and returns [3]; through its span it is sent [None] (here [0]) each
    time, and the caller gets [None] at the end. *)
Example echo_and_its_span :
  call_and_send 0 echo "self" [] ∅ [5; 7]
  = ([Received 0; Received 5; Received 7], StillSuspended) /\
  call_and_send 0 echo "self" [] ∅ [5; 7; 9]
  = ([Received 0; Received 5; Received 7], Finished 3) /\
  call_and_send 0
    (wrapper_generator_send 0 (fun cm : string => Some cm) (fun _ _ => false)
                            None None ∅ echo)
    "self" [] ∅ [5; 7; 9]
  = ([Received 0; Received 0; Received 0], Finished 0).
Proof. repeat split. Qed.

End SpanSendFacts.
